(** * The Python scanner of flyctl ([scanner/python.go]), embedded and verified

    The Go functions of [scanner/python.go] are translated one by one into
    Rocq functions over byte strings.  Go's [string] is a sequence of bytes:
    it is modelled by [string], whose characters ([ascii]) are the bytes.
    Everything the scanner obtains from its environment (files, the
    directory walk, the TOML and JSON decoders, the interpreter probe) is a
    field of the record [World]; the Unicode tables of Go's runtime are
    Variables of the section. *)

From Stdlib Require Import ZArith Ascii String List Bool Lia.
From stdpp Require Import base strings gmap list.

Local Open Scope Z_scope.

(** ** Bytes *)

Definition byteZ (c : ascii) : Z := Z.of_N (N_of_ascii c).
Definition chr (z : Z) : ascii := ascii_of_N (Z.to_N z).

(** ** Package [unicode/utf8] *)

Module utf8.

Definition RuneError : Z := 0xFFFD.
Definition MaxRune : Z := 0x10FFFF.
Definition RuneSelf : Z := 0x80.

(** [utf8.ValidRune] *)
Definition ValidRune (r : Z) : bool :=
  ((0 <=? r) && (r <? 0xD800)) || ((0xDFFF <? r) && (r <=? MaxRune)).

(** The table [first] together with [acceptRanges]: for a leading byte of a
    multi-byte sequence, the length of the sequence and the range accepted
    for its second byte. *)
Definition first (b0 : Z) : option (Z * Z * Z) :=
  if (0xC2 <=? b0) && (b0 <=? 0xDF) then Some (2, 0x80, 0xBF)
  else if b0 =? 0xE0 then Some (3, 0xA0, 0xBF)
  else if (0xE1 <=? b0) && (b0 <=? 0xEC) then Some (3, 0x80, 0xBF)
  else if b0 =? 0xED then Some (3, 0x80, 0x9F)
  else if (0xEE <=? b0) && (b0 <=? 0xEF) then Some (3, 0x80, 0xBF)
  else if b0 =? 0xF0 then Some (4, 0x90, 0xBF)
  else if (0xF1 <=? b0) && (b0 <=? 0xF3) then Some (4, 0x80, 0xBF)
  else if b0 =? 0xF4 then Some (4, 0x80, 0x8F)
  else None.

Definition within (lo hi : Z) (c : ascii) : bool :=
  (lo <=? byteZ c) && (byteZ c <=? hi).

(** The runes of a string in order, as [for _, c := range s] and
    [utf8.DecodeRuneInString] produce them, each with the bytes it was
    decoded from.  A byte that starts no well-formed sequence is the rune
    [RuneError] of width 1.  The masks and shifts of the Go code
    ([s0&mask2<<6 | s1&maskx], ...) are written with [-], [*] and [+]. *)
Fixpoint runes (s : string) : list (Z * string) :=
  match s with
  | EmptyString => []
  | String c0 s1 =>
      let b0 := byteZ c0 in
      let invalid := (RuneError, String c0 EmptyString) :: runes s1 in
      if b0 <? RuneSelf then (b0, String c0 EmptyString) :: runes s1
      else
        match first b0 with
        | None => invalid
        | Some (sz, lo, hi) =>
            match s1 with
            | String c1 s2 =>
                if within lo hi c1 then
                  if sz =? 2 then
                    ((b0 - 0xC0) * 64 + (byteZ c1 - 0x80),
                     String c0 (String c1 EmptyString)) :: runes s2
                  else
                    match s2 with
                    | String c2 s3 =>
                        if within 0x80 0xBF c2 then
                          if sz =? 3 then
                            ((b0 - 0xE0) * 4096 + (byteZ c1 - 0x80) * 64 + (byteZ c2 - 0x80),
                             String c0 (String c1 (String c2 EmptyString))) :: runes s3
                          else
                            match s3 with
                            | String c3 s4 =>
                                if within 0x80 0xBF c3 then
                                  ((b0 - 0xF0) * 262144 + (byteZ c1 - 0x80) * 4096
                                   + (byteZ c2 - 0x80) * 64 + (byteZ c3 - 0x80),
                                   String c0 (String c1 (String c2 (String c3 EmptyString))))
                                  :: runes s4
                                else invalid
                            | EmptyString => invalid
                            end
                        else invalid
                    | EmptyString => invalid
                    end
                else invalid
            | EmptyString => invalid
            end
        end
  end.

(** [utf8.AppendRune(nil, r)]: the UTF-8 encoding of [r]; a rune that is
    out of range or a surrogate is encoded as [RuneError]. *)
Definition EncodeRune (r : Z) : string :=
  if (0 <=? r) && (r <? 0x80) then String (chr r) EmptyString
  else if (0x80 <=? r) && (r <? 0x800) then
    String (chr (0xC0 + r / 64)) (String (chr (0x80 + r mod 64)) EmptyString)
  else if ((0x800 <=? r) && (r <? 0xD800)) || ((0xDFFF <? r) && (r <? 0x10000)) then
    String (chr (0xE0 + r / 4096))
      (String (chr (0x80 + (r / 64) mod 64)) (String (chr (0x80 + r mod 64)) EmptyString))
  else if (0x10000 <=? r) && (r <=? MaxRune) then
    String (chr (0xF0 + r / 262144))
      (String (chr (0x80 + (r / 4096) mod 64))
         (String (chr (0x80 + (r / 64) mod 64)) (String (chr (0x80 + r mod 64)) EmptyString)))
  else String (chr 0xEF) (String (chr 0xBF) (String (chr 0xBD) EmptyString)).

End utf8.

(** ** Package [strings] *)

Module strings.

(** [strings.HasPrefix(s, prefix)] *)
Fixpoint HasPrefix (s prefix : string) {struct prefix} : bool :=
  match prefix with
  | EmptyString => true
  | String p prefix' =>
      match s with
      | EmptyString => false
      | String c s' => if Ascii.eqb c p then HasPrefix s' prefix' else false
      end
  end.

(** [strings.Contains(s, substr)] *)
Fixpoint Contains (s substr : string) : bool :=
  HasPrefix s substr ||
  match s with
  | EmptyString => false
  | String _ s' => Contains s' substr
  end.

(** [strings.Split(s, sep)[0]] for a separator that is not empty (every
    call of [python.go] passes a literal): the part of [s] before the first
    occurrence of [sep], and [s] itself when [sep] does not occur. *)
Fixpoint SplitFirst (s sep : string) : string :=
  match s with
  | EmptyString => EmptyString
  | String c s' => if HasPrefix s sep then EmptyString else String c (SplitFirst s' sep)
  end.

Fixpoint drop (n : nat) (s : string) : string :=
  match n, s with
  | S n', String _ s' => drop n' s'
  | _, _ => s
  end.

(** [strings.TrimPrefix(s, prefix)] *)
Definition TrimPrefix (s prefix : string) : string :=
  if HasPrefix s prefix then drop (String.length prefix) s else s.

Fixpoint forallb (p : ascii -> bool) (s : string) : bool :=
  match s with
  | EmptyString => true
  | String c s' => p c && forallb p s'
  end.

Fixpoint map (f : ascii -> ascii) (s : string) : string :=
  match s with
  | EmptyString => EmptyString
  | String c s' => String (f c) (map f s')
  end.

Fixpoint concat (l : list string) : string :=
  match l with
  | [] => EmptyString
  | s :: l' => s +:+ concat l'
  end.

(** [strings.Map(mapping, s)]: every rune of [s] is replaced by the encoding
    of its image; a negative image is dropped, and an ill-formed byte enters
    [mapping] as [utf8.RuneError]. *)
Definition Map (mapping : Z -> Z) (s : string) : string :=
  concat (List.map (fun rc : Z * string =>
                      let r := mapping (fst rc) in
                      if r <? 0 then EmptyString else utf8.EncodeRune r)
                   (utf8.runes s)).

Definition isASCII (s : string) : bool :=
  forallb (fun c => byteZ c <? utf8.RuneSelf) s.

Definition lowerByte (c : ascii) : ascii :=
  if (65 <=? byteZ c) && (byteZ c <=? 90) then chr (byteZ c + 32) else c.

(** [strings.ToLower(s)]: the ASCII-only path of the Go code lowers the bytes
    ['A'..'Z']; any other string goes through [Map(unicode.ToLower, s)]. *)
Definition ToLower (unicode_ToLower : Z -> Z) (s : string) : string :=
  if isASCII s then map lowerByte s else Map unicode_ToLower s.

Fixpoint dropWhile {A} (f : A -> bool) (l : list A) : list A :=
  match l with
  | [] => []
  | x :: l' => if f x then dropWhile f l' else l
  end.

(** [strings.TrimFunc(s, f)]: the runes satisfying [f] are removed from both
    ends; what is left keeps its own bytes.  (Go finds the right end with
    [utf8.DecodeLastRuneInString], which cuts [s] into the same runes as the
    forward decoder.) *)
Definition TrimFunc (s : string) (f : Z -> bool) : string :=
  let g := fun rc : Z * string => f (fst rc) in
  concat (List.map snd (rev (dropWhile g (rev (dropWhile g (utf8.runes s)))))).

End strings.


(** ** Package [path/filepath] (slash-separated paths) *)

Module filepath.

Definition isSep (c : ascii) : bool := Ascii.eqb c "/".

(** The part of a reversed path before its first separator, put back in
    order: the last element of the path. *)
Fixpoint lastElem (rs : list ascii) (acc : string) : string :=
  match rs with
  | [] => acc
  | c :: rs' => if isSep c then acc else lastElem rs' (String c acc)
  end.

(** The loop of [filepath.Ext], on the reversed path: [acc] holds the bytes
    already passed, in order. *)
Fixpoint extLoop (rs : list ascii) (acc : string) : string :=
  match rs with
  | [] => EmptyString
  | c :: rs' =>
      if isSep c then EmptyString
      else if Ascii.eqb c "." then String c acc
      else extLoop rs' (String c acc)
  end.

(** [filepath.Ext(path)]: the suffix starting at the last dot of the last
    element of [path], empty when that element has no dot. *)
Definition Ext (path : string) : string :=
  extLoop (rev (list_ascii_of_string path)) EmptyString.

(** [filepath.Base(path)]: the last element of [path] once its trailing
    separators are removed; ["."] for the empty path and ["/"] for a path of
    separators only. *)
Definition Base (path : string) : string :=
  match path with
  | EmptyString => "."
  | _ =>
      match strings.dropWhile isSep (rev (list_ascii_of_string path)) with
      | [] => "/"
      | rs => lastElem rs EmptyString
      end
  end.

End filepath.

(** ** Package [bufio]: a [Scanner] with the default split function *)

Module bufio.

Definition MaxScanTokenSize : N := 65536.

(** The pieces of a text between its newlines; the piece after the last
    newline counts only when it is not empty ([bufio.ScanLines] at EOF). *)
Fixpoint rawLines (s : string) : list string :=
  match s with
  | EmptyString => []
  | String c s' =>
      if Ascii.eqb c "010" then EmptyString :: rawLines s'
      else
        match rawLines s' with
        | [] => [String c EmptyString]
        | l :: ls => String c l :: ls
        end
  end.

(** [dropCR]: one trailing carriage return is removed. *)
Fixpoint dropCR (s : string) : string :=
  match s with
  | EmptyString => EmptyString
  | String c EmptyString => if Ascii.eqb c "013" then EmptyString else s
  | String c s' => String c (dropCR s')
  end.

(** The tokens [scanner.Text()] takes in a loop [for scanner.Scan()] over a
    file with the given content, and whether [scanner.Err()] is set when the
    loop ends: the scanner gives up ([ErrTooLong]) at a line that does not
    fit its buffer of [MaxScanTokenSize] bytes. *)
Fixpoint scanRaw (ls : list string) : list string * bool :=
  match ls with
  | [] => ([], false)
  | l :: ls' =>
      if (MaxScanTokenSize <=? N.of_nat (String.length l))%N then ([], true)
      else let '(toks, err) := scanRaw ls' in (dropCR l :: toks, err)
  end.

Definition scanLines (content : string) : list string * bool :=
  scanRaw (rawLines content).

End bufio.

(** ** Package [regexp], for the two patterns of [extractPythonVersion]

    The patterns of [python.go] are built from literal bytes, byte classes,
    one-or-more repetitions of a class, an optional group and one capturing
    group.  The matcher below backtracks in the order of Go's leftmost-first
    semantics: a repetition takes as many bytes as it can before it gives
    some back, an optional group is tried before it is skipped, and the
    start positions are tried from left to right.  Go matches runes rather
    than bytes; for classes of ASCII characters and their complements the
    two agree on whether and where a pattern matches, since every byte of a
    multi-byte rune lies outside ASCII. *)

Module regexp.

Inductive Regexp : Type :=
| Lit (c : ascii)
| Class (p : ascii -> bool)
| Cat (r1 r2 : Regexp)
| Plus (p : ascii -> bool)
| Opt (r : Regexp)
| Group (r : Regexp).

(** The bytes of [s], then [r]. *)
Fixpoint lits (s : string) (r : Regexp) : Regexp :=
  match s with
  | EmptyString => r
  | String c s' => Cat (Lit c) (lits s' r)
  end.

Fixpoint take (n : nat) (s : string) : string :=
  match n, s with
  | S n', String c s' => String c (take n' s')
  | _, _ => EmptyString
  end.

(** What [s] has in front of its suffix [s']. *)
Definition consumed (s s' : string) : string :=
  take (String.length s - String.length s') s.

Section Matcher.
Context {R : Type}.

Fixpoint plus (p : ascii -> bool) (s : string) (k : string -> option R) : option R :=
  match s with
  | EmptyString => None
  | String c s' =>
      if p c then
        match plus p s' k with
        | Some x => Some x
        | None => k s'
        end
      else None
  end.

(** [run r s cap k]: match [r] at the front of [s], then hand the rest of
    the input and the text of the capturing group to [k]. *)
Fixpoint run (r : Regexp) (s : string) (cap : string)
    (k : string -> string -> option R) : option R :=
  match r with
  | Lit c =>
      match s with
      | String d s' => if Ascii.eqb d c then k s' cap else None
      | EmptyString => None
      end
  | Class p =>
      match s with
      | String d s' => if p d then k s' cap else None
      | EmptyString => None
      end
  | Cat r1 r2 => run r1 s cap (fun s' cap' => run r2 s' cap' k)
  | Plus p => plus p s (fun s' => k s' cap)
  | Opt r1 =>
      match run r1 s cap k with
      | Some x => Some x
      | None => k s cap
      end
  | Group r1 => run r1 s cap (fun s' _ => k s' (consumed s s'))
  end.

End Matcher.

Definition matchAt (re : Regexp) (s : string) : option (list string) :=
  run re s EmptyString (fun s' cap => Some [consumed s s'; cap]).

(** [re.FindStringSubmatch(s)]: the text of the leftmost match and of its
    capturing group; [nil] (here [[]]) when nothing matches. *)
Fixpoint FindStringSubmatch (re : Regexp) (s : string) : list string :=
  match matchAt re s with
  | Some m => m
  | None =>
      match s with
      | EmptyString => []
      | String _ s' => FindStringSubmatch re s'
      end
  end.

(** [re.MatchString(s)] *)
Definition MatchString (re : Regexp) (s : string) : bool :=
  match FindStringSubmatch re s with
  | [] => false
  | _ :: _ => true
  end.

(** The language of a pattern. *)
Inductive matches : Regexp -> string -> Prop :=
| m_lit c : matches (Lit c) (String c EmptyString)
| m_class (p : ascii -> bool) c : p c = true -> matches (Class p) (String c EmptyString)
| m_cat r1 r2 s1 s2 : matches r1 s1 -> matches r2 s2 -> matches (Cat r1 r2) (s1 +:+ s2)
| m_plus_one (p : ascii -> bool) c : p c = true -> matches (Plus p) (String c EmptyString)
| m_plus_more (p : ascii -> bool) c s :
    p c = true -> matches (Plus p) s -> matches (Plus p) (String c s)
| m_opt_skip r : matches (Opt r) EmptyString
| m_opt_take r s : matches r s -> matches (Opt r) s
| m_group r s : matches r s -> matches (Group r) s.

Definition isDigit (c : ascii) : bool := (48 <=? byteZ c) && (byteZ c <=? 57).
Definition isLetter (c : ascii) : bool :=
  ((97 <=? byteZ c) && (byteZ c <=? 122)) || ((65 <=? byteZ c) && (byteZ c <=? 90)).

End regexp.

(** ** Results, errors and terminal output *)

Inductive GoError : Type :=
| errorsNew (msg : string)                    (* errors.New, fmt.Errorf *)
| errorsWrap (cause : GoError) (msg : string) (* errors.Wrap *)
| PathError (op path : string)                (* os.ReadFile, os.Open, a read *)
| DecodeError (format : string)               (* toml.Unmarshal *)
| ErrTooLong.                                 (* bufio.Scanner *)

(** A Go function returning [(T, error)] either returns a value, returns an
    error, or panics. *)
Inductive Result (A : Type) : Type :=
| Ok (a : A)
| Err (e : GoError)
| Panic.
Arguments Ok {A} a.
Arguments Err {A} e.
Arguments Panic {A}.

Inductive LogLine : Type :=
| Info (msg : string)   (* terminal.Info *)
| Warn (msg : string).  (* terminal.Warn *)

(** A computation that writes to the terminal and then returns, fails or
    panics. *)
Definition M (A : Type) : Type := list LogLine * Result A.

Definition ret {A} (a : A) : M A := ([], Ok a).
Definition fail {A} (e : GoError) : M A := ([], Err e).
Definition panic {A} : M A := ([], Panic).
Definition say (l : LogLine) : M unit := ([l], Ok tt).

Definition bind {A B} (m : M A) (k : A -> M B) : M B :=
  match m with
  | (out, Ok a) => let '(out', r) := k a in (out ++ out', r)
  | (out, Err e) => (out, Err e)
  | (out, Panic) => (out, Panic)
  end.

#[global] Instance M_ret : MRet M := @ret.
#[global] Instance M_bind : MBind M := fun A B k m => bind m k.

(** ** The data of [python.go] *)

Inductive PyDepStyle : Type := Poetry | Pipenv | Pep621 | Pip.

Definition PyDepStyle_string (s : PyDepStyle) : string :=
  match s with
  | Poetry => "poetry"
  | Pipenv => "pipenv"
  | Pep621 => "pep621"
  | Pip => "pip"
  end.

(** [type PyApp string] *)
Definition PyApp : Type := string.
Definition FastAPI : PyApp := "fastapi".
Definition Flask : PyApp := "flask".
Definition Streamlit : PyApp := "streamlit".

Definition supportedApps : list PyApp := [FastAPI; Flask; Streamlit].

(** A value decoded from TOML into [interface{}]. *)
#[warnings="-register-all"]
Inductive TomlValue : Type :=
| TomlString (s : string)
| TomlInteger (z : Z)
| TomlFloat (repr : string)
| TomlBool (b : bool)
| TomlDatetime (repr : string)
| TomlArray (l : list TomlValue)
| TomlTable (t : list (string * TomlValue)).

(** A [map[string]interface{}] is kept as the list of its entries in the
    order in which [for dep := range deps] visits them (Go leaves that order
    open); [None] is the nil map.  The keys of a map are distinct. *)
Definition TomlMap : Type := option (list (string * TomlValue)).

Fixpoint mapIndex (m : list (string * TomlValue)) (key : string) : option TomlValue :=
  match m with
  | [] => None
  | (k, v) :: m' => if String.eqb k key then Some v else mapIndex m' key
  end.

Record PyProjectProject : Type := {
  project_Name : string;
  project_Version : string;
  project_Dependencies : option (list string);   (* [None]: the nil slice *)
  project_RequiresPython : string
}.

Record PyProjectPoetry : Type := {
  poetry_Name : string;
  poetry_Version : string;
  poetry_Dependencies : TomlMap
}.

Record PyProjectToml : Type := {
  Project : PyProjectProject;
  Tool_Poetry : PyProjectPoetry
}.

Record PipfileRequires : Type := { PythonVersion : string }.

Record Pipfile : Type := {
  Packages : TomlMap;
  Requires : PipfileRequires
}.

Record PipfileLock : Type := { Meta_Requires : PipfileRequires }.

Record PyCfg : Type := {
  pyVersion : string;
  appName : string;
  deps : list string;
  depStyle : PyDepStyle
}.

(** A value of the template variables [map[string]interface{}]. *)
Inductive Var : Type :=
| VarString (s : string)
| VarBool (b : bool).

(** The files of a [SourceInfo] come from [templates] and
    [templatesExecute], which render embedded templates; the calls are kept
    as they are made. *)
Inductive SourceFiles : Type :=
| noFiles
| templates (dir : string)
| templatesExecute (dir : string) (vars : gmap string Var).

(** [plan.RuntimeStruct] *)
Record RuntimeStruct : Type := {
  Language : string;
  Version : string
}.

(** The fields of [SourceInfo] that [python.go] sets; a field that a
    literal leaves out has its zero value. *)
Record SourceInfo : Type := {
  Files : SourceFiles;
  Builder : string;
  Family : string;
  Port : Z;
  Env : gmap string string;
  SkipDeploy : bool;
  DeployDocs : string;
  ObjectStorageDesired : bool;
  Runtime : RuntimeStruct
}.

Definition quote : string := String (chr 34) EmptyString.

(** ** The environment of one run *)

(** One call of the function given to [filepath.Walk]: the path, and
    whether [Walk] reports an error for it. *)
Record WalkEntry : Type := {
  walk_path : string;
  walk_err : bool
}.

Record World : Type := {
  (** [checksPass(sourceDir, fileExists(names...))] *)
  checksPass_fileExists : string -> list string -> bool;
  (** the content of a file of the working directory that can be opened and
      read to its end ([os.ReadFile], [os.Open]) *)
  os_file : string -> option string;
  (** for a file that cannot: the error of [os.Open], or the error of the
      read when the file opens and yields no byte, as a directory does (a
      read that fails after it gave some bytes is not in this model) *)
  os_error : string -> GoError;
  (** the calls [filepath.Walk(".", fn)] makes as long as [fn] returns nil *)
  filepath_Walk : list WalkEntry;
  (** [toml.Unmarshal] and [json.Unmarshal] at the three types decoded *)
  toml_Unmarshal_PyProjectToml : string -> option PyProjectToml;
  toml_Unmarshal_Pipfile : string -> option Pipfile;
  json_Unmarshal_PipfileLock : string -> option PipfileLock;
  (** [exec.Command(name, "--version").CombinedOutput()], [None] on error *)
  exec_CombinedOutput : string -> option string
}.

(** ** The functions of [python.go] *)

Section Scanner.

(** [unicode.ToLower] and [unicode.IsDigit]: tables of Go's runtime. *)
Variable unicode_ToLower : Z -> Z.
Variable unicode_IsDigit : Z -> bool.

(** [parsePyDep]: remove all version constraints from a python dependency. *)
Definition parsePyDep (dep : string) : string :=
  let dep := strings.ToLower unicode_ToLower dep in
  let dep := strings.SplitFirst dep ";" in
  let dep := strings.SplitFirst dep " " in
  let dep := strings.SplitFirst dep "[" in
  let dep := strings.SplitFirst dep "==" in
  let dep := strings.SplitFirst dep ">" in
  let dep := strings.SplitFirst dep "<" in
  let dep := strings.SplitFirst dep "~=" in
  dep.

(** [readLines]: the lines of a file; the nil slice of Go (no line was
    appended) is the empty list. *)
Definition readLines (w : World) (filename : string) : M (list string) :=
  match os_file w filename with
  | None => fail (os_error w filename)
  | Some content =>
      let '(lines, err) := bufio.scanLines content in
      if err then fail ErrTooLong else mret lines
  end.

(** The loop of the function [findEntrypoint] gives to [filepath.Walk], over
    the lines of one file. *)
Fixpoint scanForImport (dep : string) (name : string) (lines : list string)
    (entrypoint : option string) : option string :=
  match lines with
  | [] => entrypoint
  | line :: lines' =>
      scanForImport dep name lines'
        (if strings.Contains line "import" && strings.Contains line dep
         then Some name else entrypoint)
  end.

(** [filepath.Walk] with the function of [findEntrypoint]: the walk ends at
    the first call that returns an error, and [findEntrypoint] drops that
    error. *)
Fixpoint walkEntrypoint (w : World) (dep : string) (entries : list WalkEntry)
    (entrypoint : option string) : option string :=
  match entries with
  | [] => entrypoint
  | e :: entries' =>
      let path := walk_path e in
      if walk_err e then entrypoint
      else if String.eqb (filepath.Ext path) ".py" && negb (strings.Contains path ".venv") then
        match os_file w path with
        | None => entrypoint
        | Some content =>
            let '(lines, err) := bufio.scanLines content in
            let entrypoint := scanForImport dep path lines entrypoint in
            if err then entrypoint else walkEntrypoint w dep entries' entrypoint
        end
      else walkEntrypoint w dep entries' entrypoint
  end.

(** [findEntrypoint]: the file found, by its name, or [None] for nil. *)
Definition findEntrypoint (w : World) (dep : string) : option string :=
  walkEntrypoint w dep (filepath_Walk w) None.

(** [slices.Contains] on strings *)
Definition slices_Contains (l : list string) (x : string) : bool :=
  existsb (String.eqb x) l.

(** The loop of [intoSource] over [cfg.deps], started with [app]: the
    framework it ends with, or [None] when it leaves the function at a
    second supported framework. *)
Fixpoint scanApps (deps : list string) (app : PyApp) : option PyApp :=
  match deps with
  | [] => Some app
  | dep :: deps' =>
      if slices_Contains supportedApps dep && String.eqb app EmptyString then scanApps deps' dep
      else if slices_Contains supportedApps dep && negb (String.eqb app EmptyString) then None
      else scanApps deps' app
  end.

(** The second half of [intoSource], from [runtime := ...] on, for the
    framework [app] the loop ended with. *)
Definition buildSource (w : World) (cfg : PyCfg) (vars : gmap string Var) (app : PyApp)
    : M (option SourceInfo) :=
  let runtime := {| Language := "python"; Version := EmptyString |} in
  let vars := <[PyDepStyle_string (depStyle cfg) := VarBool true]> vars in
  let objectStorage :=
    slices_Contains (deps cfg) "boto3" || slices_Contains (deps cfg) "boto" in
  if String.eqb app EmptyString then
    say (Warn "No supported Python frameworks found");;
    mret None
  else if String.eqb app FastAPI then
    let vars := <["fastapi" := VarBool true]> vars in
    mret (Some {| Files := templatesExecute "templates/python-docker" vars;
                  Builder := EmptyString; Family := "FastAPI"; Port := 8000;
                  Env := ∅; SkipDeploy := false; DeployDocs := EmptyString;
                  ObjectStorageDesired := objectStorage; Runtime := runtime |})
  else if String.eqb app Flask then
    let vars := <["flask" := VarBool true]> vars in
    mret (Some {| Files := templatesExecute "templates/python-docker" vars;
                  Builder := EmptyString; Family := "Flask"; Port := 8080;
                  Env := ∅; SkipDeploy := false; DeployDocs := EmptyString;
                  ObjectStorageDesired := objectStorage; Runtime := runtime |})
  else if String.eqb app Streamlit then
    let vars := <["streamlit" := VarBool true]> vars in
    match findEntrypoint w "streamlit" with
    | None => mret None
    | Some name =>
        let vars := <["entrypoint" := VarString name]> vars in
        mret (Some {| Files := templatesExecute "templates/python-docker" vars;
                      Builder := EmptyString; Family := "Streamlit"; Port := 8501;
                      Env := ∅; SkipDeploy := false; DeployDocs := EmptyString;
                      ObjectStorageDesired := objectStorage; Runtime := runtime |})
    end
  else mret None.

Definition intoSource (w : World) (cfg : PyCfg) : M (option SourceInfo) :=
  let vars : gmap string Var := ∅ in
  let vars := <["pyVersion" := VarString (pyVersion cfg)]> vars in
  let vars := <["appName" := VarString (appName cfg)]> vars in
  match scanApps (deps cfg) EmptyString with
  | None =>
      say (Warn "Multiple supported Python frameworks found");;
      mret None
  | Some app => buildSource w cfg vars app
  end.

(** The pattern
    [Python ([0-9]+\.[0-9]+\.[0-9]+(?:[a-zA-Z]+[0-9]+)?)]. *)
Definition pythonVersionRe : regexp.Regexp :=
  regexp.lits "Python "
    (regexp.Group
       (regexp.Cat (regexp.Plus regexp.isDigit)
       (regexp.Cat (regexp.Lit ".")
       (regexp.Cat (regexp.Plus regexp.isDigit)
       (regexp.Cat (regexp.Lit ".")
       (regexp.Cat (regexp.Plus regexp.isDigit)
                   (regexp.Opt (regexp.Cat (regexp.Plus regexp.isLetter)
                                           (regexp.Plus regexp.isDigit))))))))).

(** The pattern [[^0-9.]]. *)
Definition nonNumericRegex : regexp.Regexp :=
  regexp.Class (fun c => negb (regexp.isDigit c || Ascii.eqb c ".")).

(** The end of [extractPythonVersion], from [regexp.MustCompile] on: the
    version found in the output of the interpreter. *)
Definition matchPythonVersion (pythonVersionOutput : string) : M (string * bool) :=
  match regexp.FindStringSubmatch pythonVersionRe pythonVersionOutput with
  | _ :: version :: _ =>
      let pinned := regexp.MatchString nonNumericRegex version in
      mret (version, pinned)
  | _ => fail (errorsNew "Could not find Python version")
  end.

(** The first step of [extractPythonVersion]: the version that
    [Pipfile.lock] declares, when the file can be read and decoded and the
    field is not empty. *)
Definition pipfileLockVersion (w : World) : option string :=
  match os_file w "Pipfile.lock" with
  | Some contents =>
      match json_Unmarshal_PipfileLock w contents with
      | Some pipfileLock =>
          let pyVersion := PythonVersion (Meta_Requires pipfileLock) in
          if String.eqb pyVersion EmptyString then None else Some pyVersion
      | None => None
      end
  | None => None
  end.

(** The second step: what [python3 --version] prints, else what
    [python --version] prints, else the fallback. *)
Definition pythonVersionOutput (w : World) : string :=
  match exec_CombinedOutput w "python3" with
  | Some out => out
  | None =>
      match exec_CombinedOutput w "python" with
      | Some out => out
      | None => "Python 3.12.0"
      end
  end.

Definition extractPythonVersion (w : World) : M (string * bool) :=
  match pipfileLockVersion w with
  | Some pyVersion => mret (pyVersion, true)
  | None => matchPythonVersion (pythonVersionOutput w)
  end.

(** The keys of a map, as the loops [for dep := range deps] meet them. *)
Definition mapKeys (m : list (string * TomlValue)) : list string := List.map fst m.

Definition configPoetry (w : World) (sourceDir : string) : M (option SourceInfo) :=
  if negb (checksPass_fileExists w sourceDir ["poetry.lock"])
     || negb (checksPass_fileExists w sourceDir ["pyproject.toml"])
  then mret None
  else
    say (Info "Detected Poetry project");;
    match os_file w "pyproject.toml" with
    | None =>
        fail (errorsWrap (os_error w "pyproject.toml") "Error reading pyproject.toml")
    | Some doc =>
        match toml_Unmarshal_PyProjectToml w doc with
        | None => fail (errorsWrap (DecodeError "toml") "Error parsing pyproject.toml")
        | Some pyProject =>
            let appName := poetry_Name (Tool_Poetry pyProject) in
            match poetry_Dependencies (Tool_Poetry pyProject) with
            | None => fail (errorsNew "No dependencies found in pyproject.toml")
            | Some deps =>
                let depList := List.map parsePyDep (mapKeys deps) in
                match mapIndex deps "python" with
                | Some (TomlString pyVersion) =>
                    let pyVersion := strings.TrimPrefix pyVersion "^" in
                    let pyVersion := parsePyDep pyVersion in
                    intoSource w {| pyVersion := pyVersion; appName := appName;
                                    deps := depList; depStyle := Poetry |}
                | _ => panic
                end
            end
        end
    end.

Definition configPyProject (w : World) (sourceDir : string) : M (option SourceInfo) :=
  if negb (checksPass_fileExists w sourceDir ["pyproject.toml"]) then mret None
  else
    say (Info "Detected pyproject.toml");;
    match os_file w "pyproject.toml" with
    | None =>
        fail (errorsWrap (os_error w "pyproject.toml") "Error reading pyproject.toml")
    | Some doc =>
        match toml_Unmarshal_PyProjectToml w doc with
        | None => fail (errorsWrap (DecodeError "toml") "Error parsing pyproject.toml")
        | Some pyProject =>
            match project_Dependencies (Project pyProject) with
            | None => fail (errorsNew "No dependencies found in pyproject.toml")
            | Some deps =>
                let depList := List.map (fun dep => parsePyDep (parsePyDep dep)) deps in
                let appName := project_Name (Project pyProject) in
                let pyVersion := project_RequiresPython (Project pyProject) in
                pyVersion ←
                  (if String.eqb pyVersion EmptyString then
                     '(extracted, _) ← extractPythonVersion w;
                     mret extracted
                   else
                     mret (strings.TrimFunc pyVersion
                             (fun r => negb (unicode_IsDigit r) && negb (r =? 46))));
                intoSource w {| pyVersion := pyVersion; appName := appName;
                                deps := depList; depStyle := Pep621 |}
            end
        end
    end.

Definition configPipfile (w : World) (sourceDir : string) : M (option SourceInfo) :=
  if negb (checksPass_fileExists w sourceDir ["Pipfile"; "Pipfile.lock"]) then mret None
  else
    say (Info "Detected Pipfile");;
    match os_file w "Pipfile" with
    | None => fail (errorsWrap (os_error w "Pipfile") "Error reading Pipfile")
    | Some doc =>
        match toml_Unmarshal_Pipfile w doc with
        | None => fail (errorsWrap (DecodeError "toml") "Error parsing Pipfile")
        | Some pipfile =>
            match Packages pipfile with
            | None => fail (errorsNew "No packages found in Pipfile")
            | Some deps =>
                let depList := List.map parsePyDep (mapKeys deps) in
                '(pyVersion, _) ← extractPythonVersion w;
                let appName := filepath.Base sourceDir in
                intoSource w {| pyVersion := pyVersion; appName := appName;
                                deps := depList; depStyle := Pipenv |}
            end
        end
    end.

Definition configRequirements (w : World) (sourceDir : string) : M (option SourceInfo) :=
  let continue (deps : list string) : M (option SourceInfo) :=
    match deps with
    | [] => fail (errorsNew "No dependencies found in requirements file")
    | _ =>
        let depList := List.map parsePyDep deps in
        '(pyVersion, _) ← extractPythonVersion w;
        let appName := filepath.Base sourceDir in
        intoSource w {| pyVersion := pyVersion; appName := appName;
                        deps := depList; depStyle := Pip |}
    end in
  if checksPass_fileExists w sourceDir ["requirements.txt"] then
    say (Info "Detected requirements.txt");;
    req_deps ← readLines w "requirements.txt";
    continue req_deps
  else if checksPass_fileExists w sourceDir ["requirements.in"] then
    say (Info "Detected requirements.in");;
    req_deps ← readLines w "requirements.in";
    continue req_deps
  else mret None.

(** [src, err := f(); if src != nil || err != nil { return src, err }]
    followed by the rest of the function. *)
Definition orElse (m rest : M (option SourceInfo)) : M (option SourceInfo) :=
  src ← m;
  match src with
  | Some _ => mret src
  | None => rest
  end.

Definition configurePython (w : World) (sourceDir : string) : M (option SourceInfo) :=
  orElse (configPoetry w sourceDir)
  (orElse (configPyProject w sourceDir)
  (orElse (configPipfile w sourceDir)
  (orElse (configRequirements w sourceDir)
    (if negb (checksPass_fileExists w sourceDir
                ["requirements.txt"; "environment.yml"; "poetry.lock"; "Pipfile";
                 "setup.py"; "setup.cfg"])
     then mret None
     else
       '(pythonVersion, _) ← extractPythonVersion w;
       mret (Some {| Files := templates "templates/python";
                     Builder := "paketobuildpacks/builder:base";
                     Family := "Python";
                     Port := 8080;
                     Env := {[ "PORT" := "8080" ]};
                     SkipDeploy := true;
                     DeployDocs := "We have generated a simple Procfile for you. Modify it to fit your needs and run "
                                   +:+ quote +:+ "fly deploy" +:+ quote
                                   +:+ " to deploy your application.";
                     ObjectStorageDesired := false;
                     Runtime := {| Language := "python"; Version := pythonVersion |} |}))))).

End Scanner.

(** ** Notions of the specification *)

(** A list that stands for the set of the names in [names]: it has no
    duplicates and the same members. *)
Definition exactly (l names : list string) : Prop :=
  NoDup l /\ forall d, d ∈ l <-> d ∈ names.

(** The entries of a dependency list that name a supported framework, in
    order and with their repetitions. *)
Definition frameworkEntries (deps : list string) : list string :=
  List.filter (slices_Contains supportedApps) deps.

(** A non-empty string of ASCII digits. *)
Definition digitString (s : string) : Prop :=
  s <> EmptyString /\ strings.forallb regexp.isDigit s = true.


(** The encodings of a list of runes, one after the other. *)
Definition encodeAll (rs : list Z) : string :=
  strings.concat (List.map utf8.EncodeRune rs).

(** A string in lower case: the encoding of valid runes that
    [unicode.ToLower] leaves as they are. *)
Definition lowered (unicode_ToLower : Z -> Z) (s : string) : Prop :=
  exists rs, s = encodeAll rs /\
             Forall (fun r => utf8.ValidRune r = true /\ unicode_ToLower r = r) rs.

(** A byte outside ASCII. *)
Definition highByte (c : ascii) : bool := 0x80 <=? byteZ c.

(** The characters that the specification names for [parsePyDep]. *)
Definition constraintChars : list ascii := [";"; "["; "="; ">"; "<"; "~"]%char.

(** One of these characters occurs in [s] and is not its last character. *)
Fixpoint delimiterBeforeContent (s : string) : bool :=
  match s with
  | String c (String _ _ as s') =>
      existsb (Ascii.eqb c) constraintChars || delimiterBeforeContent s'
  | _ => false
  end.

(** The separators at which [parsePyDep] cuts. *)
Definition separators : list string := [";"; " "; "["; "=="; ">"; "<"; "~="].

(** A file that [findEntrypoint] reads: the extension is [.py] and the
    path does not contain [.venv]. *)
Definition isPythonSource (path : string) : bool :=
  String.eqb (filepath.Ext path) ".py" && negb (strings.Contains path ".venv").

(** A line with both [import] and the name of the dependency. *)
Definition importsDep (dep line : string) : bool :=
  strings.Contains line "import" && strings.Contains line dep.

(** The walk ends at an entry that [Walk] reports with an error, and at a
    Python source that cannot be opened or scanned to its end. *)
Definition stopsWalk (w : World) (e : WalkEntry) : bool :=
  walk_err e ||
  (isPythonSource (walk_path e) &&
   match os_file w (walk_path e) with
   | None => true
   | Some content => snd (bufio.scanLines content)
   end).

(** The entries the walk visits, in order. *)
Fixpoint visited (w : World) (entries : list WalkEntry) : list WalkEntry :=
  match entries with
  | [] => []
  | e :: entries' => e :: (if stopsWalk w e then [] else visited w entries')
  end.

(** A Python source in which a scanned line imports the dependency. *)
Definition fileMatches (w : World) (dep : string) (e : WalkEntry) : bool :=
  negb (walk_err e) && isPythonSource (walk_path e) &&
  match os_file w (walk_path e) with
  | None => false
  | Some content => existsb (importsDep dep) (fst (bufio.scanLines content))
  end.

(** The files visited that match, in the order of the walk. *)
Definition matchingFiles (w : World) (dep : string) : list string :=
  List.map walk_path (List.filter (fileMatches w dep) (visited w (filepath_Walk w))).

(** ** Source trees used as examples *)

Definition newline : string := String (chr 10) EmptyString.

(** [unicode.ToLower] and [unicode.IsDigit] cut down to ASCII. *)
Definition asciiToLower (r : Z) : Z :=
  if (65 <=? r) && (r <=? 90) then r + 32 else r.
Definition asciiIsDigit (r : Z) : bool := (48 <=? r) && (r <=? 57).

(** [unicode.ToLower] cut down to Latin-1: the letters A to Z, and the
    letters from U+00C0 to U+00DE but for the sign U+00D7. *)
Definition latin1ToLower (r : Z) : Z :=
  if (65 <=? r) && (r <=? 90) then r + 32
  else if (0xC0 <=? r) && (r <=? 0xDE) && negb (r =? 0xD7) then r + 32
  else r.

(** A configuration with the given dependencies. *)
Definition cfgOf (l : list string) : PyCfg :=
  {| pyVersion := "3.11.2"; appName := "app"; deps := l; depStyle := Pip |}.

(** A directory without files, where no interpreter is installed. *)
Definition emptyWorld : World := {|
  checksPass_fileExists := fun _ _ => false;
  os_file := fun _ => None;
  os_error := PathError "open";
  filepath_Walk := [];
  toml_Unmarshal_PyProjectToml := fun _ => None;
  toml_Unmarshal_Pipfile := fun _ => None;
  json_Unmarshal_PipfileLock := fun _ => None;
  exec_CombinedOutput := fun _ => None
|}.

(** The files of a world, given as a list of names and contents;
    [checksPass] with [fileExists] holds when one of the names exists. *)
Definition lookupFile (files : list (string * string)) (name : string) : option string :=
  snd <$> List.find (fun f => String.eqb (fst f) name) files.

Definition anyExists (files : list (string * string)) (names : list string) : bool :=
  existsb (fun n => bool_decide (is_Some (lookupFile files n))) names.

(** A directory with the given files, where [python3 --version] prints
    [banner]. *)
Definition worldOf (files : list (string * string)) (banner : string) : World := {|
  checksPass_fileExists := fun _ names => anyExists files names;
  os_file := lookupFile files;
  os_error := PathError "open";
  filepath_Walk :=
    {| walk_path := "."; walk_err := false |}
    :: List.map (fun f => {| walk_path := fst f; walk_err := false |}) files;
  toml_Unmarshal_PyProjectToml := fun _ => None;
  toml_Unmarshal_Pipfile := fun _ => None;
  json_Unmarshal_PipfileLock := fun _ => None;
  exec_CombinedOutput := fun name => if String.eqb name "python3" then Some banner else None
|}.

(** A directory where [python3 --version] prints the given text and there
    is no [Pipfile.lock]. *)
Definition probeWorld (text : string) : World := worldOf [] text.

(** A [Pipfile.lock] that declares the given interpreter version. *)
Definition lockWorld (version : string) : World := {|
  checksPass_fileExists := fun _ names => anyExists [("Pipfile.lock", "{}")] names;
  os_file := lookupFile [("Pipfile.lock", "{}")];
  os_error := PathError "open";
  filepath_Walk := [];
  toml_Unmarshal_PyProjectToml := fun _ => None;
  toml_Unmarshal_Pipfile := fun _ => None;
  json_Unmarshal_PipfileLock :=
    fun _ => Some {| Meta_Requires := {| PythonVersion := version |} |};
  exec_CombinedOutput := fun _ => None
|}.

(** A Poetry project: [poetry.lock] and a [pyproject.toml] whose table
    [tool.poetry.dependencies] is [deps] and which has no [project] table. *)
Definition poetryWorld (deps : list (string * TomlValue)) : World := {|
  checksPass_fileExists :=
    fun _ names => anyExists [("poetry.lock", "lock"); ("pyproject.toml", "toml")] names;
  os_file := lookupFile [("poetry.lock", "lock"); ("pyproject.toml", "toml")];
  os_error := PathError "open";
  filepath_Walk := [];
  toml_Unmarshal_PyProjectToml :=
    fun _ => Some {| Project := {| project_Name := EmptyString;
                                   project_Version := EmptyString;
                                   project_Dependencies := None;
                                   project_RequiresPython := EmptyString |};
                     Tool_Poetry := {| poetry_Name := "app";
                                       poetry_Version := "0.1.0";
                                       poetry_Dependencies := Some deps |} |};
  toml_Unmarshal_Pipfile := fun _ => None;
  json_Unmarshal_PipfileLock := fun _ => None;
  exec_CombinedOutput := fun _ => None
|}.

Definition banner : string := "Python 3.11.2" +:+ newline.

(** [requirements.txt] lists flask once, or twice. *)
Definition flaskOnce : World :=
  worldOf [("requirements.txt", "flask" +:+ newline)] banner.
Definition flaskTwice : World :=
  worldOf [("requirements.txt", "flask" +:+ newline +:+ "flask" +:+ newline)] banner.

(** [requirements.txt] lists one package, which is no supported framework. *)
Definition requestsOnly : World :=
  worldOf [("requirements.txt", "requests" +:+ newline)] banner.


(** Poetry projects without a supported framework, with and without the
    entry [python]. *)
Definition poetryNoFramework : World :=
  poetryWorld [("python", TomlString "^3.10"); ("requests", TomlString "^2.31")].
Definition poetryNoPython : World :=
  poetryWorld [("requests", TomlString "^2.31"); ("flask", TomlString "^3.0")].

(** Two Streamlit scripts next to the requirements. *)
Definition twoScripts : World :=
  worldOf [("a.py", "import streamlit as st" +:+ newline);
           ("b.py", "from streamlit import write" +:+ newline);
           ("requirements.txt", "streamlit" +:+ newline)] banner.

(** ** Further notions *)

(** The template variables that [intoSource] sets before it looks at the
    framework. *)
Definition baseVars (cfg : PyCfg) : gmap string Var :=
  <[PyDepStyle_string (depStyle cfg) := VarBool true]>
    (<["appName" := VarString (appName cfg)]>
       (<["pyVersion" := VarString (pyVersion cfg)]> ∅)).

(** Family and port of the three frameworks. *)
Definition frameworkFamily (app : PyApp) : string * Z :=
  if String.eqb app FastAPI then ("FastAPI", 8000)
  else if String.eqb app Flask then ("Flask", 8080)
  else ("Streamlit", 8501).

(** A project with flask, boto3 and one more package. *)
Definition flaskBoto : PyCfg :=
  {| pyVersion := "3.11.2"; appName := "shop";
     deps := ["requests"; "flask"; "boto3"]; depStyle := Poetry |}.

(** A Poetry project with flask that also has a [requirements.txt] with
    fastapi. *)
Definition poetryAndRequirements : World := {|
  checksPass_fileExists :=
    fun _ names => anyExists [("poetry.lock", "lock"); ("pyproject.toml", "toml");
                              ("requirements.txt", "fastapi" +:+ newline)] names;
  os_file := lookupFile [("poetry.lock", "lock"); ("pyproject.toml", "toml");
                         ("requirements.txt", "fastapi" +:+ newline)];
  os_error := PathError "open";
  filepath_Walk := [];
  toml_Unmarshal_PyProjectToml :=
    fun _ => Some {| Project := {| project_Name := EmptyString;
                                   project_Version := EmptyString;
                                   project_Dependencies := None;
                                   project_RequiresPython := EmptyString |};
                     Tool_Poetry := {| poetry_Name := "app";
                                       poetry_Version := "0.1.0";
                                       poetry_Dependencies :=
                                         Some [("python", TomlString "^3.11");
                                               ("flask", TomlString "^3.0")] |} |};
  toml_Unmarshal_Pipfile := fun _ => None;
  json_Unmarshal_PipfileLock := fun _ => None;
  exec_CombinedOutput := fun name => if String.eqb name "python3" then Some banner else None
|}.

(** A directory with only [setup.py]. *)
Definition setupOnly : World := worldOf [("setup.py", "setup()")] banner.

(** The family and port of every descriptor of the scanner. *)
Definition pythonFamilies : list (string * Z) :=
  [("FastAPI", 8000); ("Flask", 8080); ("Streamlit", 8501); ("Python", 8080)].

(** The marker files of the generic path. *)
Definition markerFiles : list string :=
  ["requirements.txt"; "environment.yml"; "poetry.lock"; "Pipfile"; "setup.py"; "setup.cfg"].

(** The language of a pattern together with the text of its capturing
    group: [captures r s cap cap'] when [r] matches [s] and the group text
    goes from [cap] to [cap']. *)
Inductive captures : regexp.Regexp -> string -> string -> string -> Prop :=
| c_lit c cap : captures (regexp.Lit c) (String c EmptyString) cap cap
| c_class (p : ascii -> bool) c cap :
    p c = true -> captures (regexp.Class p) (String c EmptyString) cap cap
| c_cat r1 r2 s1 s2 cap cap1 cap2 :
    captures r1 s1 cap cap1 -> captures r2 s2 cap1 cap2 ->
    captures (regexp.Cat r1 r2) (s1 +:+ s2) cap cap2
| c_plus (p : ascii -> bool) s cap :
    regexp.matches (regexp.Plus p) s -> captures (regexp.Plus p) s cap cap
| c_opt_skip r cap : captures (regexp.Opt r) EmptyString cap cap
| c_opt_take r s cap cap' : captures r s cap cap' -> captures (regexp.Opt r) s cap cap'
| c_group r s cap cap' : captures r s cap cap' -> captures (regexp.Group r) s cap s.

(** A non-empty string of ASCII letters. *)
Definition letterString (s : string) : Prop :=
  s <> EmptyString /\ strings.forallb regexp.isLetter s = true.

(** A digit or a dot: the characters outside the class [[^0-9.]]. *)
Definition digitOrDot (c : ascii) : bool := regexp.isDigit c || Ascii.eqb c ".".

(** The cuts of [parsePyDep], after the lowering. *)
Definition cutAll (dep : string) : string :=
  strings.SplitFirst
    (strings.SplitFirst
       (strings.SplitFirst
          (strings.SplitFirst
             (strings.SplitFirst
                (strings.SplitFirst (strings.SplitFirst dep ";") " ") "[") "==") ">") "<")
    "~=".

(** A byte with which a separator starts. *)
Definition separatorChar (c : ascii) : bool :=
  existsb (Ascii.eqb c) [";"; " "; "["; "="; ">"; "<"; "~"]%char.

(** The world [w] in which [pyproject.toml] decodes to [p], and the one in
    which [Pipfile] decodes to [p]. *)
Definition withPyProject (w : World) (p : PyProjectToml) : World := {|
  checksPass_fileExists := checksPass_fileExists w;
  os_file := os_file w;
  os_error := os_error w;
  filepath_Walk := filepath_Walk w;
  toml_Unmarshal_PyProjectToml := fun _ => Some p;
  toml_Unmarshal_Pipfile := toml_Unmarshal_Pipfile w;
  json_Unmarshal_PipfileLock := json_Unmarshal_PipfileLock w;
  exec_CombinedOutput := exec_CombinedOutput w
|}.

Definition withPipfile (w : World) (p : Pipfile) : World := {|
  checksPass_fileExists := checksPass_fileExists w;
  os_file := os_file w;
  os_error := os_error w;
  filepath_Walk := filepath_Walk w;
  toml_Unmarshal_PyProjectToml := toml_Unmarshal_PyProjectToml w;
  toml_Unmarshal_Pipfile := fun _ => Some p;
  json_Unmarshal_PipfileLock := json_Unmarshal_PipfileLock w;
  exec_CombinedOutput := exec_CombinedOutput w
|}.

(** A [pyproject.toml] of Poetry with the given table of dependencies. *)
Definition poetryProject (name : string) (table : list (string * TomlValue)) : PyProjectToml :=
  {| Project := {| project_Name := EmptyString; project_Version := EmptyString;
                   project_Dependencies := None; project_RequiresPython := EmptyString |};
     Tool_Poetry := {| poetry_Name := name; poetry_Version := "0.1.0";
                       poetry_Dependencies := Some table |} |}.

(** A project with a [pyproject.toml] whose [project] table declares the
    given dependencies and [requires-python], and in which no interpreter
    runs. *)
Definition pep621World (dependencies : list string) (requires : string) : World := {|
  checksPass_fileExists := fun _ names => anyExists [("pyproject.toml", "toml")] names;
  os_file := lookupFile [("pyproject.toml", "toml")];
  os_error := PathError "open";
  filepath_Walk := [];
  toml_Unmarshal_PyProjectToml :=
    fun _ => Some {| Project := {| project_Name := "shop";
                                   project_Version := "1.0";
                                   project_Dependencies := Some dependencies;
                                   project_RequiresPython := requires |};
                     Tool_Poetry := {| poetry_Name := EmptyString;
                                       poetry_Version := EmptyString;
                                       poetry_Dependencies := None |} |};
  toml_Unmarshal_Pipfile := fun _ => None;
  json_Unmarshal_PipfileLock := fun _ => None;
  exec_CombinedOutput := fun _ => Some "not an interpreter"
|}.

(** The function given to [strings.TrimFunc] in [configPyProject]. *)
Definition notVersionRune (unicode_IsDigit : Z -> bool) (r : Z) : bool :=
  negb (unicode_IsDigit r) && negb (r =? 46).

(** A text file: every line is followed by a line feed, or by a carriage
    return and a line feed when its flag is set. *)
Fixpoint writeLines (lines : list (string * bool)) : string :=
  match lines with
  | [] => EmptyString
  | (line, crlf) :: lines' =>
      line +:+ (if crlf then String (chr 13) newline else newline) +:+ writeLines lines'
  end.

(** The last byte of a string is a carriage return. *)
Fixpoint endsWithCR (s : string) : bool :=
  match s with
  | EmptyString => false
  | String c EmptyString => Ascii.eqb c (chr 13)
  | String _ s' => endsWithCR s'
  end.

(** A line that a text file can hold and the scanner can read back: no line
    feed in it, no carriage return at its end, and short enough for the
    buffer with its carriage return. *)
Definition plainLine (line : string) : Prop :=
  strings.forallb (fun c => negb (Ascii.eqb c (chr 10))) line = true /\
  endsWithCR line = false /\
  (N.of_nat (String.length line) + 1 < bufio.MaxScanTokenSize)%N.

(** A [requirements.txt] written line by line, the last line with a
    carriage return. *)
Definition threeLines : list (string * bool) :=
  [("flask", false); (EmptyString, false); ("boto3", true)].
Definition writtenRequirements : World :=
  worldOf [("requirements.txt", writeLines threeLines)] banner.

(** The world [w] where opening [name] yields [content]; the existence
    checks, the walk, the decoders and the interpreters are those of [w]. *)
Definition withFile (w : World) (name content : string) : World := {|
  checksPass_fileExists := checksPass_fileExists w;
  os_file := fun n => if String.eqb n name then Some content else os_file w n;
  os_error := os_error w;
  filepath_Walk := filepath_Walk w;
  toml_Unmarshal_PyProjectToml := toml_Unmarshal_PyProjectToml w;
  toml_Unmarshal_Pipfile := toml_Unmarshal_Pipfile w;
  json_Unmarshal_PipfileLock := json_Unmarshal_PipfileLock w;
  exec_CombinedOutput := exec_CombinedOutput w
|}.

(** The manifests that the detectors and the resolver open. *)
Definition manifestNames : list string :=
  ["pyproject.toml"; "Pipfile"; "Pipfile.lock"; "requirements.txt"; "requirements.in"].

(** The dependency table of a Poetry project whose [python] constraint is a
    range. *)
Definition rangeTable : list (string * TomlValue) :=
  [("python", TomlString ">=3.9,<4.0"); ("flask", TomlString "^2.3")].

(** The matching files of the whole tree, in the order of the walk, whether
    the walk gets to them or not. *)
Definition treeMatches (w : World) (dep : string) : list string :=
  List.map walk_path (List.filter (fileMatches w dep) (filepath_Walk w)).

(** A tree in which [a.py] and [c.py] import streamlit, and [b.py], between
    them in the order of the walk, is a directory: it opens and cannot be
    read. *)
Definition brokenWalk : World := {|
  checksPass_fileExists := fun _ _ => false;
  os_file := lookupFile [("a.py", "import streamlit as st" +:+ newline);
                         ("c.py", "import streamlit" +:+ newline)];
  os_error := PathError "read";
  filepath_Walk := [{| walk_path := "."; walk_err := false |};
                    {| walk_path := "a.py"; walk_err := false |};
                    {| walk_path := "b.py"; walk_err := false |};
                    {| walk_path := "c.py"; walk_err := false |}];
  toml_Unmarshal_PyProjectToml := fun _ => None;
  toml_Unmarshal_Pipfile := fun _ => None;
  json_Unmarshal_PipfileLock := fun _ => None;
  exec_CombinedOutput := fun _ => None
|}.

(** The dependency table of a Poetry project whose [python] constraint is a
    caret constraint. *)
Definition caretTable : list (string * TomlValue) :=
  [("python", TomlString "^3.11"); ("flask", TomlString "^2.3")].

(** A tree with a script that imports streamlit, and [setup.py]. *)
Definition scriptAndSetup : World :=
  worldOf [("a.py", "import streamlit" +:+ newline); ("setup.py", "setup()" +:+ newline)]
          banner.

(** * Properties *)

(** ** Computations *)

Lemma bind_ret {A B} (a : A) (k : A -> M B) : bind (ret a) k = k a.
Proof.
  unfold bind, ret. destruct (k a) as [out r]. reflexivity.
Qed.

Lemma bind_say {B} (l : LogLine) (k : unit -> M B) :
  bind (say l) k = (l :: fst (k tt), snd (k tt)).
Proof.
  unfold bind, say. destruct (k tt) as [out r]. reflexivity.
Qed.

Lemma bind_log {A B} (out : list LogLine) (a : A) (k : A -> M B) :
  bind (out, Ok a) k = (out ++ fst (k a), snd (k a)).
Proof.
  unfold bind. destruct (k a) as [out' r]. reflexivity.
Qed.

(** ** Version from [Pipfile.lock] *)

(** C1, as amended: when [Pipfile.lock] can be read and decoded and its field
    [_meta.requires.python_version] is a non-empty string, the resolver
    returns that string as the version and the flag [true], whatever the
    characters of the string. *)
Theorem extractPythonVersion_lock (w : World) (contents : string) (lock : PipfileLock) :
  os_file w "Pipfile.lock" = Some contents ->
  json_Unmarshal_PipfileLock w contents = Some lock ->
  PythonVersion (Meta_Requires lock) <> EmptyString ->
  extractPythonVersion w = ([], Ok (PythonVersion (Meta_Requires lock), true)).
Proof.
  intros Hfile Hjson Hne.
  unfold extractPythonVersion, pipfileLockVersion.
  rewrite Hfile, Hjson.
  destruct (String.eqb_spec (PythonVersion (Meta_Requires lock)) EmptyString) as [E | _].
  - contradiction.
  - reflexivity.
Qed.

Lemma extractPythonVersion_lock_witness :
  os_file (lockWorld "3.11") "Pipfile.lock" = Some "{}" /\
  json_Unmarshal_PipfileLock (lockWorld "3.11") "{}"
    = Some {| Meta_Requires := {| PythonVersion := "3.11" |} |} /\
  "3.11" <> EmptyString /\
  extractPythonVersion (lockWorld "3.11") = ([], Ok ("3.11", true)).
Proof.
  split; [reflexivity | split; [reflexivity | split; [discriminate |]]].
  apply (extractPythonVersion_lock (lockWorld "3.11") "{}"
           {| Meta_Requires := {| PythonVersion := "3.11" |} |}).
  - reflexivity.
  - reflexivity.
  - discriminate.
Defined.

(** C1 as the specification states it fails: the lockfile declares ["3.11"],
    a string of digits and dots only, for which the pattern [[^0-9.]] finds
    nothing, and the flag returned is [true]. *)
Lemma extractPythonVersion_lock_numeric_pinned :
  regexp.MatchString nonNumericRegex "3.11" = false /\
  extractPythonVersion (lockWorld "3.11") = ([], Ok ("3.11", true)) /\
  extractPythonVersion (lockWorld "3.11") <> ([], Ok ("3.11", false)).
Proof.
  split; [reflexivity | split; [reflexivity | discriminate]].
Qed.

(** ** The framework loop of [intoSource] *)

Lemma supported_not_empty (d : string) :
  slices_Contains supportedApps d = true -> String.eqb d EmptyString = false.
Proof.
  destruct d as [| c d]; [discriminate | reflexivity].
Qed.

(** The loop only counts: it ends with the one supported entry of the list,
    with the framework it started with when the list has none, and it
    leaves the function as soon as it meets a second supported entry. *)
Lemma scanApps_frameworkEntries (deps : list string) (app : PyApp) :
  scanApps deps app =
  match frameworkEntries deps with
  | [] => Some app
  | d :: ds =>
      if String.eqb app EmptyString
      then match ds with [] => Some d | _ :: _ => None end
      else None
  end.
Proof.
  revert app. induction deps as [| dep deps IH]; intros app.
  - reflexivity.
  - unfold frameworkEntries in *. cbn [scanApps List.filter].
    destruct (slices_Contains supportedApps dep) eqn:Hsup.
    + destruct (String.eqb app EmptyString) eqn:Happ; cbn [andb negb].
      * rewrite IH, (supported_not_empty dep Hsup).
        destruct (List.filter (slices_Contains supportedApps) deps); reflexivity.
      * reflexivity.
    + cbn [andb]. apply IH.
Qed.

Lemma frameworkEntries_elem (deps : list string) (d : string) :
  d ∈ frameworkEntries deps <-> d ∈ deps /\ slices_Contains supportedApps d = true.
Proof.
  unfold frameworkEntries. rewrite !list_elem_of_In. apply filter_In.
Qed.

Lemma exactly_singleton (l : list string) (x : string) : exactly l [x] -> l = [x].
Proof.
  intros [Hnd Hmem].
  assert (Hall : forall d, d ∈ l -> d = x).
  { intros d Hd. apply Hmem in Hd. apply list_elem_of_singleton in Hd. exact Hd. }
  destruct l as [| a l].
  - assert (x ∈ @nil string) as H by (apply Hmem, list_elem_of_singleton; reflexivity).
    inversion H.
  - rewrite (Hall a) in * by (left).
    destruct l as [| b l]; [reflexivity |].
    rewrite (Hall b) in Hnd by (right; left).
    apply NoDup_cons in Hnd as [Hnotin _].
    exfalso. apply Hnotin. left.
Qed.

(** Two different supported frameworks in the list make the loop leave the
    function. *)
Lemma scanApps_two (deps : list string) (a b : string) :
  a <> b ->
  a ∈ frameworkEntries deps -> b ∈ frameworkEntries deps ->
  scanApps deps EmptyString = None.
Proof.
  intros Hab Ha Hb. rewrite scanApps_frameworkEntries.
  destruct (frameworkEntries deps) as [| d [| d' ds]]; cbn.
  - inversion Ha.
  - apply list_elem_of_singleton in Ha, Hb. congruence.
  - reflexivity.
Qed.

(** C3: a configuration whose dependencies are the set {fastapi} gives a
    descriptor of family FastAPI on port 8000; the set {flask} gives family
    Flask on port 8080; dependencies that contain both fastapi and flask give
    no descriptor and no error, with a warning. *)
Theorem intoSource_fastapi_flask (w : World) (cfg : PyCfg) :
  (exactly (deps cfg) ["fastapi"] ->
   exists src, intoSource w cfg = ([], Ok (Some src))
               /\ Family src = "FastAPI" /\ Port src = 8000) /\
  (exactly (deps cfg) ["flask"] ->
   exists src, intoSource w cfg = ([], Ok (Some src))
               /\ Family src = "Flask" /\ Port src = 8080) /\
  ("fastapi" ∈ deps cfg -> "flask" ∈ deps cfg ->
   intoSource w cfg = ([Warn "Multiple supported Python frameworks found"], Ok None)).
Proof.
  split; [| split].
  - intros H. apply exactly_singleton in H.
    unfold intoSource. rewrite H. cbn [scanApps].
    eexists. split; [reflexivity | split; reflexivity].
  - intros H. apply exactly_singleton in H.
    unfold intoSource. rewrite H. cbn [scanApps].
    eexists. split; [reflexivity | split; reflexivity].
  - intros Hfast Hflask. unfold intoSource.
    rewrite (scanApps_two (deps cfg) "fastapi" "flask").
    + reflexivity.
    + discriminate.
    + apply frameworkEntries_elem. split; [assumption | reflexivity].
    + apply frameworkEntries_elem. split; [assumption | reflexivity].
Qed.

Lemma exactly_one (x : string) : exactly [x] [x].
Proof.
  split.
  - apply NoDup_singleton.
  - intros d. reflexivity.
Qed.

Lemma intoSource_fastapi_flask_witness :
  (exactly ["fastapi"] ["fastapi"] /\
   exists src, intoSource emptyWorld (cfgOf ["fastapi"]) = ([], Ok (Some src))
               /\ Family src = "FastAPI" /\ Port src = 8000) /\
  (exactly ["flask"] ["flask"] /\
   exists src, intoSource emptyWorld (cfgOf ["flask"]) = ([], Ok (Some src))
               /\ Family src = "Flask" /\ Port src = 8080) /\
  ("fastapi" ∈ ["flask"; "requests"; "fastapi"] /\
   "flask" ∈ ["flask"; "requests"; "fastapi"] /\
   intoSource emptyWorld (cfgOf ["flask"; "requests"; "fastapi"])
   = ([Warn "Multiple supported Python frameworks found"], Ok None)).
Proof.
  split; [| split].
  - split; [apply exactly_one |].
    apply (proj1 (intoSource_fastapi_flask emptyWorld (cfgOf ["fastapi"]))).
    apply exactly_one.
  - split; [apply exactly_one |].
    apply (proj1 (proj2 (intoSource_fastapi_flask emptyWorld (cfgOf ["flask"])))).
    apply exactly_one.
  - assert (H1 : "fastapi" ∈ ["flask"; "requests"; "fastapi"]) by (right; right; left).
    assert (H2 : "flask" ∈ ["flask"; "requests"; "fastapi"]) by left.
    split; [exact H1 | split; [exact H2 |]].
    exact (proj2 (proj2 (intoSource_fastapi_flask emptyWorld
                           (cfgOf ["flask"; "requests"; "fastapi"]))) H1 H2).
Defined.

(** ** Repeated entries *)

(** [intoSource] counts the entries that name a supported framework. *)
Lemma intoSource_by_entries (w : World) (cfg : PyCfg) :
  intoSource w cfg =
  match frameworkEntries (deps cfg) with
  | [] => ([Warn "No supported Python frameworks found"], Ok None)
  | [app] =>
      buildSource w cfg
        (<["appName" := VarString (appName cfg)]>
           (<["pyVersion" := VarString (pyVersion cfg)]> ∅)) app
  | _ :: _ :: _ => ([Warn "Multiple supported Python frameworks found"], Ok None)
  end.
Proof.
  unfold intoSource. rewrite scanApps_frameworkEntries.
  destruct (frameworkEntries (deps cfg)) as [| d [| d' ds]]; reflexivity.
Qed.

(** [intoSource] always returns: it neither fails nor panics. *)
Lemma intoSource_returns (w : World) (cfg : PyCfg) :
  exists out src, intoSource w cfg = (out, Ok src).
Proof.
  rewrite intoSource_by_entries.
  destruct (frameworkEntries (deps cfg)) as [| app [| d' ds]]; [eauto | | eauto].
  unfold buildSource.
  destruct (String.eqb app EmptyString); [cbn; eauto |].
  destruct (String.eqb app FastAPI); [cbn; eauto |].
  destruct (String.eqb app Flask); [cbn; eauto |].
  destruct (String.eqb app Streamlit); [| cbn; eauto].
  destruct (findEntrypoint w "streamlit"); cbn; eauto.
Qed.

Lemma slices_Contains_elem (l : list string) (x : string) :
  slices_Contains l x = true <-> x ∈ l.
Proof.
  unfold slices_Contains. rewrite existsb_exists, list_elem_of_In. split.
  - intros [y [Hy E]]. apply String.eqb_eq in E. congruence.
  - intros H. exists x. split; [assumption | apply String.eqb_refl].
Qed.

Lemma slices_Contains_perm (l l' : list string) (x : string) :
  l ≡ₚ l' -> slices_Contains l x = slices_Contains l' x.
Proof.
  intros HP. apply eq_true_iff_eq. rewrite !slices_Contains_elem. now rewrite HP.
Qed.

Lemma frameworkEntries_perm (l l' : list string) :
  l ≡ₚ l' -> frameworkEntries l ≡ₚ frameworkEntries l'.
Proof.
  unfold frameworkEntries. induction 1; cbn [List.filter].
  - reflexivity.
  - destruct (slices_Contains supportedApps x); [apply perm_skip |]; assumption.
  - destruct (slices_Contains supportedApps x), (slices_Contains supportedApps y);
      try reflexivity. apply perm_swap.
  - etransitivity; eassumption.
Qed.

(** The order of the list does not matter. *)
Lemma intoSource_permutation (w : World) (v name : string) (style : PyDepStyle)
    (l l' : list string) :
  l ≡ₚ l' ->
  intoSource w {| pyVersion := v; appName := name; deps := l; depStyle := style |}
  = intoSource w {| pyVersion := v; appName := name; deps := l'; depStyle := style |}.
Proof.
  intros HP. rewrite !intoSource_by_entries. cbn [deps appName pyVersion].
  pose proof (frameworkEntries_perm l l' HP) as HF.
  destruct (frameworkEntries l) as [| a [| b ds]].
  - apply Permutation_nil_l in HF. rewrite <- HF. reflexivity.
  - apply Permutation_singleton_l in HF. rewrite <- HF.
    unfold buildSource. cbn [deps depStyle].
    rewrite (slices_Contains_perm l l' "boto3" HP), (slices_Contains_perm l l' "boto" HP).
    reflexivity.
  - apply Permutation_length in HF.
    destruct (frameworkEntries l') as [| a' [| b' ds']]; try discriminate HF.
    reflexivity.
Qed.

(** C8, as amended: the dependencies of a configuration are a list, with one
    entry for every line or key of the manifest, and a name may occur in it
    more than once.  [intoSource] counts the entries that name a supported
    framework.  None gives no descriptor and the warning that no framework was
    found.  Exactly one gives, without a warning, the descriptor of that
    framework (FastAPI on port 8000, Flask on port 8080, Streamlit on port
    8501), but for Streamlit only when the locator finds an entrypoint:
    without one there is no descriptor, and no warning either.  Two or more,
    of the same framework or of different ones, give no descriptor and the
    warning about multiple frameworks.  The order of the entries does not
    matter. *)
Theorem intoSource_counts_entries (w : World) (cfg : PyCfg) :
  (frameworkEntries (deps cfg) = [] ->
   intoSource w cfg = ([Warn "No supported Python frameworks found"], Ok None)) /\
  (forall app, frameworkEntries (deps cfg) = [app] ->
     (app = "fastapi" /\
      exists src, intoSource w cfg = ([], Ok (Some src))
                  /\ Family src = "FastAPI" /\ Port src = 8000) \/
     (app = "flask" /\
      exists src, intoSource w cfg = ([], Ok (Some src))
                  /\ Family src = "Flask" /\ Port src = 8080) \/
     (app = "streamlit" /\
      match findEntrypoint w "streamlit" with
      | Some name =>
          exists src, intoSource w cfg = ([], Ok (Some src))
                      /\ Family src = "Streamlit" /\ Port src = 8501
      | None => intoSource w cfg = ([], Ok None)
      end)) /\
  (forall first second more, frameworkEntries (deps cfg) = first :: second :: more ->
     intoSource w cfg = ([Warn "Multiple supported Python frameworks found"], Ok None)) /\
  (forall l', deps cfg ≡ₚ l' ->
     intoSource w cfg
     = intoSource w {| pyVersion := pyVersion cfg; appName := appName cfg;
                       deps := l'; depStyle := depStyle cfg |}).
Proof.
  split; [| split; [| split]].
  - intros H. rewrite intoSource_by_entries, H. reflexivity.
  - intros app H.
    assert (Hsup : app ∈ supportedApps).
    { apply slices_Contains_elem.
      apply (proj1 (frameworkEntries_elem (deps cfg) app)). rewrite H. left. }
    rewrite intoSource_by_entries, H. unfold buildSource, supportedApps in *.
    apply elem_of_cons in Hsup as [-> | Hsup]; [| apply elem_of_cons in Hsup as [-> | Hsup]].
    + left. split; [reflexivity |]. eexists. repeat split.
    + right. left. split; [reflexivity |]. eexists. repeat split.
    + apply list_elem_of_singleton in Hsup as ->.
      right. right. split; [reflexivity |].
      cbn [String.eqb Ascii.eqb Bool.eqb Streamlit FastAPI Flask].
      destruct (findEntrypoint w "streamlit") as [name |]; [| reflexivity].
      eexists. repeat split.
  - intros first second more H. rewrite intoSource_by_entries, H. reflexivity.
  - intros l' HP. destruct cfg as [v name l style]. cbn [pyVersion appName deps depStyle] in *.
    apply intoSource_permutation. exact HP.
Qed.

Lemma intoSource_counts_entries_witness :
  frameworkEntries (deps (cfgOf ["flask"; "boto3"])) = ["flask"] /\
  (exists src, intoSource emptyWorld (cfgOf ["flask"; "boto3"]) = ([], Ok (Some src))
               /\ Family src = "Flask" /\ Port src = 8080) /\
  frameworkEntries (deps (cfgOf ["flask"; "requests"; "flask"])) = ["flask"; "flask"] /\
  intoSource emptyWorld (cfgOf ["flask"; "requests"; "flask"])
  = ([Warn "Multiple supported Python frameworks found"], Ok None) /\
  frameworkEntries (deps (cfgOf ["streamlit"])) = ["streamlit"] /\
  findEntrypoint emptyWorld "streamlit" = None /\
  intoSource emptyWorld (cfgOf ["streamlit"]) = ([], Ok None) /\
  ["flask"; "boto3"] ≡ₚ ["boto3"; "flask"] /\
  intoSource emptyWorld (cfgOf ["flask"; "boto3"])
  = intoSource emptyWorld (cfgOf ["boto3"; "flask"]).
Proof.
  assert (HP : ["flask"; "boto3"] ≡ₚ ["boto3"; "flask"]) by apply perm_swap.
  pose proof (intoSource_counts_entries emptyWorld (cfgOf ["flask"; "boto3"]))
    as [_ [Hone [_ Hperm]]].
  pose proof (intoSource_counts_entries emptyWorld (cfgOf ["flask"; "requests"; "flask"]))
    as [_ [_ [Hmany _]]].
  pose proof (intoSource_counts_entries emptyWorld (cfgOf ["streamlit"]))
    as [_ [Hstream _]].
  split; [reflexivity | split].
  - destruct (Hone "flask" eq_refl) as [[E _] | [[_ H] | [E _]]];
      [discriminate E | exact H | discriminate E].
  - split; [reflexivity | split; [exact (Hmany "flask" "flask" [] eq_refl) |]].
    split; [reflexivity | split; [reflexivity | split]].
    + destruct (Hstream "streamlit" eq_refl) as [[E _] | [[E _] | [_ H]]];
        [discriminate E | discriminate E | exact H].
    + split; [exact HP | exact (Hperm ["boto3"; "flask"] HP)].
Defined.

(** C8 as the specification states it fails: a [requirements.txt] that lists
    flask once gives the Flask descriptor, and one that lists flask twice
    gives a configuration in which flask occurs twice, classified as a
    conflict of frameworks. *)
Lemma repeated_framework_is_conflict :
  (exists src, configRequirements asciiToLower flaskOnce "/srv/app"
               = ([Info "Detected requirements.txt"], Ok (Some src))
               /\ Family src = "Flask") /\
  List.map (parsePyDep asciiToLower)
           (fst (bufio.scanLines ("flask" +:+ newline +:+ "flask" +:+ newline)))
  = ["flask"; "flask"] /\
  ~ NoDup ["flask"; "flask"] /\
  configRequirements asciiToLower flaskTwice "/srv/app"
  = ([Info "Detected requirements.txt";
      Warn "Multiple supported Python frameworks found"], Ok None).
Proof.
  split; [| split; [| split]].
  - eexists. split; reflexivity.
  - reflexivity.
  - intros H. apply NoDup_cons in H as [H _]. apply H. left.
  - reflexivity.
Qed.

(** ** The Poetry detector *)

(** C10: when [pyproject.toml] is read and decoded and its table
    [tool.poetry.dependencies] is present, [configPoetry] panics, after its
    message and without an error value, if the table has no string under
    [python]; if it has one, [configPoetry] goes on to [intoSource] and
    returns without error or panic. *)
Theorem configPoetry_python_entry (unicode_ToLower : Z -> Z) (w : World)
    (sourceDir doc : string) (pyProject : PyProjectToml) (table : list (string * TomlValue)) :
  checksPass_fileExists w sourceDir ["poetry.lock"] = true ->
  checksPass_fileExists w sourceDir ["pyproject.toml"] = true ->
  os_file w "pyproject.toml" = Some doc ->
  toml_Unmarshal_PyProjectToml w doc = Some pyProject ->
  poetry_Dependencies (Tool_Poetry pyProject) = Some table ->
  ((forall s, mapIndex table "python" <> Some (TomlString s)) ->
   configPoetry unicode_ToLower w sourceDir = ([Info "Detected Poetry project"], Panic)) /\
  (forall s, mapIndex table "python" = Some (TomlString s) ->
   exists out src,
     configPoetry unicode_ToLower w sourceDir
     = (Info "Detected Poetry project" :: out, Ok src) /\
     intoSource w {| pyVersion := parsePyDep unicode_ToLower (strings.TrimPrefix s "^");
                     appName := poetry_Name (Tool_Poetry pyProject);
                     deps := List.map (parsePyDep unicode_ToLower) (mapKeys table);
                     depStyle := Poetry |}
     = (out, Ok src)).
Proof.
  intros Hlock Htoml Hfile Hdec Hdeps.
  unfold configPoetry. rewrite Hlock, Htoml. cbn [negb orb].
  unfold mbind, M_bind. rewrite bind_say, Hfile, Hdec, Hdeps.
  split.
  - intros Hno.
    destruct (mapIndex table "python") as [[s | | | | | |] |]; try reflexivity.
    exfalso. apply (Hno s). reflexivity.
  - intros s Hs. rewrite Hs.
    match goal with |- context [intoSource w ?c] =>
      destruct (intoSource_returns w c) as [out [src E]] end.
    exists out, src. rewrite E. split; reflexivity.
Qed.

Lemma configPoetry_python_entry_witness :
  checksPass_fileExists poetryNoPython "/srv/app" ["poetry.lock"] = true /\
  checksPass_fileExists poetryNoPython "/srv/app" ["pyproject.toml"] = true /\
  os_file poetryNoPython "pyproject.toml" = Some "toml" /\
  (forall s, mapIndex [("requests", TomlString "^2.31"); ("flask", TomlString "^3.0")]
                      "python" <> Some (TomlString s)) /\
  configPoetry asciiToLower poetryNoPython "/srv/app"
  = ([Info "Detected Poetry project"], Panic).
Proof.
  assert (Hno : forall s,
    mapIndex [("requests", TomlString "^2.31"); ("flask", TomlString "^3.0")] "python"
    <> Some (TomlString s)) by (intros s; discriminate).
  split; [reflexivity | split; [reflexivity | split; [reflexivity | split; [exact Hno |]]]].
  refine (proj1 (configPoetry_python_entry asciiToLower poetryNoPython
            "/srv/app" "toml" _ _ _ _ _ _ _) Hno); reflexivity.
Defined.

(** ** The orchestrator *)

Lemma extractPythonVersion_silent (w : World) : fst (extractPythonVersion w) = [].
Proof.
  unfold extractPythonVersion.
  destruct (pipfileLockVersion w); [reflexivity |].
  unfold matchPythonVersion.
  destruct (regexp.FindStringSubmatch pythonVersionRe (pythonVersionOutput w))
    as [| m0 [| version rest]]; reflexivity.
Qed.

Lemma orElse_absent (out : list LogLine) (rest : M (option SourceInfo)) :
  orElse (out, Ok None) rest = (out ++ fst rest, snd rest).
Proof.
  unfold orElse, mbind, M_bind. apply bind_log.
Qed.

(** C2, as amended: a detector that applies but whose dependencies match no
    supported framework gets no descriptor and no error from [intoSource],
    only a warning, and [configurePython] goes on to the next detector.
    When all four detectors return neither a descriptor nor an error, one of
    the marker files exists and the version resolver succeeds, the result is
    the generic descriptor of family Python on port 8080. *)
Theorem configurePython_generic (unicode_ToLower : Z -> Z) (unicode_IsDigit : Z -> bool)
    (w : World) (sourceDir : string) (out1 out2 out3 out4 : list LogLine)
    (version : string) (pinned : bool) :
  configPoetry unicode_ToLower w sourceDir = (out1, Ok None) ->
  configPyProject unicode_ToLower unicode_IsDigit w sourceDir = (out2, Ok None) ->
  configPipfile unicode_ToLower w sourceDir = (out3, Ok None) ->
  configRequirements unicode_ToLower w sourceDir = (out4, Ok None) ->
  checksPass_fileExists w sourceDir
    ["requirements.txt"; "environment.yml"; "poetry.lock"; "Pipfile"; "setup.py"; "setup.cfg"]
  = true ->
  snd (extractPythonVersion w) = Ok (version, pinned) ->
  (forall cfg, frameworkEntries (deps cfg) = [] ->
     intoSource w cfg = ([Warn "No supported Python frameworks found"], Ok None)) /\
  exists src,
    configurePython unicode_ToLower unicode_IsDigit w sourceDir
    = (out1 ++ out2 ++ out3 ++ out4, Ok (Some src))
    /\ Family src = "Python" /\ Port src = 8080
    /\ Runtime src = {| Language := "python"; Version := version |}.
Proof.
  intros H1 H2 H3 H4 Hmark Hver. split.
  - intros cfg Hnone. rewrite intoSource_by_entries, Hnone. reflexivity.
  - unfold configurePython.
    rewrite H1, orElse_absent, H2, orElse_absent, H3, orElse_absent, H4, orElse_absent.
    rewrite Hmark. cbn [negb].
    pose proof (extractPythonVersion_silent w) as Hsilent.
    destruct (extractPythonVersion w) as [out r]. cbn in Hsilent, Hver. subst out r.
    eexists. split.
    + cbn. rewrite !app_nil_r, !app_assoc. reflexivity.
    + split; [reflexivity | split; reflexivity].
Qed.

Lemma configurePython_generic_witness :
  configPoetry asciiToLower requestsOnly "/srv/app" = ([], Ok None) /\
  configPyProject asciiToLower asciiIsDigit requestsOnly "/srv/app" = ([], Ok None) /\
  configPipfile asciiToLower requestsOnly "/srv/app" = ([], Ok None) /\
  configRequirements asciiToLower requestsOnly "/srv/app"
  = ([Info "Detected requirements.txt"; Warn "No supported Python frameworks found"],
     Ok None) /\
  checksPass_fileExists requestsOnly "/srv/app"
    ["requirements.txt"; "environment.yml"; "poetry.lock"; "Pipfile"; "setup.py"; "setup.cfg"]
  = true /\
  snd (extractPythonVersion requestsOnly) = Ok ("3.11.2", false) /\
  exists src,
    configurePython asciiToLower asciiIsDigit requestsOnly "/srv/app"
    = ([Info "Detected requirements.txt"; Warn "No supported Python frameworks found"],
       Ok (Some src))
    /\ Family src = "Python" /\ Port src = 8080
    /\ Runtime src = {| Language := "python"; Version := "3.11.2" |}.
Proof.
  repeat (split; [reflexivity |]).
  exact (proj2 (configurePython_generic asciiToLower asciiIsDigit requestsOnly
                  "/srv/app" [] [] []
                  [Info "Detected requirements.txt";
                   Warn "No supported Python frameworks found"]
                  "3.11.2" false
                  eq_refl eq_refl eq_refl eq_refl eq_refl eq_refl)).
Defined.

(** C2 as the specification states it fails: in a Poetry project without a
    [project] table and without a supported framework, the Poetry detector
    applies and finds no framework, and the resolution ends with the error of
    the next detector instead of the generic descriptor. *)
Lemma poetry_without_framework_fails :
  configPoetry asciiToLower poetryNoFramework "/srv/app"
  = ([Info "Detected Poetry project"; Warn "No supported Python frameworks found"],
     Ok None) /\
  configurePython asciiToLower asciiIsDigit poetryNoFramework "/srv/app"
  = ([Info "Detected Poetry project"; Warn "No supported Python frameworks found";
      Info "Detected pyproject.toml"],
     Err (errorsNew "No dependencies found in pyproject.toml")).
Proof.
  split; reflexivity.
Qed.

(** ** The flat requirements file *)






(** ** The entrypoint locator *)

Lemma scanForImport_spec (dep name : string) (lines : list string) (entrypoint : option string) :
  scanForImport dep name lines entrypoint =
  if existsb (importsDep dep) lines then Some name else entrypoint.
Proof.
  revert entrypoint. induction lines as [| line lines IH]; intros entrypoint.
  - reflexivity.
  - cbn [scanForImport existsb]. rewrite IH. fold (importsDep dep line).
    destruct (importsDep dep line), (existsb (importsDep dep) lines); reflexivity.
Qed.

Lemma last_cons_match {A} (x : A) (l : list A) :
  last (x :: l) = match last l with Some y => Some y | None => Some x end.
Proof.
  revert x. induction l as [| y l IH]; intros x; [reflexivity |].
  change (last (x :: y :: l)) with (last (y :: l)).
  rewrite (IH y). destruct (last l); reflexivity.
Qed.

(** The walk keeps the last match among the entries it visits, and what it
    started with when nothing matches. *)
Lemma walkEntrypoint_last (w : World) (dep : string) (entries : list WalkEntry)
    (entrypoint : option string) :
  walkEntrypoint w dep entries entrypoint =
  match last (List.map walk_path (List.filter (fileMatches w dep) (visited w entries))) with
  | Some path => Some path
  | None => entrypoint
  end.
Proof.
  revert entrypoint. induction entries as [| e entries IH]; intros entrypoint.
  - reflexivity.
  - cbn [walkEntrypoint visited List.filter].
    unfold fileMatches at 1, stopsWalk. fold (isPythonSource (walk_path e)).
    destruct (walk_err e); [reflexivity |].
    destruct (isPythonSource (walk_path e)); cbn [negb andb orb].
    + destruct (os_file w (walk_path e)) as [content |]; [| reflexivity].
      destruct (bufio.scanLines content) as [lines err]. cbn [fst snd].
      rewrite scanForImport_spec.
      destruct err.
      * destruct (existsb (importsDep dep) lines); reflexivity.
      * rewrite IH.
        destruct (existsb (importsDep dep) lines); [| reflexivity].
        cbn [List.map]. rewrite last_cons_match.
        destruct (last _); reflexivity.
    + apply IH.
Qed.

Lemma visited_all (w : World) (entries : list WalkEntry) :
  Forall (fun e => stopsWalk w e = false) entries -> visited w entries = entries.
Proof.
  induction 1 as [| e entries He _ IH]; [reflexivity |].
  cbn [visited]. rewrite He, IH. reflexivity.
Qed.

(** C9, as amended: the locator returns the last of the matching files
    among the entries that the walk visits.  The walk ends at the first entry
    that [Walk] reports with an error and at the first Python source that
    cannot be opened or scanned to its end, and visits nothing after it.  So
    with two or more matching files visited the locator returns the one
    visited last and not the first, and when no entry ends the walk that is
    the last matching file of the whole tree; with no matching file visited
    it returns nothing, and [intoSource] then gives up the Streamlit
    descriptor without an error. *)
Theorem findEntrypoint_last_match (w : World) (dep : string) :
  findEntrypoint w dep = last (matchingFiles w dep) /\
  (forall first between final,
     matchingFiles w dep = first :: between ++ [final] ->
     findEntrypoint w dep = Some final) /\
  (Forall (fun e => stopsWalk w e = false) (filepath_Walk w) ->
   findEntrypoint w dep = last (treeMatches w dep)) /\
  (forall cfg,
     frameworkEntries (deps cfg) = ["streamlit"] ->
     matchingFiles w "streamlit" = [] ->
     findEntrypoint w "streamlit" = None /\ intoSource w cfg = ([], Ok None)).
Proof.
  assert (Hlast : forall d, findEntrypoint w d = last (matchingFiles w d)).
  { intros d. unfold findEntrypoint, matchingFiles. rewrite walkEntrypoint_last.
    destruct (last _); reflexivity. }
  split; [apply Hlast | split; [| split]].
  - intros first between final Hm. rewrite Hlast, Hm.
    change (first :: between ++ [final]) with ((first :: between) ++ [final]).
    apply last_snoc.
  - intros Hwhole. rewrite Hlast. unfold matchingFiles, treeMatches.
    rewrite (visited_all w _ Hwhole). reflexivity.
  - intros cfg Hone Hnone.
    assert (Hfind : findEntrypoint w "streamlit" = None) by (rewrite Hlast, Hnone; reflexivity).
    split; [exact Hfind |].
    rewrite intoSource_by_entries, Hone. unfold buildSource.
    cbn [String.eqb Ascii.eqb Bool.eqb Streamlit FastAPI Flask]. rewrite Hfind. reflexivity.
Qed.

Lemma findEntrypoint_last_match_witness :
  matchingFiles twoScripts "streamlit" = "a.py" :: [] ++ ["b.py"] /\
  Forall (fun e => stopsWalk twoScripts e = false) (filepath_Walk twoScripts) /\
  treeMatches twoScripts "streamlit" = ["a.py"; "b.py"] /\
  findEntrypoint twoScripts "streamlit" = Some "b.py" /\
  frameworkEntries (deps (cfgOf ["streamlit"])) = ["streamlit"] /\
  matchingFiles requestsOnly "streamlit" = [] /\
  findEntrypoint requestsOnly "streamlit" = None /\
  intoSource requestsOnly (cfgOf ["streamlit"]) = ([], Ok None).
Proof.
  assert (Hwhole : Forall (fun e => stopsWalk twoScripts e = false)
                          (filepath_Walk twoScripts))
    by (repeat constructor).
  split; [reflexivity | split; [exact Hwhole | split; [reflexivity | split]]].
  - exact (proj1 (proj2 (findEntrypoint_last_match twoScripts "streamlit"))
             "a.py" [] "b.py" eq_refl).
  - split; [reflexivity | split; [reflexivity |]].
    exact (proj2 (proj2 (proj2 (findEntrypoint_last_match requestsOnly "streamlit")))
             (cfgOf ["streamlit"]) eq_refl eq_refl).
Defined.

(** C9 as the specification states it fails: in a tree where two Python
    files outside [.venv] have a line with [import] and the name of the
    dependency, and a Python source between them cannot be read, the walk
    ends at that source, and the locator returns the first of the two
    matching files, not the last. *)
Lemma aborted_walk_returns_first_match :
  treeMatches brokenWalk "streamlit" = ["a.py"; "c.py"] /\
  os_file brokenWalk "c.py" = Some ("import streamlit" +:+ newline) /\
  isPythonSource "b.py" = true /\
  os_file brokenWalk "b.py" = None /\
  matchingFiles brokenWalk "streamlit" = ["a.py"] /\
  findEntrypoint brokenWalk "streamlit" = Some "a.py" /\
  findEntrypoint brokenWalk "streamlit" <> last (treeMatches brokenWalk "streamlit").
Proof.
  repeat (split; [reflexivity |]). discriminate.
Qed.

(** ** Strings *)

Lemma app_cons (c : ascii) (s t : string) : String c s +:+ t = String c (s +:+ t).
Proof. reflexivity. Qed.

Lemma app_empty_r (s : string) : s +:+ EmptyString = s.
Proof.
  induction s as [| c s IH]; [reflexivity |]. rewrite app_cons, IH. reflexivity.
Qed.

Lemma app_assoc_string (s t u : string) : (s +:+ t) +:+ u = s +:+ (t +:+ u).
Proof.
  induction s as [| c s IH]; [reflexivity |]. rewrite !app_cons, IH. reflexivity.
Qed.

(** ** The version pattern *)

Lemma plus_sound {R} (p : ascii -> bool) (s : string) (k : string -> option R) (x : R) :
  regexp.plus p s k = Some x ->
  exists s1 s2, s = s1 +:+ s2 /\ regexp.matches (regexp.Plus p) s1 /\ k s2 = Some x.
Proof.
  induction s as [| c s IH]; cbn [regexp.plus]; [discriminate |].
  destruct (p c) eqn:Hp; [| discriminate].
  destruct (regexp.plus p s k) as [y |] eqn:Hmore.
  - intros [= ->]. destruct (IH eq_refl) as [s1 [s2 [-> [Hm Hk]]]].
    exists (String c s1), s2. split; [reflexivity | split; [| exact Hk]].
    apply regexp.m_plus_more; assumption.
  - intros Hk. exists (String c EmptyString), s.
    split; [reflexivity | split; [| exact Hk]].
    apply regexp.m_plus_one; assumption.
Qed.



Lemma matches_cat_inv (r1 r2 : regexp.Regexp) (s : string) :
  regexp.matches (regexp.Cat r1 r2) s ->
  exists s1 s2, s = s1 +:+ s2 /\ regexp.matches r1 s1 /\ regexp.matches r2 s2.
Proof.
  intros H. inversion H; subst. eauto.
Qed.

Lemma matches_lit_inv (c : ascii) (s : string) :
  regexp.matches (regexp.Lit c) s -> s = String c EmptyString.
Proof.
  intros H. inversion H; subst. reflexivity.
Qed.















(** ** The canonicalizer *)

Lemma HasPrefix_app (p sep t : string) :
  strings.HasPrefix p sep = true -> strings.HasPrefix (p +:+ t) sep = true.
Proof.
  revert p. induction sep as [| d sep IH]; intros p; [reflexivity |].
  destruct p as [| c p]; cbn [strings.HasPrefix]; [discriminate |].
  rewrite app_cons. cbn [strings.HasPrefix].
  destruct (Ascii.eqb c d); [apply IH | discriminate].
Qed.

Lemma Contains_app (p sub t : string) :
  strings.Contains p sub = true -> strings.Contains (p +:+ t) sub = true.
Proof.
  induction p as [| c p IH].
  - cbn [strings.Contains]. rewrite orb_false_r. intros H.
    apply (HasPrefix_app EmptyString sub t) in H.
    change (EmptyString +:+ t) with t in *.
    destruct t; cbn [strings.Contains]; rewrite H; reflexivity.
  - rewrite app_cons. cbn [strings.Contains]. intros H.
    apply orb_prop in H as [H | H].
    + rewrite <- app_cons, (HasPrefix_app _ _ t H). reflexivity.
    + rewrite (IH H). apply orb_true_r.
Qed.

Lemma SplitFirst_prefix (s sep : string) :
  exists t, s = strings.SplitFirst s sep +:+ t.
Proof.
  induction s as [| c s [t IH]].
  - exists EmptyString. reflexivity.
  - cbn [strings.SplitFirst]. destruct (strings.HasPrefix (String c s) sep).
    + exists (String c s). reflexivity.
    + exists t. rewrite app_cons, <- IH. reflexivity.
Qed.

(** Nothing is left of the separator after a cut. *)
Lemma SplitFirst_free (s sep : string) :
  sep <> EmptyString -> strings.Contains (strings.SplitFirst s sep) sep = false.
Proof.
  intros Hsep.
  assert (Hempty : strings.Contains EmptyString sep = false)
    by (destruct sep; [contradiction | reflexivity]).
  induction s as [| c s IH]; [exact Hempty |].
  cbn [strings.SplitFirst].
  destruct (strings.HasPrefix (String c s) sep) eqn:Hpre; [exact Hempty |].
  cbn [strings.Contains]. rewrite IH, orb_false_r.
  destruct (strings.HasPrefix (String c (strings.SplitFirst s sep)) sep) eqn:Hcut;
    [| reflexivity].
  destruct (SplitFirst_prefix s sep) as [t Ht].
  apply (HasPrefix_app _ _ t) in Hcut. rewrite app_cons, <- Ht in Hcut. congruence.
Qed.

(** A string without the separator is not cut. *)
Lemma SplitFirst_id (s sep : string) :
  strings.Contains s sep = false -> strings.SplitFirst s sep = s.
Proof.
  induction s as [| c s IH]; [reflexivity |].
  cbn [strings.Contains strings.SplitFirst]. intros H.
  apply orb_false_elim in H as [Hpre Hrest].
  rewrite Hpre, (IH Hrest). reflexivity.
Qed.

(** A cut does not bring in a separator that was absent. *)
Lemma SplitFirst_keeps_free (s sep sub : string) :
  strings.Contains s sub = false ->
  strings.Contains (strings.SplitFirst s sep) sub = false.
Proof.
  intros H. destruct (SplitFirst_prefix s sep) as [t Ht].
  destruct (strings.Contains (strings.SplitFirst s sep) sub) eqn:E; [| reflexivity].
  apply (Contains_app _ _ t) in E. rewrite <- Ht in E. congruence.
Qed.

Lemma prefix_trans (s p q t u : string) :
  s = p +:+ t -> p = q +:+ u -> exists v, s = q +:+ v.
Proof.
  intros -> ->. exists (u +:+ t). apply app_assoc_string.
Qed.

(** A fact about an earlier cut holds after the later ones. *)
Ltac still_free :=
  first [ assumption | apply SplitFirst_keeps_free; still_free ].

Section Canonicalizer.

Variable unicode_ToLower : Z -> Z.

(** The result of [parsePyDep] is the front part of the lowercased token. *)
Lemma parsePyDep_prefix (dep : string) :
  exists rest, strings.ToLower unicode_ToLower dep
               = parsePyDep unicode_ToLower dep +:+ rest.
Proof.
  unfold parsePyDep.
  set (d0 := strings.ToLower unicode_ToLower dep).
  destruct (SplitFirst_prefix d0 ";") as [t1 E1].
  set (d1 := strings.SplitFirst d0 ";") in *.
  destruct (SplitFirst_prefix d1 " ") as [t2 E2].
  set (d2 := strings.SplitFirst d1 " ") in *.
  destruct (SplitFirst_prefix d2 "[") as [t3 E3].
  set (d3 := strings.SplitFirst d2 "[") in *.
  destruct (SplitFirst_prefix d3 "==") as [t4 E4].
  set (d4 := strings.SplitFirst d3 "==") in *.
  destruct (SplitFirst_prefix d4 ">") as [t5 E5].
  set (d5 := strings.SplitFirst d4 ">") in *.
  destruct (SplitFirst_prefix d5 "<") as [t6 E6].
  set (d6 := strings.SplitFirst d5 "<") in *.
  destruct (SplitFirst_prefix d6 "~=") as [t7 E7].
  set (d7 := strings.SplitFirst d6 "~=") in *.
  destruct (prefix_trans _ _ _ _ _ E1 E2) as [u2 P2].
  destruct (prefix_trans _ _ _ _ _ P2 E3) as [u3 P3].
  destruct (prefix_trans _ _ _ _ _ P3 E4) as [u4 P4].
  destruct (prefix_trans _ _ _ _ _ P4 E5) as [u5 P5].
  destruct (prefix_trans _ _ _ _ _ P5 E6) as [u6 P6].
  destruct (prefix_trans _ _ _ _ _ P6 E7) as [u7 P7].
  exists u7. exact P7.
Qed.

(** No separator is left in the result of [parsePyDep]. *)
Lemma parsePyDep_free (dep : string) :
  Forall (fun sep => strings.Contains (parsePyDep unicode_ToLower dep) sep = false)
         separators.
Proof.
  unfold parsePyDep.
  set (d0 := strings.ToLower unicode_ToLower dep).
  set (d1 := strings.SplitFirst d0 ";").
  set (d2 := strings.SplitFirst d1 " ").
  set (d3 := strings.SplitFirst d2 "[").
  set (d4 := strings.SplitFirst d3 "==").
  set (d5 := strings.SplitFirst d4 ">").
  set (d6 := strings.SplitFirst d5 "<").
  set (d7 := strings.SplitFirst d6 "~=").
  assert (F1 : strings.Contains d1 ";" = false) by (apply SplitFirst_free; discriminate).
  assert (F2 : strings.Contains d2 " " = false) by (apply SplitFirst_free; discriminate).
  assert (F3 : strings.Contains d3 "[" = false) by (apply SplitFirst_free; discriminate).
  assert (F4 : strings.Contains d4 "==" = false) by (apply SplitFirst_free; discriminate).
  assert (F5 : strings.Contains d5 ">" = false) by (apply SplitFirst_free; discriminate).
  assert (F6 : strings.Contains d6 "<" = false) by (apply SplitFirst_free; discriminate).
  assert (F7 : strings.Contains d7 "~=" = false) by (apply SplitFirst_free; discriminate).
  unfold separators.
  repeat (apply Forall_cons; split); [.. | constructor];
    subst d7 d6 d5 d4 d3 d2; still_free.
Qed.

(** C5, as amended: the result of [parsePyDep] is the front part of the
    lowercased token and contains none of the separators [;], space, [[],
    [==], [>], [<] and [~=]. *)
Theorem parsePyDep_no_separator (dep : string) :
  (exists rest, strings.ToLower unicode_ToLower dep
                = parsePyDep unicode_ToLower dep +:+ rest) /\
  Forall (fun sep => strings.Contains (parsePyDep unicode_ToLower dep) sep = false)
         separators.
Proof.
  split.
  - apply parsePyDep_prefix.
  - apply parsePyDep_free.
Qed.

End Canonicalizer.

(** C5 as the specification states it fails: [parsePyDep] cuts at [~=] and
    not at [~], so the token [numpy~1.19] is returned as it is, with a [~]
    that is followed by more text. *)
Lemma parsePyDep_keeps_tilde :
  parsePyDep asciiToLower "numpy~1.19" = "numpy~1.19" /\
  delimiterBeforeContent (parsePyDep asciiToLower "numpy~1.19") = true.
Proof.
  split; reflexivity.
Qed.

(** ** Bytes and UTF-8 *)

Lemma byteZ_range (c : ascii) : 0 <= byteZ c < 256.
Proof.
  unfold byteZ. pose proof (N_ascii_bounded c). lia.
Qed.

Lemma byteZ_chr (z : Z) : 0 <= z < 256 -> byteZ (chr z) = z.
Proof.
  intros Hz. unfold byteZ, chr. rewrite N_ascii_embedding; lia.
Qed.

Lemma chr_byteZ (c : ascii) : chr (byteZ c) = c.
Proof.
  unfold byteZ, chr. rewrite N2Z.id. apply ascii_N_embedding.
Qed.

(** One step of the decoder. *)
Lemma runes_cons (c0 : ascii) (s1 : string) :
  utf8.runes (String c0 s1) =
  let b0 := byteZ c0 in
  let invalid := (utf8.RuneError, String c0 EmptyString) :: utf8.runes s1 in
  if b0 <? utf8.RuneSelf then (b0, String c0 EmptyString) :: utf8.runes s1
  else
    match utf8.first b0 with
    | None => invalid
    | Some (sz, lo, hi) =>
        match s1 with
        | String c1 s2 =>
            if utf8.within lo hi c1 then
              if sz =? 2 then
                ((b0 - 0xC0) * 64 + (byteZ c1 - 0x80),
                 String c0 (String c1 EmptyString)) :: utf8.runes s2
              else
                match s2 with
                | String c2 s3 =>
                    if utf8.within 0x80 0xBF c2 then
                      if sz =? 3 then
                        ((b0 - 0xE0) * 4096 + (byteZ c1 - 0x80) * 64 + (byteZ c2 - 0x80),
                         String c0 (String c1 (String c2 EmptyString))) :: utf8.runes s3
                      else
                        match s3 with
                        | String c3 s4 =>
                            if utf8.within 0x80 0xBF c3 then
                              ((b0 - 0xF0) * 262144 + (byteZ c1 - 0x80) * 4096
                               + (byteZ c2 - 0x80) * 64 + (byteZ c3 - 0x80),
                               String c0 (String c1 (String c2 (String c3 EmptyString))))
                              :: utf8.runes s4
                            else invalid
                        | EmptyString => invalid
                        end
                    else invalid
                | EmptyString => invalid
                end
            else invalid
        | EmptyString => invalid
        end
    end.
Proof.
  destruct s1 as [| c1 [| c2 [| c3 s4]]]; reflexivity.
Qed.

(** Decide the comparisons of the goal from the hypotheses. *)
Ltac tests :=
  repeat match goal with
  | |- context [?a <=? ?b] => destruct (Z.leb_spec a b); try lia
  | |- context [?a <? ?b] => destruct (Z.ltb_spec a b); try lia
  | |- context [?a =? ?b] => destruct (Z.eqb_spec a b); try lia
  end.

Lemma EncodeRune_ascii (r : Z) :
  0 <= r < 0x80 -> utf8.EncodeRune r = String (chr r) EmptyString.
Proof.
  intros Hr. unfold utf8.EncodeRune. tests; reflexivity.
Qed.

(** The encoding of a rune outside ASCII has no ASCII byte. *)
Lemma EncodeRune_high (r : Z) :
  0x80 <= r -> utf8.ValidRune r = true ->
  exists c rest, utf8.EncodeRune r = String c rest
                 /\ strings.forallb highByte (String c rest) = true.
Proof.
  intros Hr Hvalid. unfold utf8.ValidRune, utf8.MaxRune in Hvalid.
  unfold utf8.EncodeRune, utf8.MaxRune.
  pose proof (Z.mod_pos_bound r 64 ltac:(lia)).
  pose proof (Z.mod_pos_bound (r / 64) 64 ltac:(lia)).
  pose proof (Z.mod_pos_bound (r / 4096) 64 ltac:(lia)).
  assert (0 <= r / 64) by (apply Z.div_pos; lia).
  assert (0 <= r / 4096) by (apply Z.div_pos; lia).
  assert (0 <= r / 262144) by (apply Z.div_pos; lia).
  assert (r < 0x800 -> r / 64 < 32) by (intros; apply Z.div_lt_upper_bound; lia).
  assert (r < 0x10000 -> r / 4096 < 16) by (intros; apply Z.div_lt_upper_bound; lia).
  assert (r <= 0x10FFFF -> r / 262144 < 5) by (intros; apply Z.div_lt_upper_bound; lia).
  tests; cbn [andb orb] in *; try discriminate;
    eexists _, _; (split; [reflexivity |]);
    cbn [strings.forallb]; unfold highByte; rewrite !byteZ_chr by lia;
    tests; reflexivity.
Qed.

(** The same, reducing the conditionals that are decided. *)
Ltac tests_step :=
  match goal with
  | |- context [?a <=? ?b] => destruct (Z.leb_spec a b); try lia
  | |- context [?a <? ?b] => destruct (Z.ltb_spec a b); try lia
  | |- context [?a =? ?b] => destruct (Z.eqb_spec a b); try lia
  end.
Ltac tests_reduce := repeat (tests_step; cbn [andb orb negb]; cbv iota).

(** Decoding after encoding: a valid rune is read back, with its bytes. *)
Lemma runes_EncodeRune (r : Z) (s : string) :
  utf8.ValidRune r = true ->
  utf8.runes (utf8.EncodeRune r +:+ s) = (r, utf8.EncodeRune r) :: utf8.runes s.
Proof.
  intros Hvalid. unfold utf8.ValidRune, utf8.MaxRune in Hvalid.
  assert (Hr : 0 <= r < 0xD800 \/ 0xDFFF < r <= 0x10FFFF).
  { apply orb_prop in Hvalid as [H | H]; apply andb_prop in H as [H1 H2]; lia. }
  clear Hvalid. unfold utf8.EncodeRune, utf8.MaxRune.
  pose proof (Z.mod_pos_bound r 64 ltac:(lia)) as B1.
  pose proof (Z.mod_pos_bound (r / 64) 64 ltac:(lia)) as B2.
  pose proof (Z.mod_pos_bound (r / 4096) 64 ltac:(lia)) as B3.
  pose proof (Z.div_mod r 64 ltac:(lia)) as E1.
  pose proof (Z.div_mod (r / 64) 64 ltac:(lia)) as E2.
  pose proof (Z.div_mod (r / 4096) 64 ltac:(lia)) as E3.
  rewrite Z.div_div in E2 by lia. rewrite Z.div_div in E3 by lia.
  change (64 * 64) with 4096 in E2. change (4096 * 64) with 262144 in E3.
  set (m1 := r mod 64) in *. set (m2 := (r / 64) mod 64) in *.
  set (m3 := (r / 4096) mod 64) in *.
  set (q1 := r / 64) in *. set (q2 := r / 4096) in *. set (q3 := r / 262144) in *.
  clearbody m1 m2 m3 q1 q2 q3.
  destruct (Z.leb_spec 0 r); [| lia]. cbn [andb].
  destruct (Z.ltb_spec r 0x80).
  { rewrite app_cons, runes_cons. cbv zeta. unfold utf8.RuneSelf.
    rewrite !byteZ_chr by lia. tests_reduce. reflexivity. }
  destruct (Z.leb_spec 0x80 r); [| lia]. cbn [andb].
  destruct (Z.ltb_spec r 0x800).
  { rewrite !app_cons, runes_cons. cbv zeta. unfold utf8.RuneSelf, utf8.first, utf8.within.
    rewrite !byteZ_chr by lia. tests_reduce.
    f_equal. f_equal. lia. }
  destruct (Z.leb_spec 0x800 r); [| lia]. cbn [andb].
  destruct (Z.ltb_spec r 0x10000).
  { assert (((r <? 0xD800) || ((0xDFFF <? r) && true)) = true) as ->.
    { destruct (Z.ltb_spec r 0xD800); [reflexivity |].
      destruct (Z.ltb_spec 0xDFFF r); [reflexivity | lia]. }
    rewrite !app_cons, runes_cons. cbv zeta. unfold utf8.RuneSelf, utf8.first, utf8.within.
    rewrite !byteZ_chr by lia. tests_reduce; f_equal; f_equal; lia. }
  assert (((r <? 0xD800) || ((0xDFFF <? r) && false)) = false) as ->.
  { destruct (Z.ltb_spec r 0xD800); [lia |]. cbn. apply andb_false_r. }
  destruct (Z.leb_spec 0x10000 r); [| lia].
  destruct (Z.leb_spec r 0x10FFFF); [| lia]. cbn [andb].
  rewrite !app_cons, runes_cons. cbv zeta. unfold utf8.RuneSelf, utf8.first, utf8.within.
  rewrite !byteZ_chr by lia. tests_reduce; f_equal; f_equal; lia.
Qed.

Ltac valid_rune :=
  cbn [fst]; unfold utf8.ValidRune, utf8.MaxRune, utf8.RuneSelf in *; tests; reflexivity.

Ltac within_bounds H :=
  unfold utf8.within in H; apply andb_prop in H as [?%Z.leb_le ?%Z.leb_le].

(** The cases of the table [first]. *)
Ltac first_cases F :=
  unfold utf8.first in F;
  repeat match type of F with
  | context [?a <=? ?b] => destruct (Z.leb_spec a b); cbn [andb] in F
  | context [?a =? ?b] => destruct (Z.eqb_spec a b)
  end;
  try discriminate F; injection F as <- <- <-.

(** Every rune the decoder produces is valid. *)
Lemma runes_valid_upto (n : nat) :
  forall s, (String.length s <= n)%nat ->
            Forall (fun rc : Z * string => utf8.ValidRune (fst rc) = true) (utf8.runes s).
Proof.
  induction n as [| n IH]; intros s Hlen.
  - destruct s; [constructor | cbn in Hlen; lia].
  - destruct s as [| c0 s1]; [constructor |]. cbn [String.length] in Hlen.
    assert (Hinv : Forall (fun rc : Z * string => utf8.ValidRune (fst rc) = true)
                          ((utf8.RuneError, String c0 EmptyString) :: utf8.runes s1))
      by (constructor; [reflexivity | apply IH; lia]).
    rewrite runes_cons. cbv zeta.
    pose proof (byteZ_range c0) as B0.
    destruct (Z.ltb_spec (byteZ c0) utf8.RuneSelf).
    { constructor; [valid_rune | apply IH; lia]. }
    destruct (utf8.first (byteZ c0)) as [[[sz lo] hi] |] eqn:F; [| exact Hinv].
    destruct s1 as [| c1 s2]; [exact Hinv |]. cbn [String.length] in Hlen.
    destruct (utf8.within lo hi c1) eqn:W1; [| exact Hinv].
    within_bounds W1. pose proof (byteZ_range c1) as B1.
    first_cases F; cbn [Z.eqb Pos.eqb];
      try (constructor; [valid_rune | apply IH; lia]);
      (destruct s2 as [| c2 s3]; [exact Hinv |]); cbn [String.length] in Hlen;
      (destruct (utf8.within 128 191 c2) eqn:W2; [| exact Hinv]);
      within_bounds W2; pose proof (byteZ_range c2) as B2;
      try (constructor; [valid_rune | apply IH; lia]);
      (destruct s3 as [| c3 s4]; [exact Hinv |]); cbn [String.length] in Hlen;
      (destruct (utf8.within 128 191 c3) eqn:W3; [| exact Hinv]);
      within_bounds W3; pose proof (byteZ_range c3) as B3;
      (constructor; [valid_rune | apply IH; lia]).
Qed.

Lemma runes_valid (s : string) :
  Forall (fun rc : Z * string => utf8.ValidRune (fst rc) = true) (utf8.runes s).
Proof.
  apply (runes_valid_upto (String.length s)). lia.
Qed.

(** ** Idempotence of the canonicalizer *)

Lemma SplitFirst_skip (a s : string) (d0 : ascii) (d' : string) :
  strings.forallb highByte a = true ->
  (byteZ d0 <? 0x80) = true ->
  strings.SplitFirst (a +:+ s) (String d0 d') = a +:+ strings.SplitFirst s (String d0 d').
Proof.
  intros Ha Hd. apply Z.ltb_lt in Hd.
  induction a as [| c a IH]; [reflexivity |].
  cbn [strings.forallb] in Ha. apply andb_prop in Ha as [Hc Ha].
  unfold highByte in Hc. apply Z.leb_le in Hc.
  rewrite !app_cons. cbn [strings.SplitFirst strings.HasPrefix].
  destruct (Ascii.eqb_spec c d0) as [-> | _]; [lia |].
  rewrite (IH Ha). reflexivity.
Qed.

Lemma isASCII_cons (c : ascii) (s : string) :
  strings.isASCII (String c s) = (byteZ c <? utf8.RuneSelf) && strings.isASCII s.
Proof. reflexivity. Qed.

Lemma ValidRune_nonneg (r : Z) : utf8.ValidRune r = true -> 0 <= r.
Proof.
  unfold utf8.ValidRune. intros H.
  apply orb_prop in H as [H | H]; apply andb_prop in H as [H1 H2]; lia.
Qed.

Lemma runes_encodeAll (rs : list Z) :
  Forall (fun r => utf8.ValidRune r = true) rs ->
  utf8.runes (encodeAll rs) = List.map (fun r => (r, utf8.EncodeRune r)) rs.
Proof.
  induction 1 as [| r rs Hr _ IH]; [reflexivity |].
  unfold encodeAll in *. cbn [List.map strings.concat].
  rewrite (runes_EncodeRune r _ Hr), IH. reflexivity.
Qed.

Section Idempotence.

Variable unicode_ToLower : Z -> Z.

(** What Go's [unicode.ToLower] does: on ASCII it lowers the letters A to Z
    and nothing else; it maps valid runes to valid runes; a rune in lower
    case is its own lower case. *)
Hypothesis ToLower_ascii :
  forall r, 0 <= r < 0x80 ->
            unicode_ToLower r = if (65 <=? r) && (r <=? 90) then r + 32 else r.
Hypothesis ToLower_valid :
  forall r, utf8.ValidRune r = true -> utf8.ValidRune (unicode_ToLower r) = true.
Hypothesis ToLower_idempotent :
  forall r, utf8.ValidRune r = true ->
            unicode_ToLower (unicode_ToLower r) = unicode_ToLower r.

Lemma lowered_empty : lowered unicode_ToLower EmptyString.
Proof.
  exists []. split; [reflexivity | constructor].
Qed.

Lemma lowered_cons (r : Z) (s : string) :
  utf8.ValidRune r = true -> unicode_ToLower r = r ->
  lowered unicode_ToLower s ->
  lowered unicode_ToLower (utf8.EncodeRune r +:+ s).
Proof.
  intros Hr Hfix [rs [-> Hall]]. exists (r :: rs).
  split; [reflexivity | constructor; [split; assumption | exact Hall]].
Qed.

Lemma lowered_cons_ascii (r : Z) (s : string) :
  0 <= r < 0x80 -> unicode_ToLower r = r ->
  lowered unicode_ToLower s ->
  lowered unicode_ToLower (String (chr r) s).
Proof.
  intros Hr Hfix Hs.
  change (String (chr r) s) with (String (chr r) EmptyString +:+ s).
  rewrite <- (EncodeRune_ascii r Hr).
  apply lowered_cons; [| assumption | assumption].
  unfold utf8.ValidRune. tests; reflexivity.
Qed.

(** An ASCII rune that is its own lower case is no capital letter. *)
Lemma fixed_not_capital (r : Z) :
  0 <= r < 0x80 -> unicode_ToLower r = r -> ~ (65 <= r <= 90).
Proof.
  intros Hr Hfix Hcap. rewrite (ToLower_ascii r Hr) in Hfix.
  destruct (Z.leb_spec 65 r); [| lia]. destruct (Z.leb_spec r 90); [| lia].
  cbn [andb] in Hfix. lia.
Qed.

(** The ASCII path of [strings.ToLower] gives a string in lower case. *)
Lemma lowered_map_lowerByte (s : string) :
  strings.isASCII s = true -> lowered unicode_ToLower (strings.map strings.lowerByte s).
Proof.
  induction s as [| c s IH]; intros Hs; [apply lowered_empty |].
  rewrite isASCII_cons in Hs. apply andb_prop in Hs as [Hc Hs].
  unfold utf8.RuneSelf in Hc. apply Z.ltb_lt in Hc.
  pose proof (byteZ_range c) as Bc.
  cbn [strings.map].
  set (r := byteZ (strings.lowerByte c)).
  assert (Hr : 0 <= r < 0x80 /\ ~ (65 <= r <= 90)).
  { subst r. unfold strings.lowerByte.
    destruct (Z.leb_spec 65 (byteZ c)); destruct (Z.leb_spec (byteZ c) 90); cbn [andb];
      try rewrite byteZ_chr by lia; lia. }
  destruct Hr as [Hr Hcap].
  replace (String (strings.lowerByte c) (strings.map strings.lowerByte s))
    with (utf8.EncodeRune r +:+ strings.map strings.lowerByte s).
  - apply lowered_cons; [| | apply IH; exact Hs].
    + unfold utf8.ValidRune. tests; reflexivity.
    + rewrite (ToLower_ascii r Hr).
      destruct (Z.leb_spec 65 r); destruct (Z.leb_spec r 90); cbn [andb]; lia.
  - rewrite (EncodeRune_ascii r Hr). subst r. rewrite chr_byteZ. reflexivity.
Qed.

(** The other path, through [strings.Map], does so too. *)
Lemma lowered_Map (s : string) : lowered unicode_ToLower (strings.Map unicode_ToLower s).
Proof.
  unfold strings.Map. pose proof (runes_valid s) as Hvalid.
  induction Hvalid as [| [r bytes] l Hr _ IH]; [apply lowered_empty |].
  cbn [List.map strings.concat fst] in *.
  pose proof (ValidRune_nonneg _ (ToLower_valid r Hr)) as Hpos.
  destruct (Z.ltb_spec (unicode_ToLower r) 0); [lia |].
  apply lowered_cons; [apply ToLower_valid; exact Hr | apply ToLower_idempotent; exact Hr | exact IH].
Qed.

Lemma lowered_ToLower (s : string) :
  lowered unicode_ToLower (strings.ToLower unicode_ToLower s).
Proof.
  unfold strings.ToLower. destruct (strings.isASCII s) eqn:Hs.
  - apply lowered_map_lowerByte. exact Hs.
  - apply lowered_Map.
Qed.

(** A cut at a separator that starts with an ASCII byte falls between two
    runes, so what is left is in lower case. *)
Lemma lowered_SplitFirst (s : string) (d0 : ascii) (d' : string) :
  (byteZ d0 <? 0x80) = true ->
  lowered unicode_ToLower s ->
  lowered unicode_ToLower (strings.SplitFirst s (String d0 d')).
Proof.
  intros Hd [rs [-> Hall]].
  induction Hall as [| r rs [Hr Hfix] Hall IH]; [apply lowered_empty |].
  change (encodeAll (r :: rs)) with (utf8.EncodeRune r +:+ encodeAll rs).
  destruct (Z.ltb_spec r 0x80) as [Hlow | Hhigh].
  - pose proof (ValidRune_nonneg r Hr) as Hpos.
    rewrite (EncodeRune_ascii r) by lia. rewrite app_cons.
    change (EmptyString +:+ encodeAll rs) with (encodeAll rs).
    cbn [strings.SplitFirst].
    destruct (strings.HasPrefix _ _); [apply lowered_empty |].
    apply lowered_cons_ascii; [lia | assumption | assumption].
  - destruct (EncodeRune_high r Hhigh Hr) as [c [rest [E Hbytes]]].
    rewrite E, (SplitFirst_skip _ _ d0 d' Hbytes Hd), <- E.
    apply lowered_cons; assumption.
Qed.

Lemma Map_lowered (rs : list Z) :
  Forall (fun r => utf8.ValidRune r = true /\ unicode_ToLower r = r) rs ->
  strings.Map unicode_ToLower (encodeAll rs) = encodeAll rs.
Proof.
  intros Hall. unfold strings.Map.
  rewrite runes_encodeAll by (eapply Forall_impl; [exact Hall | intros r [H _]; exact H]).
  unfold encodeAll.
  induction Hall as [| r rs [Hr Hfix] _ IH]; [reflexivity |].
  cbn [List.map strings.concat fst]. rewrite Hfix, IH.
  pose proof (ValidRune_nonneg r Hr).
  destruct (Z.ltb_spec r 0); [lia | reflexivity].
Qed.

Lemma map_lowerByte_lowered (rs : list Z) :
  Forall (fun r => utf8.ValidRune r = true /\ unicode_ToLower r = r) rs ->
  strings.isASCII (encodeAll rs) = true ->
  strings.map strings.lowerByte (encodeAll rs) = encodeAll rs.
Proof.
  induction 1 as [| r rs [Hr Hfix] _ IH]; [reflexivity |].
  change (encodeAll (r :: rs)) with (utf8.EncodeRune r +:+ encodeAll rs).
  destruct (Z.ltb_spec r 0x80) as [Hlow | Hhigh].
  - pose proof (ValidRune_nonneg r Hr) as Hpos.
    rewrite (EncodeRune_ascii r) by lia. rewrite app_cons.
    change (EmptyString +:+ encodeAll rs) with (encodeAll rs).
    rewrite isASCII_cons. intros Hs. apply andb_prop in Hs as [_ Hs].
    cbn [strings.map]. rewrite (IH Hs). f_equal.
    unfold strings.lowerByte. rewrite byteZ_chr by lia.
    pose proof (fixed_not_capital r ltac:(lia) Hfix).
    destruct (Z.leb_spec 65 r); destruct (Z.leb_spec r 90); cbn [andb]; try reflexivity; lia.
  - destruct (EncodeRune_high r Hhigh Hr) as [c [rest [E Hbytes]]].
    rewrite E, app_cons, isASCII_cons.
    cbn [strings.forallb] in Hbytes. apply andb_prop in Hbytes as [Hc _].
    unfold highByte in Hc. apply Z.leb_le in Hc. unfold utf8.RuneSelf.
    destruct (Z.ltb_spec (byteZ c) 0x80); [lia | discriminate].
Qed.

(** [strings.ToLower] leaves a string in lower case as it is. *)
Lemma ToLower_lowered (s : string) :
  lowered unicode_ToLower s -> strings.ToLower unicode_ToLower s = s.
Proof.
  intros [rs [-> Hall]]. unfold strings.ToLower.
  destruct (strings.isASCII (encodeAll rs)) eqn:Hs.
  - apply map_lowerByte_lowered; assumption.
  - apply Map_lowered. exact Hall.
Qed.

(** A string in lower case without separators is its own canonical form. *)
Lemma parsePyDep_fixed (s : string) :
  strings.ToLower unicode_ToLower s = s ->
  Forall (fun sep => strings.Contains s sep = false) separators ->
  parsePyDep unicode_ToLower s = s.
Proof.
  intros Hlower Hfree. unfold parsePyDep. rewrite Hlower.
  unfold separators in Hfree.
  repeat match goal with
  | H : Forall _ (_ :: _) |- _ => apply Forall_cons in H as [? H]
  end.
  repeat match goal with
  | H : strings.Contains s ?sep = false |- _ => rewrite (SplitFirst_id s sep H); clear H
  end.
  reflexivity.
Qed.

(** C4: [parsePyDep] is idempotent. *)
Theorem parsePyDep_idempotent (dep : string) :
  parsePyDep unicode_ToLower (parsePyDep unicode_ToLower dep)
  = parsePyDep unicode_ToLower dep.
Proof.
  apply parsePyDep_fixed.
  - apply ToLower_lowered. unfold parsePyDep.
    repeat (apply lowered_SplitFirst; [reflexivity |]).
    apply lowered_ToLower.
  - apply parsePyDep_free.
Qed.

End Idempotence.

Lemma latin1ToLower_ascii (r : Z) :
  0 <= r < 0x80 -> latin1ToLower r = if (65 <=? r) && (r <=? 90) then r + 32 else r.
Proof.
  intros Hr. unfold latin1ToLower.
  destruct ((65 <=? r) && (r <=? 90)); [reflexivity |].
  destruct (Z.leb_spec 0xC0 r); [lia | reflexivity].
Qed.

Lemma latin1ToLower_valid (r : Z) :
  utf8.ValidRune r = true -> utf8.ValidRune (latin1ToLower r) = true.
Proof.
  intros Hr. pose proof (ValidRune_nonneg r Hr).
  unfold latin1ToLower.
  destruct (Z.leb_spec 65 r); destruct (Z.leb_spec r 90); cbn [andb];
    try (unfold utf8.ValidRune; tests; reflexivity);
    destruct (Z.leb_spec 0xC0 r); destruct (Z.leb_spec r 0xDE); cbn [andb];
    try exact Hr;
    destruct (Z.eqb_spec r 0xD7); cbn [negb];
    try exact Hr; unfold utf8.ValidRune; tests; reflexivity.
Qed.

Lemma latin1ToLower_idempotent (r : Z) :
  utf8.ValidRune r = true -> latin1ToLower (latin1ToLower r) = latin1ToLower r.
Proof.
  intros _. unfold latin1ToLower.
  destruct (Z.leb_spec 65 r); destruct (Z.leb_spec r 90); cbn [andb];
    destruct (Z.leb_spec 0xC0 r); destruct (Z.leb_spec r 0xDE); cbn [andb];
    destruct (Z.eqb_spec r 0xD7); cbn [negb];
    tests_reduce; try reflexivity; lia.
Qed.

Lemma parsePyDep_idempotent_witness :
  (forall r, 0 <= r < 0x80 ->
             latin1ToLower r = if (65 <=? r) && (r <=? 90) then r + 32 else r) /\
  (forall r, utf8.ValidRune r = true -> utf8.ValidRune (latin1ToLower r) = true) /\
  (forall r, utf8.ValidRune r = true ->
             latin1ToLower (latin1ToLower r) = latin1ToLower r) /\
  parsePyDep latin1ToLower "Éclair[extra]>=1.0; os_name != 'nt'" = "éclair" /\
  parsePyDep latin1ToLower (parsePyDep latin1ToLower "Éclair[extra]>=1.0; os_name != 'nt'")
  = parsePyDep latin1ToLower "Éclair[extra]>=1.0; os_name != 'nt'".
Proof.
  split; [exact latin1ToLower_ascii | split; [exact latin1ToLower_valid | split;
    [exact latin1ToLower_idempotent | split; [reflexivity |]]]].
  exact (parsePyDep_idempotent latin1ToLower latin1ToLower_ascii latin1ToLower_valid
           latin1ToLower_idempotent "Éclair[extra]>=1.0; os_name != 'nt'").
Defined.

(** * Further properties of [python.go] *)

(** ** Descriptors built by [intoSource] *)

(** What [buildSource] returns when it returns a descriptor. *)
Lemma buildSource_descriptor (w : World) (cfg : PyCfg) (vars : gmap string Var)
    (app : PyApp) (out : list LogLine) (src : SourceInfo) :
  buildSource w cfg vars app = (out, Ok (Some src)) ->
  out = [] /\
  slices_Contains supportedApps app = true /\
  exists vars',
    Files src = templatesExecute "templates/python-docker" vars' /\
    (Family src, Port src) = frameworkFamily app /\
    ObjectStorageDesired src
    = slices_Contains (deps cfg) "boto3" || slices_Contains (deps cfg) "boto" /\
    Runtime src = {| Language := "python"; Version := EmptyString |} /\
    Builder src = EmptyString /\ SkipDeploy src = false /\
    (if String.eqb app Streamlit
     then exists name,
            findEntrypoint w "streamlit" = Some name /\
            vars' = <["entrypoint" := VarString name]>
                      (<["streamlit" := VarBool true]>
                         (<[PyDepStyle_string (depStyle cfg) := VarBool true]> vars))
     else vars' = <[app := VarBool true]>
                    (<[PyDepStyle_string (depStyle cfg) := VarBool true]> vars)).
Proof.
  unfold buildSource, frameworkFamily.
  destruct (String.eqb_spec app EmptyString) as [-> | _]; [discriminate |].
  destruct (String.eqb_spec app FastAPI) as [-> | _].
  { intros [= <- <-]. repeat (split; [reflexivity |]). eexists. repeat split. }
  destruct (String.eqb_spec app Flask) as [-> | _].
  { intros [= <- <-]. repeat (split; [reflexivity |]). eexists. repeat split. }
  destruct (String.eqb_spec app Streamlit) as [-> | _]; [| discriminate].
  destruct (findEntrypoint w "streamlit") as [name |] eqn:Hfind; [| discriminate].
  intros [= <- <-]. repeat (split; [reflexivity |]).
  eexists. repeat (split; [reflexivity |]). exists name. split; reflexivity.
Qed.

(** A descriptor comes from exactly one framework entry. *)
Lemma intoSource_descriptor (w : World) (cfg : PyCfg) (out : list LogLine) (src : SourceInfo) :
  intoSource w cfg = (out, Ok (Some src)) ->
  exists app,
    frameworkEntries (deps cfg) = [app] /\
    buildSource w cfg
      (<["appName" := VarString (appName cfg)]>
         (<["pyVersion" := VarString (pyVersion cfg)]> ∅)) app
    = (out, Ok (Some src)).
Proof.
  rewrite intoSource_by_entries.
  destruct (frameworkEntries (deps cfg)) as [| app [| d ds]]; [discriminate | | discriminate].
  intros H. exists app. split; [reflexivity | exact H].
Qed.

(** X1: every descriptor that [intoSource] returns asks for object storage
    exactly when boto3 or boto is among the dependencies. *)
Theorem intoSource_object_storage (w : World) (cfg : PyCfg)
    (out : list LogLine) (src : SourceInfo) :
  intoSource w cfg = (out, Ok (Some src)) ->
  (ObjectStorageDesired src = true <-> "boto3" ∈ deps cfg \/ "boto" ∈ deps cfg).
Proof.
  intros H. apply intoSource_descriptor in H as [app [_ H]].
  apply buildSource_descriptor in H as [_ [_ [vars' [_ [_ [Hobj _]]]]]].
  rewrite Hobj, orb_true_iff, !slices_Contains_elem. reflexivity.
Qed.

Lemma intoSource_object_storage_witness :
  exists src, intoSource emptyWorld flaskBoto = ([], Ok (Some src)) /\
              ("boto3" ∈ deps flaskBoto \/ "boto" ∈ deps flaskBoto) /\
              ObjectStorageDesired src = true.
Proof.
  assert (Hboto : "boto3" ∈ deps flaskBoto \/ "boto" ∈ deps flaskBoto)
    by (left; right; right; left).
  eexists. split; [reflexivity | split; [exact Hboto |]].
  exact (proj2 (intoSource_object_storage emptyWorld flaskBoto [] _ eq_refl) Hboto).
Defined.

Lemma supported_cases (app : string) :
  slices_Contains supportedApps app = true ->
  app = FastAPI \/ app = Flask \/ app = Streamlit.
Proof.
  intros H. apply slices_Contains_elem in H.
  unfold supportedApps in H.
  apply elem_of_cons in H as [-> | H]; [auto |].
  apply elem_of_cons in H as [-> | H]; [auto |].
  apply list_elem_of_singleton in H as ->. auto.
Qed.

(** X2: the template variables of a descriptor that [intoSource] returns
    hold the version and the application name of the configuration, the flag
    of its dependency style and of no other style, the flag of its framework
    and of no other framework, and [entrypoint] for Streamlit only; the
    runtime of the descriptor names Python without a version. *)
Theorem intoSource_template_variables (w : World) (cfg : PyCfg)
    (out : list LogLine) (src : SourceInfo) :
  intoSource w cfg = (out, Ok (Some src)) ->
  exists vars app,
    Files src = templatesExecute "templates/python-docker" vars /\
    frameworkEntries (deps cfg) = [app] /\
    vars !! "pyVersion" = Some (VarString (pyVersion cfg)) /\
    vars !! "appName" = Some (VarString (appName cfg)) /\
    vars !! PyDepStyle_string (depStyle cfg) = Some (VarBool true) /\
    (forall style, style <> depStyle cfg -> vars !! PyDepStyle_string style = None) /\
    vars !! app = Some (VarBool true) /\
    (forall other, other ∈ supportedApps -> other <> app -> vars !! other = None) /\
    vars !! "entrypoint"
    = (if String.eqb app Streamlit
       then VarString <$> findEntrypoint w "streamlit" else None) /\
    Runtime src = {| Language := "python"; Version := EmptyString |}.
Proof.
  intros H. apply intoSource_descriptor in H as [app [Hone H]].
  apply buildSource_descriptor
    in H as [_ [Hsup [vars [Hfiles [_ [_ [Hrun [_ [_ Hvars]]]]]]]]].
  exists vars, app. split; [exact Hfiles | split; [exact Hone |]].
  assert (Hother : forall other, other ∈ supportedApps ->
                     other = FastAPI \/ other = Flask \/ other = Streamlit).
  { intros other Ho. apply supported_cases, slices_Contains_elem, Ho. }
  destruct (supported_cases app Hsup) as [-> | [-> | ->]]; cbn [String.eqb Ascii.eqb Bool.eqb
    FastAPI Flask Streamlit] in Hvars.
  - subst vars. destruct cfg as [v name l style]. cbn [pyVersion appName depStyle].
    destruct style; repeat (split; [first [reflexivity
      | intros [] Hne; first [reflexivity | contradiction]
      | intros other Ho Hne; destruct (Hother other Ho) as [-> | [-> | ->]];
        first [reflexivity | contradiction]] |]); exact Hrun.
  - subst vars. destruct cfg as [v name l style]. cbn [pyVersion appName depStyle].
    destruct style; repeat (split; [first [reflexivity
      | intros [] Hne; first [reflexivity | contradiction]
      | intros other Ho Hne; destruct (Hother other Ho) as [-> | [-> | ->]];
        first [reflexivity | contradiction]] |]); exact Hrun.
  - destruct Hvars as [entry [Hfind ->]]. rewrite Hfind.
    destruct cfg as [v name l style]. cbn [pyVersion appName depStyle].
    destruct style; repeat (split; [first [reflexivity
      | intros [] Hne; first [reflexivity | contradiction]
      | intros other Ho Hne; destruct (Hother other Ho) as [-> | [-> | ->]];
        first [reflexivity | contradiction]] |]); exact Hrun.
Qed.

Lemma intoSource_template_variables_witness :
  exists src vars,
    intoSource emptyWorld flaskBoto = ([], Ok (Some src)) /\
    Files src = templatesExecute "templates/python-docker" vars /\
    vars !! "pyVersion" = Some (VarString "3.11.2") /\
    vars !! "appName" = Some (VarString "shop") /\
    vars !! "poetry" = Some (VarBool true) /\
    vars !! "pip" = None /\
    vars !! "flask" = Some (VarBool true) /\
    vars !! "fastapi" = None.
Proof.
  destruct (intoSource_template_variables emptyWorld flaskBoto [] _ eq_refl)
    as [vars [app [Hfiles [Hone [Hv [Hn [Hs [Hstyles [Ha [Hothers _]]]]]]]]]].
  injection Hone as <-.
  eexists _, vars. split; [reflexivity |].
  split; [exact Hfiles | split; [exact Hv | split; [exact Hn | split; [exact Hs |]]]].
  split; [apply (Hstyles Pip); discriminate | split; [exact Ha |]].
  apply Hothers; [left | discriminate].
Defined.

(** X3: when exactly one entry of the dependency list names a supported
    framework, whatever the other entries are, [intoSource] prints nothing and
    returns the descriptor with the family and the port of that framework;
    for Streamlit this needs an entrypoint. *)
Theorem intoSource_one_framework (w : World) (cfg : PyCfg) (app : PyApp) :
  frameworkEntries (deps cfg) = [app] ->
  (app = Streamlit -> findEntrypoint w "streamlit" <> None) ->
  exists src, intoSource w cfg = ([], Ok (Some src))
              /\ (Family src, Port src) = frameworkFamily app.
Proof.
  intros Hone Hentry.
  assert (Hsup : slices_Contains supportedApps app = true).
  { apply (frameworkEntries_elem (deps cfg) app). rewrite Hone. left. }
  rewrite intoSource_by_entries, Hone. unfold buildSource, frameworkFamily.
  destruct (supported_cases app Hsup) as [-> | [-> | ->]];
    cbn [String.eqb Ascii.eqb Bool.eqb FastAPI Flask Streamlit].
  - eexists. split; reflexivity.
  - eexists. split; reflexivity.
  - destruct (findEntrypoint w "streamlit") as [name |].
    + eexists. split; reflexivity.
    + exfalso. apply Hentry; reflexivity.
Qed.

Lemma intoSource_one_framework_witness :
  frameworkEntries (deps flaskBoto) = ["flask"] /\
  ("flask" = Streamlit -> findEntrypoint emptyWorld "streamlit" <> None) /\
  exists src, intoSource emptyWorld flaskBoto = ([], Ok (Some src))
              /\ (Family src, Port src) = ("Flask", 8080).
Proof.
  assert (H : "flask" = Streamlit -> findEntrypoint emptyWorld "streamlit" <> None)
    by discriminate.
  split; [reflexivity | split; [exact H |]].
  exact (intoSource_one_framework emptyWorld flaskBoto "flask" eq_refl H).
Defined.

(** X4: [intoSource] never fails and never panics.  It prints one warning
    when it finds no supported framework or more than one, and nothing
    otherwise; the only case in which it returns no descriptor without a
    warning is Streamlit as the one framework and no entrypoint found. *)
Theorem intoSource_silent_absent (w : World) (cfg : PyCfg) :
  (exists out src, intoSource w cfg = (out, Ok src) /\
                   (out = [] \/ src = None /\ exists msg, out = [Warn msg])) /\
  (intoSource w cfg = ([], Ok None) <->
   frameworkEntries (deps cfg) = ["streamlit"] /\ findEntrypoint w "streamlit" = None).
Proof.
  rewrite intoSource_by_entries.
  destruct (frameworkEntries (deps cfg)) as [| app [| d ds]] eqn:Hone.
  - split; [eauto 8 |]. split; [discriminate | intros [[=] _]].
  - assert (Hsup : slices_Contains supportedApps app = true).
    { apply (frameworkEntries_elem (deps cfg) app). rewrite Hone. left. }
    unfold buildSource.
    destruct (supported_cases app Hsup) as [-> | [-> | ->]];
      cbn [String.eqb Ascii.eqb Bool.eqb FastAPI Flask Streamlit].
    + split; [eauto 8 |]. split; [discriminate | intros [[=] _]].
    + split; [eauto 8 |]. split; [discriminate | intros [[=] _]].
    + destruct (findEntrypoint w "streamlit") as [name |].
      * split; [eauto 8 |]. split; [discriminate | intros [_ [=]]].
      * split; [eauto 8 |]. split; [intros _; split; reflexivity | reflexivity].
  - split; [eauto 8 |]. split; [discriminate | intros [[=] _]].
Qed.

(** ** The chain of detectors *)

Lemma orElse_definitive (m rest : M (option SourceInfo)) :
  snd m <> Ok None -> orElse m rest = m.
Proof.
  destruct m as [out [[src |] | e |]]; intros H; cbn in H.
  - unfold orElse, mbind, M_bind, bind. cbn. rewrite app_nil_r. reflexivity.
  - contradiction.
  - reflexivity.
  - reflexivity.
Qed.

Lemma orElse_absent_pair (m rest : M (option SourceInfo)) :
  snd m = Ok None -> orElse m rest = (fst m ++ fst rest, snd rest).
Proof.
  destruct m as [out r]. cbn. intros ->. apply orElse_absent.
Qed.

(** X5: [configurePython] returns what the first detector that does not
    come back with (nil, nil) returns, be it a descriptor, an error or a
    panic, in the order Poetry, pyproject, Pipfile, requirements; the
    detectors after it are not run and print nothing. *)
Theorem configurePython_first_definitive (unicode_ToLower : Z -> Z)
    (unicode_IsDigit : Z -> bool) (w : World) (sourceDir : string) :
  let poetry := configPoetry unicode_ToLower w sourceDir in
  let pyproject := configPyProject unicode_ToLower unicode_IsDigit w sourceDir in
  let pipfile := configPipfile unicode_ToLower w sourceDir in
  let requirements := configRequirements unicode_ToLower w sourceDir in
  let result := configurePython unicode_ToLower unicode_IsDigit w sourceDir in
  (snd poetry <> Ok None -> result = poetry) /\
  (snd poetry = Ok None -> snd pyproject <> Ok None ->
   result = (fst poetry ++ fst pyproject, snd pyproject)) /\
  (snd poetry = Ok None -> snd pyproject = Ok None -> snd pipfile <> Ok None ->
   result = (fst poetry ++ fst pyproject ++ fst pipfile, snd pipfile)) /\
  (snd poetry = Ok None -> snd pyproject = Ok None -> snd pipfile = Ok None ->
   snd requirements <> Ok None ->
   result = (fst poetry ++ fst pyproject ++ fst pipfile ++ fst requirements,
             snd requirements)).
Proof.
  cbv zeta. unfold configurePython. repeat split.
  - intros H1. apply orElse_definitive. exact H1.
  - intros H1 H2. rewrite (orElse_absent_pair _ _ H1), (orElse_definitive _ _ H2).
    reflexivity.
  - intros H1 H2 H3.
    rewrite (orElse_absent_pair _ _ H1), (orElse_absent_pair _ _ H2),
      (orElse_definitive _ _ H3).
    reflexivity.
  - intros H1 H2 H3 H4.
    rewrite (orElse_absent_pair _ _ H1), (orElse_absent_pair _ _ H2),
      (orElse_absent_pair _ _ H3), (orElse_definitive _ _ H4).
    reflexivity.
Qed.

Lemma configurePython_first_definitive_witness :
  snd (configPoetry asciiToLower poetryAndRequirements "/srv/app") <> Ok None /\
  (exists src, configRequirements asciiToLower poetryAndRequirements "/srv/app"
               = ([Info "Detected requirements.txt"], Ok (Some src))
               /\ Family src = "FastAPI") /\
  configurePython asciiToLower asciiIsDigit poetryAndRequirements "/srv/app"
  = configPoetry asciiToLower poetryAndRequirements "/srv/app" /\
  exists src, configurePython asciiToLower asciiIsDigit poetryAndRequirements "/srv/app"
              = ([Info "Detected Poetry project"], Ok (Some src))
              /\ Family src = "Flask".
Proof.
  assert (H : snd (configPoetry asciiToLower poetryAndRequirements "/srv/app") <> Ok None)
    by discriminate.
  split; [exact H | split; [eexists; split; reflexivity | split]].
  - exact (proj1 (configurePython_first_definitive asciiToLower asciiIsDigit
                    poetryAndRequirements "/srv/app") H).
  - eexists. split; reflexivity.
Defined.

Lemma extractPythonVersion_no_panic (w : World) : snd (extractPythonVersion w) <> Panic.
Proof.
  unfold extractPythonVersion.
  destruct (pipfileLockVersion w); [discriminate |].
  unfold matchPythonVersion.
  destruct (regexp.FindStringSubmatch pythonVersionRe (pythonVersionOutput w))
    as [| m0 [| version rest]]; discriminate.
Qed.

(** X6: in a directory without [pyproject.toml], [Pipfile], [Pipfile.lock],
    [requirements.txt] and [requirements.in], [configurePython] prints
    nothing; it returns (nil, nil) when no marker file exists either, and
    otherwise the generic descriptor (family Python, port 8080 also as the
    variable PORT, no deployment) with the version of the resolver, or the
    error of the resolver. *)
Theorem configurePython_no_manifest (unicode_ToLower : Z -> Z)
    (unicode_IsDigit : Z -> bool) (w : World) (sourceDir : string) :
  checksPass_fileExists w sourceDir ["pyproject.toml"] = false ->
  checksPass_fileExists w sourceDir ["Pipfile"; "Pipfile.lock"] = false ->
  checksPass_fileExists w sourceDir ["requirements.txt"] = false ->
  checksPass_fileExists w sourceDir ["requirements.in"] = false ->
  (checksPass_fileExists w sourceDir markerFiles = false ->
   configurePython unicode_ToLower unicode_IsDigit w sourceDir = ([], Ok None)) /\
  (checksPass_fileExists w sourceDir markerFiles = true ->
   (forall e, snd (extractPythonVersion w) = Err e ->
      configurePython unicode_ToLower unicode_IsDigit w sourceDir = ([], Err e)) /\
   (forall version pinned, snd (extractPythonVersion w) = Ok (version, pinned) ->
      exists src,
        configurePython unicode_ToLower unicode_IsDigit w sourceDir = ([], Ok (Some src))
        /\ Family src = "Python" /\ Port src = 8080
        /\ Env src !! "PORT" = Some "8080"
        /\ SkipDeploy src = true
        /\ Builder src = "paketobuildpacks/builder:base"
        /\ Files src = templates "templates/python"
        /\ ObjectStorageDesired src = false
        /\ Runtime src = {| Language := "python"; Version := version |})).
Proof.
  intros Hproj Hpip Htxt Hin.
  assert (Hchain : configurePython unicode_ToLower unicode_IsDigit w sourceDir =
    (if negb (checksPass_fileExists w sourceDir markerFiles) then mret None
     else '(pythonVersion, _) ← extractPythonVersion w;
          mret (Some {| Files := templates "templates/python";
                        Builder := "paketobuildpacks/builder:base";
                        Family := "Python"; Port := 8080;
                        Env := {[ "PORT" := "8080" ]};
                        SkipDeploy := true;
                        DeployDocs := "We have generated a simple Procfile for you. Modify it to fit your needs and run "
                                      +:+ quote +:+ "fly deploy" +:+ quote
                                      +:+ " to deploy your application.";
                        ObjectStorageDesired := false;
                        Runtime := {| Language := "python";
                                      Version := pythonVersion |} |}))).
  { unfold configurePython, configPoetry, configPyProject, configPipfile, configRequirements.
    rewrite Hproj, Hpip, Htxt, Hin. rewrite orb_true_r. cbn [negb].
    unfold mret, M_ret. rewrite !(orElse_absent []). cbn [fst snd app].
    destruct (negb _); [reflexivity |].
    destruct (_ ≫= _) as [out r]. reflexivity. }
  rewrite Hchain. split.
  - intros ->. reflexivity.
  - intros ->. cbn [negb].
    pose proof (extractPythonVersion_silent w) as Hsilent.
    destruct (extractPythonVersion w) as [out r]. cbn in Hsilent. subst out.
    split.
    + intros e Hr. cbn in Hr. subst r. reflexivity.
    + intros version pinned Hr. cbn in Hr. subst r.
      eexists. split; [reflexivity |]. repeat split.
Qed.

Lemma configurePython_no_manifest_witness :
  checksPass_fileExists setupOnly "/srv/app" ["pyproject.toml"] = false /\
  checksPass_fileExists setupOnly "/srv/app" ["Pipfile"; "Pipfile.lock"] = false /\
  checksPass_fileExists setupOnly "/srv/app" ["requirements.txt"] = false /\
  checksPass_fileExists setupOnly "/srv/app" ["requirements.in"] = false /\
  checksPass_fileExists setupOnly "/srv/app" markerFiles = true /\
  snd (extractPythonVersion setupOnly) = Ok ("3.11.2", false) /\
  exists src,
    configurePython asciiToLower asciiIsDigit setupOnly "/srv/app" = ([], Ok (Some src))
    /\ Family src = "Python" /\ Port src = 8080
    /\ Env src !! "PORT" = Some "8080"
    /\ SkipDeploy src = true
    /\ Builder src = "paketobuildpacks/builder:base"
    /\ Files src = templates "templates/python"
    /\ ObjectStorageDesired src = false
    /\ Runtime src = {| Language := "python"; Version := "3.11.2" |}.
Proof.
  repeat (split; [reflexivity |]).
  exact (proj2 (proj2 (configurePython_no_manifest asciiToLower asciiIsDigit setupOnly
                         "/srv/app" eq_refl eq_refl eq_refl eq_refl) eq_refl)
           "3.11.2" false eq_refl).
Defined.

(** ** Where descriptors come from *)

Lemma bind_Ok_inv {A B} (m : M A) (k : A -> M B) (out : list LogLine) (b : B) :
  bind m k = (out, Ok b) ->
  exists o1 a o2, m = (o1, Ok a) /\ k a = (o2, Ok b) /\ out = o1 ++ o2.
Proof.
  destruct m as [o1 [a | e |]]; cbn [bind]; [| discriminate | discriminate].
  destruct (k a) as [o2 r] eqn:Hk. intros [= <- ->]. eauto 6.
Qed.

(** Break a computation that returned a value into its steps; [a] names the
    value of the first step. *)
Ltac bind_inv H a :=
  unfold mbind, M_bind in H;
  apply bind_Ok_inv in H as (? & a & ? & ? & H & ?).

Lemma configPoetry_descriptor (unicode_ToLower : Z -> Z) (w : World) (sourceDir : string)
    (out : list LogLine) (src : SourceInfo) :
  configPoetry unicode_ToLower w sourceDir = (out, Ok (Some src)) ->
  exists cfg out', intoSource w cfg = (out', Ok (Some src)) /\ depStyle cfg = Poetry.
Proof.
  unfold configPoetry. destruct (_ || _); [discriminate |].
  intros H. bind_inv H u.
  destruct (os_file w "pyproject.toml") as [doc |]; [| discriminate].
  destruct (toml_Unmarshal_PyProjectToml w doc) as [p |]; [| discriminate].
  destruct (poetry_Dependencies (Tool_Poetry p)) as [table |]; [| discriminate].
  destruct (mapIndex table "python") as [[v | | | | | |] |]; try discriminate.
  eauto.
Qed.

Lemma configPyProject_descriptor (unicode_ToLower : Z -> Z) (unicode_IsDigit : Z -> bool)
    (w : World) (sourceDir : string) (out : list LogLine) (src : SourceInfo) :
  configPyProject unicode_ToLower unicode_IsDigit w sourceDir = (out, Ok (Some src)) ->
  exists cfg out', intoSource w cfg = (out', Ok (Some src)) /\ depStyle cfg = Pep621.
Proof.
  unfold configPyProject. destruct (negb _); [discriminate |].
  intros H. bind_inv H u.
  destruct (os_file w "pyproject.toml") as [doc |]; [| discriminate].
  destruct (toml_Unmarshal_PyProjectToml w doc) as [p |]; [| discriminate].
  destruct (project_Dependencies (Project p)) as [l |]; [| discriminate].
  bind_inv H v. eauto.
Qed.

Lemma configPipfile_descriptor (unicode_ToLower : Z -> Z) (w : World) (sourceDir : string)
    (out : list LogLine) (src : SourceInfo) :
  configPipfile unicode_ToLower w sourceDir = (out, Ok (Some src)) ->
  exists cfg out', intoSource w cfg = (out', Ok (Some src)) /\ depStyle cfg = Pipenv.
Proof.
  unfold configPipfile. destruct (negb _); [discriminate |].
  intros H. bind_inv H u.
  destruct (os_file w "Pipfile") as [doc |]; [| discriminate].
  destruct (toml_Unmarshal_Pipfile w doc) as [p |]; [| discriminate].
  destruct (Packages p) as [table |]; [| discriminate].
  bind_inv H vp. destruct vp as [v pinned]. eauto.
Qed.

Lemma configRequirements_descriptor (unicode_ToLower : Z -> Z) (w : World)
    (sourceDir : string) (out : list LogLine) (src : SourceInfo) :
  configRequirements unicode_ToLower w sourceDir = (out, Ok (Some src)) ->
  exists cfg out', intoSource w cfg = (out', Ok (Some src)) /\ depStyle cfg = Pip.
Proof.
  unfold configRequirements.
  destruct (checksPass_fileExists w sourceDir ["requirements.txt"]).
  - intros H. bind_inv H u. bind_inv H lines.
    destruct lines as [| line lines]; [discriminate |].
    bind_inv H vp. destruct vp as [v pinned]. eauto.
  - destruct (checksPass_fileExists w sourceDir ["requirements.in"]); [| discriminate].
    intros H. bind_inv H u. bind_inv H lines.
    destruct lines as [| line lines]; [discriminate |].
    bind_inv H vp. destruct vp as [v pinned]. eauto.
Qed.

Lemma orElse_Some_inv (m rest : M (option SourceInfo)) (out : list LogLine) (src : SourceInfo) :
  orElse m rest = (out, Ok (Some src)) ->
  (exists o, m = (o, Ok (Some src))) \/ (exists o, rest = (o, Ok (Some src))).
Proof.
  unfold orElse. intros H. bind_inv H found. destruct found as [s |].
  - injection H as <- <-. left. eauto.
  - right. eauto.
Qed.

Lemma intoSource_family (w : World) (cfg : PyCfg) (out : list LogLine) (src : SourceInfo) :
  intoSource w cfg = (out, Ok (Some src)) ->
  (Family src, Port src) ∈ [("FastAPI", 8000); ("Flask", 8080); ("Streamlit", 8501)] /\
  Language (Runtime src) = "python" /\ SkipDeploy src = false /\
  exists vars, Files src = templatesExecute "templates/python-docker" vars.
Proof.
  intros H. apply intoSource_descriptor in H as [app [_ H]].
  apply buildSource_descriptor
    in H as [_ [Hsup [vars [Hfiles [Hfam [_ [Hrun [_ [Hskip _]]]]]]]]].
  rewrite Hfam, Hrun. split; [| split; [reflexivity | split; [exact Hskip | eauto]]].
  destruct (supported_cases app Hsup) as [-> | [-> | ->]]; cbn.
  - left.
  - right; left.
  - right; right; left.
Qed.

(** X7: every descriptor that [configurePython] returns has one of the four
    pairs of family and port (FastAPI 8000, Flask 8080, Streamlit 8501,
    Python 8080) and the runtime language python; it skips the deployment
    exactly when its family is Python, which is also the only family built
    from the plain templates. *)
Theorem configurePython_descriptor (unicode_ToLower : Z -> Z)
    (unicode_IsDigit : Z -> bool) (w : World) (sourceDir : string)
    (out : list LogLine) (src : SourceInfo) :
  configurePython unicode_ToLower unicode_IsDigit w sourceDir = (out, Ok (Some src)) ->
  (Family src, Port src) ∈ pythonFamilies /\
  Language (Runtime src) = "python" /\
  (SkipDeploy src = true <-> Family src = "Python") /\
  (Files src = templates "templates/python" <-> Family src = "Python").
Proof.
  assert (Hframework : forall cfg out',
    intoSource w cfg = (out', Ok (Some src)) ->
    (Family src, Port src) ∈ pythonFamilies /\
    Language (Runtime src) = "python" /\
    (SkipDeploy src = true <-> Family src = "Python") /\
    (Files src = templates "templates/python" <-> Family src = "Python")).
  { intros cfg out' H. apply intoSource_family in H as [Hfam [Hlang [Hskip [vars Hfiles]]]].
    rewrite Hskip, Hfiles, Hlang.
    assert (Hne : Family src <> "Python").
    { intros E.
      apply elem_of_cons in Hfam as [[= Hf _] | Hfam]; [congruence |].
      apply elem_of_cons in Hfam as [[= Hf _] | Hfam]; [congruence |].
      apply list_elem_of_singleton in Hfam as [= Hf _]. congruence. }
    split; [| split; [reflexivity | split; split; intros; first [discriminate | contradiction]]].
    unfold pythonFamilies.
    apply elem_of_cons in Hfam as [-> | Hfam]; [left |].
    apply elem_of_cons in Hfam as [-> | Hfam]; [right; left |].
    apply list_elem_of_singleton in Hfam as ->. right; right; left. }
  unfold configurePython. intros H.
  apply orElse_Some_inv in H as [[o H] | [o H]].
  { apply configPoetry_descriptor in H as [cfg [out' [H _]]]. eauto. }
  apply orElse_Some_inv in H as [[o' H] | [o' H]].
  { apply configPyProject_descriptor in H as [cfg [out' [H _]]]. eauto. }
  apply orElse_Some_inv in H as [[o'' H] | [o'' H]].
  { apply configPipfile_descriptor in H as [cfg [out' [H _]]]. eauto. }
  apply orElse_Some_inv in H as [[o3 H] | [o3 H]].
  { apply configRequirements_descriptor in H as [cfg [out' [H _]]]. eauto. }
  destruct (negb _); [discriminate |].
  bind_inv H vp. destruct vp as [version pinned]. injection H as <- <-.
  cbn [Family Port Runtime Language SkipDeploy Files].
  split; [right; right; right; left | split; [reflexivity | split; split; reflexivity]].
Qed.

Lemma configurePython_descriptor_witness :
  exists src,
    configurePython asciiToLower asciiIsDigit twoScripts "/srv/app"
    = ([Info "Detected requirements.txt"], Ok (Some src)) /\
    (Family src, Port src) = ("Streamlit", 8501) /\
    (Family src, Port src) ∈ pythonFamilies /\
    Language (Runtime src) = "python".
Proof.
  eexists. split; [reflexivity | split; [reflexivity |]].
  pose proof (configurePython_descriptor asciiToLower asciiIsDigit twoScripts "/srv/app"
                [Info "Detected requirements.txt"] _ eq_refl) as [Hfam [Hlang _]].
  split; [exact Hfam | exact Hlang].
Defined.

(** ** The version found in the output of the interpreter *)

(** X8: without a version in [Pipfile.lock] and without an interpreter
    ([python3] and [python] both fail to run), the resolver does not fail: it
    returns 3.12.0, not pinned; when only [python3] fails, it parses what
    [python] prints. *)
Theorem extractPythonVersion_fallback (w : World) :
  pipfileLockVersion w = None ->
  exec_CombinedOutput w "python3" = None ->
  (exec_CombinedOutput w "python" = None ->
   extractPythonVersion w = ([], Ok ("3.12.0", false))) /\
  (forall text, exec_CombinedOutput w "python" = Some text ->
                extractPythonVersion w = matchPythonVersion text).
Proof.
  intros Hlock H3. unfold extractPythonVersion, pythonVersionOutput.
  rewrite Hlock, H3. split.
  - intros ->. reflexivity.
  - intros text ->. reflexivity.
Qed.

Lemma extractPythonVersion_fallback_witness :
  pipfileLockVersion emptyWorld = None /\
  exec_CombinedOutput emptyWorld "python3" = None /\
  exec_CombinedOutput emptyWorld "python" = None /\
  extractPythonVersion emptyWorld = ([], Ok ("3.12.0", false)).
Proof.
  repeat (split; [reflexivity |]).
  exact (proj1 (extractPythonVersion_fallback emptyWorld eq_refl eq_refl) eq_refl).
Defined.

Lemma length_app_string (s t : string) :
  String.length (s +:+ t) = (String.length s + String.length t)%nat.
Proof.
  induction s as [| c s IH]; [reflexivity |].
  rewrite app_cons. cbn [String.length]. rewrite IH. reflexivity.
Qed.

Lemma take_app_string (s t : string) : regexp.take (String.length s) (s +:+ t) = s.
Proof.
  induction s as [| c s IH].
  - destruct t; reflexivity.
  - rewrite app_cons. cbn [String.length regexp.take]. rewrite IH. reflexivity.
Qed.

Lemma consumed_app (s t : string) : regexp.consumed (s +:+ t) t = s.
Proof.
  unfold regexp.consumed. rewrite length_app_string.
  replace (String.length s + String.length t - String.length t)%nat
    with (String.length s) by lia.
  apply take_app_string.
Qed.

(** The matcher hands on the text that its group matched. *)
Lemma run_captures {R} (r : regexp.Regexp) :
  forall (s cap : string) (k : string -> string -> option R) (x : R),
    regexp.run r s cap k = Some x ->
    exists s1 s2 cap', s = s1 +:+ s2 /\ captures r s1 cap cap' /\ k s2 cap' = Some x.
Proof.
  induction r as [c | p | r1 IH1 r2 IH2 | p | r1 IH1 | r1 IH1]; intros s cap k x; cbn [regexp.run].
  - destruct s as [| d s]; [discriminate |].
    destruct (Ascii.eqb_spec d c) as [-> | _]; [| discriminate].
    intros Hk. exists (String c EmptyString), s, cap.
    split; [reflexivity | split; [constructor | exact Hk]].
  - destruct s as [| d s]; [discriminate |].
    destruct (p d) eqn:Hp; [| discriminate].
    intros Hk. exists (String d EmptyString), s, cap.
    split; [reflexivity | split; [constructor; exact Hp | exact Hk]].
  - intros H. apply IH1 in H as [s1 [s2 [cap1 [-> [Hm1 H]]]]].
    apply IH2 in H as [t1 [t2 [cap2 [-> [Hm2 Hk]]]]].
    exists (s1 +:+ t1), t2, cap2.
    split; [symmetry; apply app_assoc_string | split; [| exact Hk]].
    econstructor; eassumption.
  - intros H. apply plus_sound in H as [s1 [s2 [-> [Hm Hk]]]].
    exists s1, s2, cap. split; [reflexivity | split; [constructor; exact Hm | exact Hk]].
  - destruct (regexp.run r1 s cap k) as [y |] eqn:Htake.
    + intros [= ->]. apply IH1 in Htake as [s1 [s2 [cap1 [-> [Hm Hk]]]]].
      exists s1, s2, cap1. split; [reflexivity | split; [| exact Hk]].
      apply c_opt_take; assumption.
    + intros Hk. exists EmptyString, s, cap.
      split; [reflexivity | split; [apply c_opt_skip | exact Hk]].
  - intros H. apply IH1 in H as [s1 [s2 [cap1 [-> [Hm Hk]]]]].
    rewrite consumed_app in Hk.
    exists s1, s2, s1. split; [reflexivity | split; [| exact Hk]].
    econstructor; eassumption.
Qed.

Lemma captures_matches (r : regexp.Regexp) (s cap cap' : string) :
  captures r s cap cap' -> regexp.matches r s.
Proof.
  induction 1; try (constructor; assumption); assumption.
Qed.

(** What [FindStringSubmatch] returns: the matched piece of the text and the
    text of the group in it. *)
Lemma FindStringSubmatch_captures (re : regexp.Regexp) (s whole group : string)
    (more : list string) :
  regexp.FindStringSubmatch re s = whole :: group :: more ->
  more = [] /\
  exists pre post, s = pre +:+ whole +:+ post /\ captures re whole EmptyString group.
Proof.
  assert (Hat : forall t m, regexp.matchAt re t = Some m ->
            m = whole :: group :: more ->
            more = [] /\ exists post, t = whole +:+ post
                                      /\ captures re whole EmptyString group).
  { intros t m Hm ->. unfold regexp.matchAt in Hm.
    apply run_captures in Hm as [s1 [s2 [cap' [-> [Hc Hk]]]]].
    rewrite consumed_app in Hk. injection Hk as <- <- <-.
    split; [reflexivity |]. exists s2. split; [reflexivity | exact Hc]. }
  induction s as [| c s IH]; cbn [regexp.FindStringSubmatch].
  - destruct (regexp.matchAt re EmptyString) as [m |] eqn:Hm; [| discriminate].
    intros E. destruct (Hat _ _ Hm E) as [Hmore [post [Ht Hc]]].
    split; [exact Hmore |]. exists EmptyString, post. split; [exact Ht | exact Hc].
  - destruct (regexp.matchAt re (String c s)) as [m |] eqn:Hm.
    + intros E. destruct (Hat _ _ Hm E) as [Hmore [post [Ht Hc]]].
      split; [exact Hmore |]. exists EmptyString, post. split; [exact Ht | exact Hc].
    + intros E. destruct (IH E) as [Hmore [pre [post [-> Hc]]]].
      split; [exact Hmore |]. exists (String c pre), post. split; [reflexivity | exact Hc].
Qed.

Lemma captures_lits_inv (l : string) (r : regexp.Regexp) (s cap cap' : string) :
  captures (regexp.lits l r) s cap cap' ->
  exists s', s = l +:+ s' /\ captures r s' cap cap'.
Proof.
  revert s. induction l as [| c l IH]; intros s; cbn [regexp.lits].
  - intros H. exists s. split; [reflexivity | exact H].
  - intros H. inversion H as [| | r1 r2 s1 s2 c0 c1 c2 H1 H2 | | | |]; subst.
    inversion H1; subst. apply IH in H2 as [s' [-> H2]].
    exists s'. split; [reflexivity | exact H2].
Qed.

Lemma captures_group_inv (r : regexp.Regexp) (s cap cap' : string) :
  captures (regexp.Group r) s cap cap' -> cap' = s /\ regexp.matches r s.
Proof.
  intros H. inversion H; subst. split; [reflexivity |].
  eapply captures_matches; eassumption.
Qed.

Lemma matches_plus_inv (p : ascii -> bool) (s : string) :
  regexp.matches (regexp.Plus p) s -> s <> EmptyString /\ strings.forallb p s = true.
Proof.
  remember (regexp.Plus p) as r eqn:Er.
  induction 1 as [| | | q c Hq | q c s Hq Hs IH | | |]; try discriminate Er.
  - injection Er as ->. split; [discriminate |]. cbn. rewrite Hq. reflexivity.
  - injection Er as ->. split; [discriminate |]. cbn. rewrite Hq.
    apply (IH eq_refl).
Qed.

Lemma forallb_app_string (p : ascii -> bool) (s t : string) :
  strings.forallb p (s +:+ t) = strings.forallb p s && strings.forallb p t.
Proof.
  induction s as [| c s IH]; [reflexivity |].
  rewrite app_cons. cbn [strings.forallb]. rewrite IH. apply andb_assoc.
Qed.

(** [MatchString] for a pattern that is one class: some byte is in the
    class. *)
Lemma MatchString_class (p : ascii -> bool) (s : string) :
  regexp.MatchString (regexp.Class p) s = negb (strings.forallb (fun c => negb (p c)) s).
Proof.
  unfold regexp.MatchString.
  induction s as [| c s IH]; [reflexivity |].
  cbn [regexp.FindStringSubmatch strings.forallb].
  unfold regexp.matchAt. cbn [regexp.run].
  destruct (p c); [reflexivity | exact IH].
Qed.

Lemma digit_digitOrDot (s : string) :
  strings.forallb regexp.isDigit s = true -> strings.forallb digitOrDot s = true.
Proof.
  induction s as [| c s IH]; [reflexivity |].
  cbn [strings.forallb]. intros H. apply andb_prop in H as [Hc Hs].
  unfold digitOrDot at 1. rewrite Hc, (IH Hs). reflexivity.
Qed.

Lemma letter_not_digitOrDot (c : ascii) : regexp.isLetter c = true -> digitOrDot c = false.
Proof.
  unfold digitOrDot. destruct (Ascii.eqb_spec c ".") as [-> | _]; [discriminate |].
  unfold regexp.isLetter, regexp.isDigit. intros H.
  destruct (Z.leb_spec 48 (byteZ c)); destruct (Z.leb_spec (byteZ c) 57);
    try reflexivity.
  destruct (Z.leb_spec 97 (byteZ c)); [lia |].
  destruct (Z.leb_spec 65 (byteZ c)); [| discriminate H].
  destruct (Z.leb_spec (byteZ c) 90); [lia | discriminate H].
Qed.

(** X9: when the resolver finds its version in the output of the
    interpreter, the version is the text that follows some [Python ] in that
    output and has the form MAJOR.MINOR.PATCH, possibly followed by letters
    and then digits; the flag is true exactly when that suffix is there. *)
Theorem extractPythonVersion_shape (w : World) (version : string) (pinned : bool) :
  pipfileLockVersion w = None ->
  extractPythonVersion w = ([], Ok (version, pinned)) ->
  exists pre post major minor patch suffix,
    pythonVersionOutput w = pre +:+ "Python " +:+ version +:+ post /\
    version = major +:+ "." +:+ minor +:+ "." +:+ patch +:+ suffix /\
    digitString major /\ digitString minor /\ digitString patch /\
    (suffix = EmptyString \/
     exists letters digits,
       suffix = letters +:+ digits /\ letterString letters /\ digitString digits) /\
    pinned = negb (String.eqb suffix EmptyString).
Proof.
  intros Hlock. unfold extractPythonVersion. rewrite Hlock. unfold matchPythonVersion.
  destruct (regexp.FindStringSubmatch pythonVersionRe (pythonVersionOutput w))
    as [| whole [| group more]] eqn:Hfind; [discriminate | discriminate |].
  intros [= <- <-].
  apply FindStringSubmatch_captures in Hfind as [_ [pre [post [Htext Hc]]]].
  unfold pythonVersionRe in Hc.
  apply captures_lits_inv in Hc as [s0 [-> Hc]].
  apply captures_group_inv in Hc as [-> Hm].
  apply matches_cat_inv in Hm as [major [s1 [-> [Hmajor H]]]].
  apply matches_cat_inv in H as [dot1 [s2 [-> [Hdot1 H]]]].
  apply matches_cat_inv in H as [minor [s3 [-> [Hminor H]]]].
  apply matches_cat_inv in H as [dot2 [s4 [-> [Hdot2 H]]]].
  apply matches_cat_inv in H as [patch [suffix [-> [Hpatch Hsuffix]]]].
  apply matches_lit_inv in Hdot1 as ->. apply matches_lit_inv in Hdot2 as ->.
  apply matches_plus_inv in Hmajor, Hminor, Hpatch.
  assert (Hshape : suffix = EmptyString \/
            exists letters digits,
              suffix = letters +:+ digits /\ letterString letters /\ digitString digits).
  { inversion Hsuffix as [| | | | | r | r s Htake |]; subst; [left; reflexivity |].
    right. apply matches_cat_inv in Htake as [letters [digits [-> [Hl Hd]]]].
    apply matches_plus_inv in Hl, Hd. exists letters, digits. auto. }
  exists pre, post, major, minor, patch, suffix.
  split; [rewrite Htext, !app_assoc_string; reflexivity |].
  split; [reflexivity |].
  split; [exact Hmajor | split; [exact Hminor | split; [exact Hpatch | split; [exact Hshape |]]]].
  unfold nonNumericRegex. rewrite MatchString_class. f_equal.
  change (fun c => negb (negb (regexp.isDigit c || Ascii.eqb c ".")))
    with (fun c => negb (negb (digitOrDot c))).
  assert (Hfun : forall s, strings.forallb (fun c => negb (negb (digitOrDot c))) s
                           = strings.forallb digitOrDot s).
  { intros s. induction s as [| c s IH]; [reflexivity |].
    cbn [strings.forallb]. rewrite negb_involutive, IH. reflexivity. }
  rewrite Hfun, !forallb_app_string.
  rewrite (digit_digitOrDot major), (digit_digitOrDot minor), (digit_digitOrDot patch)
    by tauto.
  cbn [strings.forallb andb digitOrDot].
  replace (digitOrDot ".") with true by reflexivity. cbn [andb].
  destruct Hshape as [-> | [letters [digits [-> [[Hne Hl] _]]]]]; [reflexivity |].
  destruct letters as [| c letters]; [contradiction |].
  rewrite app_cons. cbn [strings.forallb String.eqb].
  cbn [strings.forallb] in Hl. apply andb_prop in Hl as [Hc _].
  rewrite (letter_not_digitOrDot c Hc). reflexivity.
Qed.

Lemma extractPythonVersion_shape_witness :
  pipfileLockVersion (probeWorld "Python 3.12.0b4") = None /\
  extractPythonVersion (probeWorld "Python 3.12.0b4") = ([], Ok ("3.12.0b4", true)) /\
  exists pre post major minor patch suffix,
    pythonVersionOutput (probeWorld "Python 3.12.0b4")
    = pre +:+ "Python " +:+ "3.12.0b4" +:+ post /\
    "3.12.0b4" = major +:+ "." +:+ minor +:+ "." +:+ patch +:+ suffix /\
    digitString major /\ digitString minor /\ digitString patch /\
    (suffix = EmptyString \/
     exists letters digits,
       suffix = letters +:+ digits /\ letterString letters /\ digitString digits) /\
    true = negb (String.eqb suffix EmptyString).
Proof.
  split; [reflexivity | split; [reflexivity |]].
  exact (extractPythonVersion_shape (probeWorld "Python 3.12.0b4") "3.12.0b4" true
           eq_refl eq_refl).
Defined.

(** ** The name in front of a separator *)

Lemma SplitFirst_skip_chars (a s : string) (d0 : ascii) (d' : string) :
  strings.forallb (fun c => negb (Ascii.eqb c d0)) a = true ->
  strings.SplitFirst (a +:+ s) (String d0 d') = a +:+ strings.SplitFirst s (String d0 d').
Proof.
  induction a as [| c a IH]; intros Ha; [reflexivity |].
  cbn [strings.forallb] in Ha. apply andb_prop in Ha as [Hc Ha].
  rewrite !app_cons. cbn [strings.SplitFirst strings.HasPrefix].
  destruct (Ascii.eqb c d0); [discriminate |].
  rewrite (IH Ha). reflexivity.
Qed.

Lemma forallb_weaken (p q : ascii -> bool) (s : string) :
  (forall c, p c = true -> q c = true) ->
  strings.forallb p s = true -> strings.forallb q s = true.
Proof.
  intros Hpq. induction s as [| c s IH]; [reflexivity |].
  cbn [strings.forallb]. intros H. apply andb_prop in H as [Hc Hs].
  rewrite (Hpq c Hc), (IH Hs). reflexivity.
Qed.

Lemma not_separatorChar (c d0 : ascii) :
  separatorChar d0 = true -> negb (separatorChar c) = true -> negb (Ascii.eqb c d0) = true.
Proof.
  intros Hd Hc. destruct (Ascii.eqb_spec c d0) as [-> | _]; [| reflexivity].
  rewrite Hd in Hc. discriminate.
Qed.

(** The cuts leave a name without separator bytes alone and work on what
    follows it. *)
Lemma cutAll_skip (name s : string) :
  strings.forallb (fun c => negb (separatorChar c)) name = true ->
  cutAll (name +:+ s) = name +:+ cutAll s.
Proof.
  intros Hname. unfold cutAll.
  assert (Hskip : forall d0 d' t, separatorChar d0 = true ->
            strings.SplitFirst (name +:+ t) (String d0 d')
            = name +:+ strings.SplitFirst t (String d0 d')).
  { intros d0 d' t Hd. apply SplitFirst_skip_chars.
    apply (forallb_weaken _ _ name (fun c => not_separatorChar c d0 Hd) Hname). }
  rewrite !Hskip by reflexivity. reflexivity.
Qed.

Lemma HasPrefix_SplitFirst (s sep p : string) :
  strings.HasPrefix s p = false -> strings.HasPrefix (strings.SplitFirst s sep) p = false.
Proof.
  intros H. destruct (SplitFirst_prefix s sep) as [t Ht].
  destruct (strings.HasPrefix (strings.SplitFirst s sep) p) eqn:E; [| reflexivity].
  apply (HasPrefix_app _ _ t) in E. rewrite <- Ht in E. congruence.
Qed.

Lemma SplitFirst_empty (sep : string) : strings.SplitFirst EmptyString sep = EmptyString.
Proof. reflexivity. Qed.

(** A text that starts with a separator is cut down to nothing; for [~=]
    this needs that no further [=] follows. *)
Lemma cutAll_separator (sep rest : string) :
  sep ∈ separators ->
  (sep = "~=" -> strings.HasPrefix rest "=" = false) ->
  cutAll (sep +:+ rest) = EmptyString.
Proof.
  intros Hsep Htilde. unfold separators in Hsep. unfold cutAll.
  repeat (apply elem_of_cons in Hsep as [-> | Hsep]);
    [.. | apply elem_of_nil in Hsep; contradiction];
    rewrite ?app_cons; change (EmptyString +:+ rest) with rest;
    cbn [strings.SplitFirst strings.HasPrefix Ascii.eqb Bool.eqb]; try reflexivity.
  specialize (Htilde eq_refl).
  set (r3 := strings.SplitFirst (strings.SplitFirst (strings.SplitFirst rest ";") " ") "[").
  assert (H3 : strings.HasPrefix r3 "=" = false)
    by (subst r3; repeat apply HasPrefix_SplitFirst; exact Htilde).
  cbn [strings.HasPrefix] in H3.
  destruct r3 as [| c r3]; [reflexivity |].
  destruct (Ascii.eqb c "=") eqn:Hc; [discriminate H3 |].
  cbn [strings.SplitFirst strings.HasPrefix Ascii.eqb Bool.eqb].
  change (Ascii.eqb c "=") with (Ascii.eqb c "061") in Hc.
  rewrite ?Hc. reflexivity.
Qed.

(** X10: when the lowercased token is a name without any of the bytes
    [;], space, [[], [=], [>], [<], [~], then one of the separators, then
    anything, [parsePyDep] returns exactly the name; for the separator [~=]
    this needs that the rest does not go on with [=]. *)
Theorem parsePyDep_name (unicode_ToLower : Z -> Z) (dep name sep rest : string) :
  strings.ToLower unicode_ToLower dep = name +:+ sep +:+ rest ->
  strings.forallb (fun c => negb (separatorChar c)) name = true ->
  sep ∈ separators ->
  (sep = "~=" -> strings.HasPrefix rest "=" = false) ->
  parsePyDep unicode_ToLower dep = name.
Proof.
  intros Hlower Hname Hsep Htilde.
  change (parsePyDep unicode_ToLower dep)
    with (cutAll (strings.ToLower unicode_ToLower dep)).
  rewrite Hlower, (cutAll_skip name _ Hname), (cutAll_separator sep rest Hsep Htilde).
  apply app_empty_r.
Qed.

Lemma parsePyDep_name_witness :
  strings.ToLower asciiToLower "Django>2.1; os_name != 'nt'"
  = "django" +:+ ">" +:+ "2.1; os_name != 'nt'" /\
  strings.forallb (fun c => negb (separatorChar c)) "django" = true /\
  ">" ∈ separators /\
  (">" = "~=" -> strings.HasPrefix "2.1; os_name != 'nt'" "=" = false) /\
  parsePyDep asciiToLower "Django>2.1; os_name != 'nt'" = "django".
Proof.
  assert (Hsep : ">" ∈ separators) by (do 4 right; left).
  assert (Htilde : ">" = "~=" -> strings.HasPrefix "2.1; os_name != 'nt'" "=" = false)
    by discriminate.
  split; [reflexivity | split; [reflexivity | split; [exact Hsep | split; [exact Htilde |]]]].
  exact (parsePyDep_name asciiToLower "Django>2.1; os_name != 'nt'" "django" ">"
           "2.1; os_name != 'nt'" eq_refl eq_refl Hsep Htilde).
Defined.

(** The condition on [~=] is needed: the cut at [==] comes first. *)
Example parsePyDep_tilde_equals_equals :
  parsePyDep asciiToLower "numpy~==1.19" = "numpy~".
Proof. reflexivity. Qed.

(** ** What the entrypoint locator returns *)

Lemma visited_elem (w : World) (entries : list WalkEntry) (e : WalkEntry) :
  e ∈ visited w entries -> e ∈ entries.
Proof.
  induction entries as [| e0 entries IH]; cbn [visited]; [intros H; exact H |].
  intros H. apply elem_of_cons in H as [-> | H]; [left |].
  destruct (stopsWalk w e0); [inversion H | right; apply IH; exact H].
Qed.

Lemma findEntrypoint_elem (w : World) (dep name : string) :
  findEntrypoint w dep = Some name ->
  exists e, e ∈ filepath_Walk w /\ walk_path e = name /\ fileMatches w dep e = true.
Proof.
  unfold findEntrypoint. rewrite walkEntrypoint_last.
  destruct (last _) as [path |] eqn:Hlast; [| discriminate].
  intros [= ->]. apply last_Some in Hlast as [l' Hl].
  assert (Hin : name ∈ List.map walk_path
                  (List.filter (fileMatches w dep) (visited w (filepath_Walk w)))).
  { rewrite Hl. apply elem_of_app. right. left. }
  apply list_elem_of_In, in_map_iff in Hin as [e [He Hin]].
  apply filter_In in Hin as [Hin Hmatch]. apply list_elem_of_In in Hin.
  exists e. split; [apply (visited_elem w _ e Hin) | split; [exact He | exact Hmatch]].
Qed.

(** X11: a file that the locator returns is one of the walk, reported
    without error; its extension is [.py], its path does not contain [.venv],
    it can be read, and one of its lines contains [import] and the name of
    the dependency. *)
Theorem findEntrypoint_sound (w : World) (dep name : string) :
  findEntrypoint w dep = Some name ->
  filepath.Ext name = ".py" /\
  strings.Contains name ".venv" = false /\
  (exists e, e ∈ filepath_Walk w /\ walk_path e = name /\ walk_err e = false) /\
  exists content line,
    os_file w name = Some content /\
    line ∈ fst (bufio.scanLines content) /\
    strings.Contains line "import" = true /\
    strings.Contains line dep = true.
Proof.
  intros H. apply findEntrypoint_elem in H as [e [Hin [<- Hmatch]]].
  unfold fileMatches, isPythonSource in Hmatch.
  apply andb_prop in Hmatch as [Hmatch Hlines].
  apply andb_prop in Hmatch as [Herr Hsource].
  apply andb_prop in Hsource as [Hext Hvenv].
  apply String.eqb_eq in Hext. apply negb_true_iff in Hvenv, Herr.
  split; [exact Hext | split; [exact Hvenv | split; [eauto |]]].
  destruct (os_file w (walk_path e)) as [content |]; [| discriminate].
  apply existsb_exists in Hlines as [line [Hline Himp]].
  unfold importsDep in Himp. apply andb_prop in Himp as [Himport Hdep].
  exists content, line. split; [reflexivity |].
  split; [apply list_elem_of_In; exact Hline | split; assumption].
Qed.

Lemma findEntrypoint_sound_witness :
  findEntrypoint twoScripts "streamlit" = Some "b.py" /\
  filepath.Ext "b.py" = ".py" /\
  strings.Contains "b.py" ".venv" = false /\
  (exists e, e ∈ filepath_Walk twoScripts /\ walk_path e = "b.py" /\ walk_err e = false) /\
  exists content line,
    os_file twoScripts "b.py" = Some content /\
    line ∈ fst (bufio.scanLines content) /\
    strings.Contains line "import" = true /\
    strings.Contains line "streamlit" = true.
Proof.
  split; [reflexivity |].
  exact (findEntrypoint_sound twoScripts "streamlit" "b.py" eq_refl).
Defined.

(** ** The order of a decoded table *)

Lemma mapIndex_None (m : list (string * TomlValue)) (key : string) :
  key ∉ List.map fst m -> mapIndex m key = None.
Proof.
  induction m as [| [k v] m IH]; [reflexivity |].
  cbn [List.map fst mapIndex]. intros H.
  destruct (String.eqb_spec k key) as [-> | _].
  - exfalso. apply H. left.
  - apply IH. intros Hin. apply H. right. exact Hin.
Qed.

(** A map with distinct keys has the same entry under a key in whatever
    order it is listed. *)
Lemma mapIndex_perm (m m' : list (string * TomlValue)) (key : string) :
  m ≡ₚ m' -> NoDup (List.map fst m) -> mapIndex m key = mapIndex m' key.
Proof.
  induction 1 as [| [k v] m m' HP IH | [k1 v1] [k2 v2] m | m1 m2 m3 HP1 IH1 HP2 IH2];
    intros Hnd.
  - reflexivity.
  - cbn [mapIndex]. cbn [List.map fst] in Hnd. apply NoDup_cons in Hnd as [_ Hnd].
    rewrite (IH Hnd). reflexivity.
  - cbn [mapIndex]. cbn [List.map fst] in Hnd.
    apply NoDup_cons in Hnd as [Hk2 _].
    destruct (String.eqb_spec k1 key) as [-> | _];
      destruct (String.eqb_spec k2 key) as [-> | _]; try reflexivity.
    exfalso. apply Hk2. left.
  - rewrite (IH1 Hnd). apply IH2.
    assert (HPk : List.map fst m1 ≡ₚ List.map fst m2) by (apply Permutation_map; exact HP1).
    rewrite <- HPk. exact Hnd.
Qed.

Lemma walkEntrypoint_same_files (w w' : World) (dep : string) (entries : list WalkEntry)
    (entrypoint : option string) :
  (forall name, os_file w name = os_file w' name) ->
  walkEntrypoint w dep entries entrypoint = walkEntrypoint w' dep entries entrypoint.
Proof.
  intros Hfiles. revert entrypoint.
  induction entries as [| e entries IH]; intros entrypoint; [reflexivity |].
  cbn [walkEntrypoint]. rewrite Hfiles.
  destruct (walk_err e); [reflexivity |].
  destruct (_ && _); [| apply IH].
  destruct (os_file w' (walk_path e)) as [content |]; [| reflexivity].
  destruct (bufio.scanLines content) as [lines err].
  destruct err; [reflexivity | apply IH].
Qed.

(** [intoSource] looks at the world only through its files and its walk. *)
Lemma intoSource_same_files (w w' : World) (cfg : PyCfg) :
  (forall name, os_file w name = os_file w' name) ->
  filepath_Walk w = filepath_Walk w' ->
  intoSource w cfg = intoSource w' cfg.
Proof.
  intros Hfiles Hwalk.
  assert (Hfind : findEntrypoint w "streamlit" = findEntrypoint w' "streamlit").
  { unfold findEntrypoint. rewrite Hwalk. apply walkEntrypoint_same_files. exact Hfiles. }
  unfold intoSource, buildSource. rewrite Hfind. reflexivity.
Qed.

Lemma bind_ext {A B} (m : M A) (k k' : A -> M B) :
  (forall a, k a = k' a) -> bind m k = bind m k'.
Proof.
  intros H. destruct m as [out [a | e |]]; cbn [bind]; [rewrite H |..]; reflexivity.
Qed.

(** X12: the results of the Poetry and the Pipfile detector do not depend
    on the order in which Go ranges over the decoded table of dependencies
    (the keys of a map are distinct). *)
Theorem table_order_irrelevant (unicode_ToLower : Z -> Z) (w : World) (sourceDir : string) :
  (forall project name version table table',
     table ≡ₚ table' -> NoDup (List.map fst table) ->
     configPoetry unicode_ToLower
       (withPyProject w {| Project := project;
                           Tool_Poetry := {| poetry_Name := name; poetry_Version := version;
                                             poetry_Dependencies := Some table |} |})
       sourceDir
     = configPoetry unicode_ToLower
         (withPyProject w {| Project := project;
                             Tool_Poetry := {| poetry_Name := name; poetry_Version := version;
                                               poetry_Dependencies := Some table' |} |})
         sourceDir) /\
  (forall requires table table',
     table ≡ₚ table' ->
     configPipfile unicode_ToLower
       (withPipfile w {| Packages := Some table; Requires := requires |}) sourceDir
     = configPipfile unicode_ToLower
         (withPipfile w {| Packages := Some table'; Requires := requires |}) sourceDir).
Proof.
  split.
  - intros project name version table table' HP Hnd.
    unfold configPoetry.
    cbn [withPyProject checksPass_fileExists os_file toml_Unmarshal_PyProjectToml
         Tool_Poetry poetry_Dependencies poetry_Name].
    destruct (_ || _); [reflexivity |].
    destruct (os_file w "pyproject.toml") as [doc |]; [| reflexivity].
    rewrite <- (mapIndex_perm table table' "python" HP Hnd).
    destruct (mapIndex table "python") as [[v | | | | | |] |]; try reflexivity.
    unfold mbind, M_bind. apply bind_ext. intros _.
    rewrite (intoSource_same_files (withPyProject w _) w) by reflexivity.
    rewrite (intoSource_same_files (withPyProject w _) w) by reflexivity.
    apply intoSource_permutation.
    unfold mapKeys. apply Permutation_map, Permutation_map. exact HP.
  - intros requires table table' HP.
    unfold configPipfile.
    cbn [withPipfile checksPass_fileExists os_file toml_Unmarshal_Pipfile Packages].
    destruct (negb _); [reflexivity |].
    destruct (os_file w "Pipfile") as [doc |]; [| reflexivity].
    unfold mbind, M_bind. apply bind_ext. intros _.
    change (extractPythonVersion (withPipfile w {| Packages := Some table;
                                                   Requires := requires |}))
      with (extractPythonVersion (withPipfile w {| Packages := Some table';
                                                   Requires := requires |})).
    apply bind_ext. intros [v pinned].
    rewrite (intoSource_same_files (withPipfile w _) w) by reflexivity.
    rewrite (intoSource_same_files (withPipfile w _) w) by reflexivity.
    apply intoSource_permutation.
    unfold mapKeys. apply Permutation_map, Permutation_map. exact HP.
Qed.

Lemma table_order_irrelevant_witness :
  [("python", TomlString "^3.11"); ("flask", TomlString "^3.0")]
  ≡ₚ [("flask", TomlString "^3.0"); ("python", TomlString "^3.11")] /\
  NoDup (List.map fst [("python", TomlString "^3.11"); ("flask", TomlString "^3.0")]) /\
  configPoetry asciiToLower
    (withPyProject poetryNoPython
       (poetryProject "app" [("python", TomlString "^3.11"); ("flask", TomlString "^3.0")]))
    "/srv/app"
  = configPoetry asciiToLower
      (withPyProject poetryNoPython
         (poetryProject "app" [("flask", TomlString "^3.0"); ("python", TomlString "^3.11")]))
      "/srv/app".
Proof.
  assert (HP : [("python", TomlString "^3.11"); ("flask", TomlString "^3.0")]
               ≡ₚ [("flask", TomlString "^3.0"); ("python", TomlString "^3.11")])
    by apply perm_swap.
  assert (Hnd : NoDup (List.map fst [("python", TomlString "^3.11");
                                     ("flask", TomlString "^3.0")])).
  { cbn. apply NoDup_cons. split.
    - intros H. apply list_elem_of_singleton in H. discriminate H.
    - apply NoDup_singleton. }
  split; [exact HP | split; [exact Hnd |]].
  exact (proj1 (table_order_irrelevant asciiToLower poetryNoPython "/srv/app")
           _ "app" "0.1.0" _ _ HP Hnd).
Defined.

(** ** The pyproject detector *)

Section DeclaredVersion.

Variable unicode_ToLower : Z -> Z.
Variable unicode_IsDigit : Z -> bool.

Hypothesis ToLower_ascii :
  forall r, 0 <= r < 0x80 ->
            unicode_ToLower r = if (65 <=? r) && (r <=? 90) then r + 32 else r.
Hypothesis ToLower_valid :
  forall r, utf8.ValidRune r = true -> utf8.ValidRune (unicode_ToLower r) = true.
Hypothesis ToLower_idempotent :
  forall r, utf8.ValidRune r = true ->
            unicode_ToLower (unicode_ToLower r) = unicode_ToLower r.

(** Canonicalizing twice, as the loop of [configPyProject] does, is
    canonicalizing once. *)
Lemma parsePyDep_twice (dep : string) :
  parsePyDep unicode_ToLower (parsePyDep unicode_ToLower dep)
  = parsePyDep unicode_ToLower dep.
Proof.
  apply parsePyDep_fixed; [| apply parsePyDep_free].
  apply ToLower_lowered; [assumption .. |]. unfold parsePyDep.
  repeat (apply lowered_SplitFirst; [reflexivity |]).
  apply lowered_ToLower; assumption.
Qed.

(** X13: when [pyproject.toml] is read and decoded, its [project] table has a
    list of dependencies (be it empty) and a [requires-python] that is not
    empty, [configPyProject] does not ask the resolver for a version and
    returns no error: it hands to [intoSource] the dependencies, each
    canonicalized, and [requires-python] trimmed at both ends of what is
    neither a digit nor a dot. *)
Theorem configPyProject_declared (w : World) (sourceDir doc : string)
    (pyProject : PyProjectToml) (dependencies : list string) :
  checksPass_fileExists w sourceDir ["pyproject.toml"] = true ->
  os_file w "pyproject.toml" = Some doc ->
  toml_Unmarshal_PyProjectToml w doc = Some pyProject ->
  project_Dependencies (Project pyProject) = Some dependencies ->
  project_RequiresPython (Project pyProject) <> EmptyString ->
  exists out src,
    intoSource w {| pyVersion := strings.TrimFunc (project_RequiresPython (Project pyProject))
                                   (notVersionRune unicode_IsDigit);
                    appName := project_Name (Project pyProject);
                    deps := List.map (parsePyDep unicode_ToLower) dependencies;
                    depStyle := Pep621 |}
    = (out, Ok src) /\
    configPyProject unicode_ToLower unicode_IsDigit w sourceDir
    = (Info "Detected pyproject.toml" :: out, Ok src).
Proof.
  intros Hcheck Hfile Hdec Hdeps Hreq.
  match goal with |- context [intoSource w ?c] =>
    destruct (intoSource_returns w c) as [out [src E]] end.
  exists out, src. split; [exact E |].
  unfold configPyProject. rewrite Hcheck. cbn [negb].
  unfold mbind, M_bind. rewrite bind_say, Hfile, Hdec, Hdeps.
  destruct (String.eqb_spec (project_RequiresPython (Project pyProject)) EmptyString)
    as [Hempty | _]; [contradiction |].
  unfold mret, M_ret. rewrite bind_ret.
  assert (Hmap : List.map (fun dep => parsePyDep unicode_ToLower
                                        (parsePyDep unicode_ToLower dep)) dependencies
                 = List.map (parsePyDep unicode_ToLower) dependencies).
  { apply map_ext. intros dep. apply parsePyDep_twice. }
  rewrite Hmap. fold (notVersionRune unicode_IsDigit). rewrite E. reflexivity.
Qed.

End DeclaredVersion.

Lemma configPyProject_declared_witness :
  checksPass_fileExists (pep621World ["Flask>=2.0"; "boto3"] ">=3.10") "/srv/app"
    ["pyproject.toml"] = true /\
  os_file (pep621World ["Flask>=2.0"; "boto3"] ">=3.10") "pyproject.toml" = Some "toml" /\
  ">=3.10" <> EmptyString /\
  strings.TrimFunc ">=3.10" (notVersionRune asciiIsDigit) = "3.10" /\
  List.map (parsePyDep latin1ToLower) ["Flask>=2.0"; "boto3"] = ["flask"; "boto3"] /\
  exists out src,
    intoSource (pep621World ["Flask>=2.0"; "boto3"] ">=3.10")
      {| pyVersion := "3.10"; appName := "shop"; deps := ["flask"; "boto3"];
         depStyle := Pep621 |}
    = (out, Ok src) /\
    configPyProject latin1ToLower asciiIsDigit
      (pep621World ["Flask>=2.0"; "boto3"] ">=3.10") "/srv/app"
    = (Info "Detected pyproject.toml" :: out, Ok src).
Proof.
  assert (Hne : ">=3.10" <> EmptyString) by discriminate.
  split; [reflexivity | split; [reflexivity | split; [exact Hne |]]].
  split; [reflexivity | split; [reflexivity |]].
  exact (configPyProject_declared latin1ToLower asciiIsDigit latin1ToLower_ascii
           latin1ToLower_valid latin1ToLower_idempotent
           (pep621World ["Flask>=2.0"; "boto3"] ">=3.10") "/srv/app" "toml" _
           ["Flask>=2.0"; "boto3"] eq_refl eq_refl eq_refl eq_refl Hne).
Defined.

(** ** Reading back a text file *)

Lemma rawLines_line (line rest : string) :
  strings.forallb (fun c => negb (Ascii.eqb c (chr 10))) line = true ->
  bufio.rawLines (line +:+ String (chr 10) rest) = line :: bufio.rawLines rest.
Proof.
  induction line as [| c line IH]; intros Hline.
  - reflexivity.
  - cbn [strings.forallb] in Hline. apply andb_prop in Hline as [Hc Hline].
    rewrite app_cons. cbn [bufio.rawLines].
    change (Ascii.eqb c "010") with (Ascii.eqb c (chr 10)).
    apply negb_true_iff in Hc. rewrite Hc, (IH Hline). reflexivity.
Qed.

Lemma dropCR_id (line : string) : endsWithCR line = false -> bufio.dropCR line = line.
Proof.
  induction line as [| c line IH]; [reflexivity |].
  destruct line as [| d line].
  - cbn. change (Ascii.eqb c "013") with (Ascii.eqb c (chr 13)). intros ->. reflexivity.
  - intros H. change (bufio.dropCR (String c (String d line)))
      with (String c (bufio.dropCR (String d line))).
    rewrite IH; [reflexivity | exact H].
Qed.

Lemma dropCR_CR (line : string) :
  bufio.dropCR (line +:+ String (chr 13) EmptyString) = line.
Proof.
  induction line as [| c line IH]; [reflexivity |].
  rewrite app_cons.
  destruct (line +:+ String (chr 13) EmptyString) as [| d rest] eqn:E.
  - destruct line; discriminate E.
  - change (bufio.dropCR (String c (String d rest)))
      with (String c (bufio.dropCR (String d rest))).
    rewrite IH. reflexivity.
Qed.

Lemma scanLines_written (lines : list (string * bool)) :
  Forall (fun lc => plainLine (fst lc)) lines ->
  bufio.scanLines (writeLines lines) = (List.map fst lines, false).
Proof.
  unfold bufio.scanLines.
  induction 1 as [| [line crlf] lines [Hlf [Hcr Hlen]] _ IH]; [reflexivity |].
  cbn [fst] in *. cbn [writeLines List.map fst]. destruct crlf.
  - change (line +:+ String (chr 13) newline +:+ writeLines lines)
      with (line +:+ (String (chr 13) EmptyString +:+ String (chr 10) (writeLines lines))).
    rewrite <- app_assoc_string, rawLines_line.
    + cbn [bufio.scanRaw]. rewrite length_app_string. cbn [String.length].
      destruct (N.leb_spec bufio.MaxScanTokenSize
                  (N.of_nat (String.length line + 1))); [lia |].
      rewrite IH, dropCR_CR. reflexivity.
    + rewrite forallb_app_string, Hlf. reflexivity.
  - change (line +:+ newline +:+ writeLines lines)
      with (line +:+ String (chr 10) (writeLines lines)).
    rewrite rawLines_line by exact Hlf.
    cbn [bufio.scanRaw].
    destruct (N.leb_spec bufio.MaxScanTokenSize (N.of_nat (String.length line))); [lia |].
    rewrite IH, (dropCR_id line Hcr). reflexivity.
Qed.

(** X14: [readLines] reads back a text file as it was written: when every
    line has no line feed in it and no carriage return at its end, is shorter
    than the buffer of the scanner, and is ended by a line feed or by a
    carriage return and a line feed, [readLines] returns these lines in
    order, the empty ones too, without the line ends. *)
Theorem readLines_written (w : World) (filename : string) (lines : list (string * bool)) :
  os_file w filename = Some (writeLines lines) ->
  Forall (fun lc => plainLine (fst lc)) lines ->
  readLines w filename = ([], Ok (List.map fst lines)).
Proof.
  intros Hfile Hplain. unfold readLines.
  rewrite Hfile, (scanLines_written lines Hplain). reflexivity.
Qed.

Lemma readLines_written_witness :
  os_file writtenRequirements "requirements.txt" = Some (writeLines threeLines) /\
  Forall (fun lc => plainLine (fst lc)) threeLines /\
  readLines writtenRequirements "requirements.txt"
  = ([], Ok ["flask"; EmptyString; "boto3"]).
Proof.
  assert (Hplain : Forall (fun lc => plainLine (fst lc)) threeLines)
    by (repeat constructor).
  split; [reflexivity | split; [exact Hplain |]].
  exact (readLines_written writtenRequirements "requirements.txt" threeLines
           eq_refl Hplain).
Defined.

(** ** The files that are read *)

Lemma walkEntrypoint_same_sources (w w' : World) (dep : string) (entries : list WalkEntry)
    (entrypoint : option string) :
  (forall name, isPythonSource name = true -> os_file w name = os_file w' name) ->
  walkEntrypoint w dep entries entrypoint = walkEntrypoint w' dep entries entrypoint.
Proof.
  intros Hfiles. revert entrypoint.
  induction entries as [| e entries IH]; intros entrypoint; [reflexivity |].
  cbn [walkEntrypoint]. fold (isPythonSource (walk_path e)).
  destruct (walk_err e); [reflexivity |].
  destruct (isPythonSource (walk_path e)) eqn:Hsrc; [| apply IH].
  rewrite (Hfiles _ Hsrc).
  destruct (os_file w' (walk_path e)) as [content |]; [| reflexivity].
  destruct (bufio.scanLines content) as [lines err].
  destruct err; [reflexivity | apply IH].
Qed.

Lemma intoSource_same_sources (w w' : World) (cfg : PyCfg) :
  (forall name, isPythonSource name = true -> os_file w name = os_file w' name) ->
  filepath_Walk w = filepath_Walk w' ->
  intoSource w cfg = intoSource w' cfg.
Proof.
  intros Hfiles Hwalk.
  assert (Hfind : findEntrypoint w "streamlit" = findEntrypoint w' "streamlit").
  { unfold findEntrypoint. rewrite Hwalk. apply walkEntrypoint_same_sources. exact Hfiles. }
  unfold intoSource, buildSource. rewrite Hfind. reflexivity.
Qed.

Lemma os_file_withFile_ne (w : World) (name content n : string) :
  n <> name -> os_file (withFile w name content) n = os_file w n.
Proof.
  intros Hne. cbn [withFile os_file].
  destruct (String.eqb_spec n name); [contradiction | reflexivity].
Qed.

Lemma intoSource_withFile (w : World) (name content : string) (cfg : PyCfg) :
  isPythonSource name = false ->
  intoSource (withFile w name content) cfg = intoSource w cfg.
Proof.
  intros Hsrc. apply intoSource_same_sources; [| reflexivity].
  intros n Hn. apply os_file_withFile_ne. intros ->. congruence.
Qed.

Lemma extractPythonVersion_withFile (w : World) (name content : string) :
  name <> "Pipfile.lock" ->
  extractPythonVersion (withFile w name content) = extractPythonVersion w.
Proof.
  intros Hne. unfold extractPythonVersion, pipfileLockVersion, pythonVersionOutput.
  rewrite os_file_withFile_ne by congruence. reflexivity.
Qed.

Lemma readLines_withFile (w : World) (name content filename : string) :
  filename <> name ->
  readLines (withFile w name content) filename = readLines w filename.
Proof.
  intros Hne. unfold readLines. rewrite os_file_withFile_ne by exact Hne. reflexivity.
Qed.

(** X15: the scanner opens no file but [pyproject.toml], [Pipfile],
    [Pipfile.lock], [requirements.txt], [requirements.in] and the Python
    sources (extension [.py], no [.venv] in the path): what any other file
    holds does not change the result of [configurePython].  So the marker
    files [poetry.lock], [environment.yml] and [setup.cfg] count by their
    existence only; [setup.py] is a Python source, which the locator may
    open. *)
Theorem configurePython_reads_only (unicode_ToLower : Z -> Z) (unicode_IsDigit : Z -> bool)
    (w : World) (sourceDir name content : string) :
  name ∉ manifestNames ->
  isPythonSource name = false ->
  configurePython unicode_ToLower unicode_IsDigit (withFile w name content) sourceDir
  = configurePython unicode_ToLower unicode_IsDigit w sourceDir.
Proof.
  intros Hname Hsrc. unfold manifestNames in Hname.
  assert (Hproj : "pyproject.toml" <> name) by (intros <-; apply Hname; left).
  assert (Hpip : "Pipfile" <> name) by (intros <-; apply Hname; right; left).
  assert (Hlock : name <> "Pipfile.lock") by (intros ->; apply Hname; do 2 right; left).
  assert (Htxt : "requirements.txt" <> name) by (intros <-; apply Hname; do 3 right; left).
  assert (Hin : "requirements.in" <> name) by (intros <-; apply Hname; do 4 right; left).
  assert (Hver := extractPythonVersion_withFile w name content Hlock).
  assert (Hinto := fun cfg => intoSource_withFile w name content cfg Hsrc).
  unfold configurePython. f_equal; [| f_equal; [| f_equal; [| f_equal]]].
  - unfold configPoetry.
    change (checksPass_fileExists (withFile w name content)) with (checksPass_fileExists w).
    change (toml_Unmarshal_PyProjectToml (withFile w name content))
      with (toml_Unmarshal_PyProjectToml w).
    rewrite (os_file_withFile_ne w name content _ Hproj).
    destruct (_ || _); [reflexivity |].
    unfold mbind, M_bind. apply bind_ext. intros _.
    destruct (os_file w "pyproject.toml") as [doc |]; [| reflexivity].
    destruct (toml_Unmarshal_PyProjectToml w doc) as [p |]; [| reflexivity].
    destruct (poetry_Dependencies (Tool_Poetry p)) as [table |]; [| reflexivity].
    destruct (mapIndex table "python") as [[v | | | | | |] |]; try reflexivity.
    apply Hinto.
  - unfold configPyProject.
    change (checksPass_fileExists (withFile w name content)) with (checksPass_fileExists w).
    change (toml_Unmarshal_PyProjectToml (withFile w name content))
      with (toml_Unmarshal_PyProjectToml w).
    rewrite (os_file_withFile_ne w name content _ Hproj), Hver.
    destruct (negb _); [reflexivity |].
    unfold mbind, M_bind. apply bind_ext. intros _.
    destruct (os_file w "pyproject.toml") as [doc |]; [| reflexivity].
    destruct (toml_Unmarshal_PyProjectToml w doc) as [p |]; [| reflexivity].
    destruct (project_Dependencies (Project p)) as [l |]; [| reflexivity].
    apply bind_ext. intros v. apply Hinto.
  - unfold configPipfile.
    change (checksPass_fileExists (withFile w name content)) with (checksPass_fileExists w).
    change (toml_Unmarshal_Pipfile (withFile w name content))
      with (toml_Unmarshal_Pipfile w).
    rewrite (os_file_withFile_ne w name content _ Hpip), Hver.
    destruct (negb _); [reflexivity |].
    unfold mbind, M_bind. apply bind_ext. intros _.
    destruct (os_file w "Pipfile") as [doc |]; [| reflexivity].
    destruct (toml_Unmarshal_Pipfile w doc) as [p |]; [| reflexivity].
    destruct (Packages p) as [table |]; [| reflexivity].
    apply bind_ext. intros [v pinned]. apply Hinto.
  - unfold configRequirements.
    change (checksPass_fileExists (withFile w name content)) with (checksPass_fileExists w).
    rewrite (readLines_withFile w name content _ Htxt),
      (readLines_withFile w name content _ Hin), Hver.
    destruct (checksPass_fileExists w sourceDir ["requirements.txt"]).
    + unfold mbind, M_bind. apply bind_ext. intros _. apply bind_ext. intros lines.
      destruct lines as [| line lines]; [reflexivity |].
      apply bind_ext. intros [v pinned]. apply Hinto.
    + destruct (checksPass_fileExists w sourceDir ["requirements.in"]); [| reflexivity].
      unfold mbind, M_bind. apply bind_ext. intros _. apply bind_ext. intros lines.
      destruct lines as [| line lines]; [reflexivity |].
      apply bind_ext. intros [v pinned]. apply Hinto.
  - change (checksPass_fileExists (withFile w name content)) with (checksPass_fileExists w).
    rewrite Hver. reflexivity.
Qed.

Lemma configurePython_reads_only_witness :
  ("poetry.lock" ∉ manifestNames) /\
  isPythonSource "poetry.lock" = false /\
  configurePython asciiToLower asciiIsDigit
    (withFile flaskOnce "poetry.lock" "[[package]]") "/srv/app"
  = configurePython asciiToLower asciiIsDigit flaskOnce "/srv/app".
Proof.
  assert (Hname : "poetry.lock" ∉ manifestNames).
  { unfold manifestNames. intros H.
    repeat (apply elem_of_cons in H as [H | H]; [discriminate H |]).
    inversion H. }
  split; [exact Hname | split; [reflexivity |]].
  exact (configurePython_reads_only asciiToLower asciiIsDigit flaskOnce "/srv/app"
           "poetry.lock" "[[package]]" Hname eq_refl).
Defined.

(** [setup.py] is a Python source: what it holds can change the entrypoint
    of a Streamlit project. *)
Example setup_py_is_read :
  isPythonSource "setup.py" = true /\
  findEntrypoint scriptAndSetup "streamlit" = Some "a.py" /\
  findEntrypoint (withFile scriptAndSetup "setup.py" ("import streamlit" +:+ newline))
                 "streamlit"
  = Some "setup.py".
Proof. repeat split. Qed.

(** X16: [requirements.txt] shadows [requirements.in].  When the check for
    [requirements.txt] passes, [configRequirements] never opens
    [requirements.in]: the two lists are not merged, and whatever
    [requirements.in] holds, the result is the same. *)
Theorem configRequirements_txt_shadows_in (unicode_ToLower : Z -> Z) (w : World)
    (sourceDir content : string) :
  checksPass_fileExists w sourceDir ["requirements.txt"] = true ->
  configRequirements unicode_ToLower (withFile w "requirements.in" content) sourceDir
  = configRequirements unicode_ToLower w sourceDir.
Proof.
  intros Hcheck. unfold configRequirements.
  change (checksPass_fileExists (withFile w "requirements.in" content))
    with (checksPass_fileExists w).
  rewrite Hcheck.
  rewrite (readLines_withFile w "requirements.in" content "requirements.txt")
    by discriminate.
  rewrite (extractPythonVersion_withFile w "requirements.in" content) by discriminate.
  unfold mbind, M_bind. apply bind_ext. intros _. apply bind_ext. intros lines.
  destruct lines as [| line lines]; [reflexivity |].
  apply bind_ext. intros [v pinned]. apply intoSource_withFile. reflexivity.
Qed.

Lemma configRequirements_txt_shadows_in_witness :
  checksPass_fileExists flaskOnce "/srv/app" ["requirements.txt"] = true /\
  configRequirements asciiToLower
    (withFile flaskOnce "requirements.in" ("fastapi" +:+ newline)) "/srv/app"
  = configRequirements asciiToLower flaskOnce "/srv/app".
Proof.
  split; [reflexivity |].
  exact (configRequirements_txt_shadows_in asciiToLower flaskOnce "/srv/app"
           ("fastapi" +:+ newline) eq_refl).
Defined.

(** ** The version of a Poetry project *)

Lemma HasPrefix_split (s sep : string) :
  strings.HasPrefix s sep = true -> exists rest, s = sep +:+ rest.
Proof.
  revert s. induction sep as [| d sep IH]; intros s.
  - exists s. reflexivity.
  - destruct s as [| c s]; cbn [strings.HasPrefix]; [discriminate |].
    destruct (Ascii.eqb_spec c d) as [-> | _]; [| discriminate].
    intros H. apply IH in H as [rest ->]. exists rest. reflexivity.
Qed.

(** A cut leaves the string as it is, or leaves what stands before the
    separator. *)
Lemma SplitFirst_cut (s sep : string) :
  strings.SplitFirst s sep = s \/
  exists rest, s = strings.SplitFirst s sep +:+ sep +:+ rest.
Proof.
  induction s as [| c s IH]; [left; reflexivity |].
  cbn [strings.SplitFirst].
  destruct (strings.HasPrefix (String c s) sep) eqn:Hpre.
  - right. apply HasPrefix_split in Hpre as [rest Hrest]. exists rest. exact Hrest.
  - destruct IH as [IH | [rest IH]].
    + left. rewrite IH. reflexivity.
    + right. exists rest. rewrite app_cons, <- IH. reflexivity.
Qed.

Lemma cut_step (t s sep : string) :
  sep ∈ separators ->
  (exists tail, t = s +:+ tail) ->
  strings.SplitFirst s sep = s \/
  exists sep' rest, sep' ∈ separators /\ t = strings.SplitFirst s sep +:+ sep' +:+ rest.
Proof.
  intros Hsep [tail ->].
  destruct (SplitFirst_cut s sep) as [Hid | [rest Hcut]]; [left; exact Hid | right].
  exists sep, (rest +:+ tail). split; [exact Hsep |].
  rewrite Hcut at 1. rewrite !app_assoc_string. reflexivity.
Qed.

(** What [parsePyDep] keeps of the lowercased token is all of it, or what
    stands before one of the separators. *)
Lemma cutAll_cut (t : string) :
  cutAll t = t \/
  exists sep rest, sep ∈ separators /\ t = cutAll t +:+ sep +:+ rest.
Proof.
  unfold cutAll.
  set (d1 := strings.SplitFirst t ";").
  set (d2 := strings.SplitFirst d1 " ").
  set (d3 := strings.SplitFirst d2 "[").
  set (d4 := strings.SplitFirst d3 "==").
  set (d5 := strings.SplitFirst d4 ">").
  set (d6 := strings.SplitFirst d5 "<").
  assert (H0 : exists tail, t = t +:+ tail)
    by (exists EmptyString; symmetry; apply app_empty_r).
  assert (H1 : exists tail, t = d1 +:+ tail) by apply SplitFirst_prefix.
  assert (Hnext : forall s sep, (exists tail, t = s +:+ tail) ->
                    exists tail, t = strings.SplitFirst s sep +:+ tail).
  { intros s sep [tail Ht]. destruct (SplitFirst_prefix s sep) as [u Hu].
    exists (u +:+ tail). rewrite Ht at 1. rewrite Hu at 1. apply app_assoc_string. }
  pose proof (Hnext d1 " " H1) as H2. fold d2 in H2.
  pose proof (Hnext d2 "[" H2) as H3. fold d3 in H3.
  pose proof (Hnext d3 "==" H3) as H4. fold d4 in H4.
  pose proof (Hnext d4 ">" H4) as H5. fold d5 in H5.
  pose proof (Hnext d5 "<" H5) as H6. fold d6 in H6.
  assert (S1 : ";" ∈ separators) by (unfold separators; left).
  assert (S2 : " " ∈ separators) by (unfold separators; right; left).
  assert (S3 : "[" ∈ separators) by (unfold separators; do 2 right; left).
  assert (S4 : "==" ∈ separators) by (unfold separators; do 3 right; left).
  assert (S5 : ">" ∈ separators) by (unfold separators; do 4 right; left).
  assert (S6 : "<" ∈ separators) by (unfold separators; do 5 right; left).
  assert (S7 : "~=" ∈ separators) by (unfold separators; do 6 right; left).
  destruct (cut_step t d6 "~=" S7 H6) as [-> | Hcut]; [| right; exact Hcut].
  destruct (cut_step t d5 "<" S6 H5) as [E6 | Hcut]; [| right; exact Hcut].
  fold d6 in E6. rewrite E6.
  destruct (cut_step t d4 ">" S5 H4) as [E5 | Hcut]; [| right; exact Hcut].
  fold d5 in E5. rewrite E5.
  destruct (cut_step t d3 "==" S4 H3) as [E4 | Hcut]; [| right; exact Hcut].
  fold d4 in E4. rewrite E4.
  destruct (cut_step t d2 "[" S3 H2) as [E3 | Hcut]; [| right; exact Hcut].
  fold d3 in E3. rewrite E3.
  destruct (cut_step t d1 " " S2 H1) as [E2 | Hcut]; [| right; exact Hcut].
  fold d2 in E2. rewrite E2.
  destruct (cut_step t t ";" S1 H0) as [E1 | Hcut]; [| right; exact Hcut].
  fold d1 in E1. rewrite E1. left. reflexivity.
Qed.

Lemma Contains_middle (p sep rest : string) :
  strings.Contains (p +:+ sep +:+ rest) sep = true.
Proof.
  induction p as [| c p IH].
  - change (EmptyString +:+ sep +:+ rest) with (sep +:+ rest).
    assert (H : strings.HasPrefix (sep +:+ rest) sep = true).
    { clear. induction sep as [| d sep IH]; [reflexivity |].
      rewrite app_cons. cbn [strings.HasPrefix]. rewrite Ascii.eqb_refl. exact IH. }
    destruct (sep +:+ rest); cbn [strings.Contains]; rewrite H; reflexivity.
  - rewrite app_cons. cbn [strings.Contains]. rewrite IH. apply orb_true_r.
Qed.

(** X17: the Python version that a Poetry project hands to the Dockerfile
    template is a part of the [python] constraint, lowercased and without
    its leading [^]: a prefix of it that holds no separator, and either all
    of it or what stands before one of the separators.  A constraint without
    a separator is handed over whole ([^3.11] gives [3.11]); of a constraint
    that is a name without a separator character, then a separator, the name
    is handed over, so [^3.10,<3.13] gives [3.10,] with the comma, and a
    constraint that starts with a comparison operator, as [>=3.9,<4.0] does,
    gives the empty version. *)
Theorem configPoetry_version_before_operator (unicode_ToLower : Z -> Z) (w : World)
    (sourceDir doc : string) (pyProject : PyProjectToml) (table : list (string * TomlValue))
    (v : string) (out : list LogLine) (src : SourceInfo) :
  os_file w "pyproject.toml" = Some doc ->
  toml_Unmarshal_PyProjectToml w doc = Some pyProject ->
  poetry_Dependencies (Tool_Poetry pyProject) = Some table ->
  mapIndex table "python" = Some (TomlString v) ->
  configPoetry unicode_ToLower w sourceDir = (out, Ok (Some src)) ->
  let constraint := strings.ToLower unicode_ToLower (strings.TrimPrefix v "^") in
  exists vars version,
    Files src = templatesExecute "templates/python-docker" vars /\
    vars !! "pyVersion" = Some (VarString version) /\
    vars !! "appName" = Some (VarString (poetry_Name (Tool_Poetry pyProject))) /\
    Forall (fun sep => strings.Contains version sep = false) separators /\
    (version = constraint \/
     exists sep rest, sep ∈ separators /\ constraint = version +:+ sep +:+ rest) /\
    (Forall (fun sep => strings.Contains constraint sep = false) separators ->
     version = constraint) /\
    (forall name sep rest,
       constraint = name +:+ sep +:+ rest ->
       strings.forallb (fun c => negb (separatorChar c)) name = true ->
       sep ∈ separators ->
       (sep = "~=" -> strings.HasPrefix rest "=" = false) ->
       version = name).
Proof.
  intros Hfile Hdec Htable Hpy H constraint.
  unfold configPoetry in H. destruct (_ || _); [discriminate |].
  bind_inv H u. rewrite Hfile, Hdec, Htable, Hpy in H.
  change (parsePyDep unicode_ToLower (strings.TrimPrefix v "^"))
    with (cutAll constraint) in H.
  apply intoSource_descriptor in H as [app [_ H]].
  apply buildSource_descriptor
    in H as [_ [Hsup [vars [Hfiles [_ [_ [_ [_ [_ Hvars]]]]]]]]].
  cbn [pyVersion appName depStyle] in Hvars.
  assert (Hlook : vars !! "pyVersion" = Some (VarString (cutAll constraint)) /\
                  vars !! "appName" = Some (VarString (poetry_Name (Tool_Poetry pyProject)))).
  { destruct (supported_cases app Hsup) as [-> | [-> | ->]];
      cbn [String.eqb Ascii.eqb Bool.eqb FastAPI Flask Streamlit] in Hvars.
    - subst vars. split; reflexivity.
    - subst vars. split; reflexivity.
    - destruct Hvars as [entry [_ ->]]. split; reflexivity. }
  destruct Hlook as [Hversion Hname].
  exists vars, (cutAll constraint).
  split; [exact Hfiles | split; [exact Hversion | split; [exact Hname |]]].
  split; [exact (parsePyDep_free unicode_ToLower (strings.TrimPrefix v "^")) |].
  split; [apply cutAll_cut | split].
  - intros Hfree. destruct (cutAll_cut constraint) as [E | [sep [rest [Hsep E]]]]; [exact E |].
    exfalso. apply (proj1 (Forall_forall _ _) Hfree) in Hsep.
    rewrite E, Contains_middle in Hsep. discriminate Hsep.
  - intros name sep rest E Hfree Hsep Htilde.
    rewrite E, (cutAll_skip name _ Hfree), (cutAll_separator sep rest Hsep Htilde).
    apply app_empty_r.
Qed.

Lemma configPoetry_version_before_operator_witness :
  os_file (poetryWorld caretTable) "pyproject.toml" = Some "toml" /\
  toml_Unmarshal_PyProjectToml (poetryWorld caretTable) "toml"
  = Some (poetryProject "app" caretTable) /\
  mapIndex caretTable "python" = Some (TomlString "^3.11") /\
  Forall (fun sep => strings.Contains "3.11" sep = false) separators /\
  mapIndex rangeTable "python" = Some (TomlString ">=3.9,<4.0") /\
  (">" ∈ separators) /\
  (exists src vars,
     configPoetry asciiToLower (poetryWorld caretTable) "/srv/app"
     = ([Info "Detected Poetry project"], Ok (Some src)) /\
     Files src = templatesExecute "templates/python-docker" vars /\
     vars !! "pyVersion" = Some (VarString "3.11")) /\
  exists src vars,
    configPoetry asciiToLower (poetryWorld rangeTable) "/srv/app"
    = ([Info "Detected Poetry project"], Ok (Some src)) /\
    Files src = templatesExecute "templates/python-docker" vars /\
    vars !! "pyVersion" = Some (VarString EmptyString).
Proof.
  assert (Hsep : ">" ∈ separators) by (unfold separators; do 4 right; left).
  assert (Hfree : Forall (fun sep => strings.Contains "3.11" sep = false) separators)
    by (repeat constructor).
  repeat (split; [reflexivity |]).
  split; [exact Hfree | split; [reflexivity | split; [exact Hsep | split]]].
  - destruct (configPoetry_version_before_operator asciiToLower (poetryWorld caretTable)
                "/srv/app" "toml" (poetryProject "app" caretTable) caretTable "^3.11" _ _
                eq_refl eq_refl eq_refl eq_refl eq_refl)
      as [vars [version [Hfiles [Hv [_ [_ [_ [Hwhole _]]]]]]]].
    eexists _, vars. split; [reflexivity | split; [exact Hfiles |]].
    rewrite Hv, (Hwhole Hfree). reflexivity.
  - destruct (configPoetry_version_before_operator asciiToLower (poetryWorld rangeTable)
                "/srv/app" "toml" (poetryProject "app" rangeTable) rangeTable ">=3.9,<4.0" _ _
                eq_refl eq_refl eq_refl eq_refl eq_refl)
      as [vars [version [Hfiles [Hv [_ [_ [_ [_ Hname]]]]]]]].
    eexists _, vars. split; [reflexivity | split; [exact Hfiles |]].
    rewrite Hv, (Hname EmptyString ">" "=3.9,<4.0" eq_refl eq_refl Hsep
                   (fun E => ltac:(discriminate E))).
    reflexivity.
Defined.
